(** * CryoAtom / CryoSPARC orchestration scripts: a shallow embedding

    The three scripts [run_cryoatom.py], [run_cryoatom_auto.py] and
    [cryoatom_external_job.py] are embedded as functions in a small
    state-and-exception monad.  Python [float] is IEEE binary64, modelled by
    Rocq's primitive floats; Python [str] is modelled by its UTF-8 bytes
    ([string]); [pathlib.Path] by a POSIX pure path (root and components).

    The file has two parts: the definitions (the embedding of the scripts,
    then the notions the statements need), and the lemmas and theorems. *)

From Stdlib Require Import ZArith NArith Lia List Bool String Ascii Floats DecimalString.
From Stdlib Require Uint63.
Import ListNotations.
Local Open Scope string_scope.
Local Open Scope Z_scope.

(* ===================================================================== *)
(** * Python strings *)
(* ===================================================================== *)

Module PyStr.

(** [if s:] for an optional string: [None] and [""] are falsy. *)
Definition truthy (o : option string) : bool :=
  match o with
  | Some s => negb (String.eqb s "")
  | None => false
  end.

(** [s.split(sep)] for a one-character separator. *)
Fixpoint split_on (sep : ascii) (s : string) : list string :=
  match s with
  | EmptyString => [""]
  | String c r =>
      if Ascii.eqb c sep then "" :: split_on sep r
      else match split_on sep r with
           | [] => [String c ""]
           | w :: ws => String c w :: ws
           end
  end.

(** [sep.join(xs)]. *)
Fixpoint join (sep : string) (xs : list string) : string :=
  match xs with
  | [] => ""
  | [x] => x
  | x :: r => x ++ sep ++ join sep r
  end.

(** [s.endswith(suf)]. *)
Definition endswith (s suf : string) : bool :=
  (String.length suf <=? String.length s)%nat &&
  String.eqb (substring (String.length s - String.length suf)
                        (String.length suf) s) suf.

(** [x in xs] for a list of strings. *)
Definition mem (x : string) (xs : list string) : bool :=
  existsb (String.eqb x) xs.

(** [k] is the first element of [l] that satisfies [f]. *)
Definition first_such (f : string -> bool) (l : list string) (k : string)
  : Prop :=
  exists pre post,
    l = (pre ++ k :: post)%list /\ f k = true /\
    forall x, In x pre -> f x = false.

End PyStr.

(* ===================================================================== *)
(** * pathlib: pure POSIX paths *)
(* ===================================================================== *)

Module Pathlib.

(** A parsed path: [root] is [""], ["/"] or ["//"]; [parts] are the
    components after the root, none empty and none equal to ["."]. *)
Record Path := mkPath { root : string; parts : list string }.

Definition keep_part (x : string) : bool :=
  negb (String.eqb x "") && negb (String.eqb x ".").

(** [posixpath.splitroot]: exactly two leading slashes are kept as ["//"]. *)
Definition splitroot (s : string) : string * string :=
  match s with
  | String "/" (String "/" (String "/" r)) => ("/", String "/" (String "/" r))
  | String "/" (String "/" r) => ("//", r)
  | String "/" r => ("/", r)
  | _ => ("", s)
  end.

(** [Path(s)]. *)
Definition of_string (s : string) : Path :=
  let '(rt, rel) := splitroot s in
  mkPath rt (filter keep_part (PyStr.split_on "/" rel)).

(** [p.is_absolute()]. *)
Definition is_absolute (p : Path) : bool := negb (String.eqb (root p) "").

(** [p / q] for a path [q]: an absolute right operand replaces the left. *)
Definition join (p q : Path) : Path :=
  if is_absolute q then q else mkPath (root p) (parts p ++ parts q).

(** [p / s] for a string [s]. *)
Definition div (p : Path) (s : string) : Path := join p (of_string s).

(** [str(p)]. *)
Definition to_string (p : Path) : string :=
  match root p, parts p with
  | "", [] => "."
  | rt, ps => rt ++ PyStr.join "/" ps
  end.

Definition eqb (p q : Path) : bool :=
  String.eqb (root p) (root q) &&
  (if list_eq_dec string_dec (parts p) (parts q) then true else false).

End Pathlib.

Abbreviation Path := Pathlib.Path.
Infix "//" := Pathlib.div (at level 40, left associativity).

(* ===================================================================== *)
(** * Process model: file system, event trace, exceptions *)
(* ===================================================================== *)

Inductive level := INFO | WARNING | ERROR.

(** What a script does to the outside world, in order.  A log record is
    identified by its call site and carries the formatted arguments. *)
Inductive event :=
| Log (lv : level) (site : string) (args : list string)
    (* logger.info / logger.warning / logger.error / logger.exception *)
| JobLog (uid : string) (text : string) (args : list string)
    (* job.log(...) and ej.log(...) on a CryoSPARC job *)
| Mkdir (p : Path)                         (* p.mkdir(parents=True, exist_ok=True) *)
| Copy (src dst : Path)                    (* shutil.copy2(src, dst) *)
| Spawn (cmd : list string) (cwd : option Path)   (* subprocess.run *)
| ReadRow (i : Z).                         (* ds[i] *)

(** Messages of the [RuntimeError]s raised by [choose_map_field]. *)
Inductive rt_msg :=
| FieldNotFound (explicit : string) (keys : list string)
| NoPathFieldFound (keys : list string).

Inductive exn :=
| ValueError
| ZeroDivisionError
| RuntimeError (m : rt_msg)
| OSError
| CalledProcessError (returncode : Z) (cmd : list string)
| OtherException.

(** [Ret]: normal completion; [Raise]: an [Exception] propagates;
    [SysExit]: [sys.exit(code)], which [except Exception] does not catch. *)
Inductive outcome (A : Type) :=
| Ret (a : A)
| Raise (e : exn)
| SysExit (code : Z).
Arguments Ret {A} a.
Arguments Raise {A} e.
Arguments SysExit {A} code.

(** A computation starts from the set of paths that exist and yields an
    outcome, the paths that exist afterwards and the events it caused,
    oldest first. *)
Definition M (A : Type) : Type :=
  list Path -> outcome A * list Path * list event.

Definition ret {A} (a : A) : M A := fun fs => (Ret a, fs, []).

Definition bind {A B} (m : M A) (k : A -> M B) : M B :=
  fun fs =>
    match m fs with
    | (Ret a, fs1, ev1) =>
        let '(o, fs2, ev2) := k a fs1 in (o, fs2, (ev1 ++ ev2)%list)
    | (Raise e, fs1, ev1) => (Raise e, fs1, ev1)
    | (SysExit c, fs1, ev1) => (SysExit c, fs1, ev1)
    end.

Declare Scope py_scope.
Delimit Scope py_scope with py.
Notation "x <- m ;; k" := (bind m (fun x => k))
  (at level 61, m at next level, right associativity) : py_scope.
Notation "m ;; k" := (bind m (fun _ => k))
  (at level 61, right associativity) : py_scope.
Local Open Scope py_scope.

Definition raise {A} (e : exn) : M A := fun fs => (Raise e, fs, []).
Definition sys_exit {A} (c : Z) : M A := fun fs => (SysExit c, fs, []).

(** A computation without effects. *)
Definition lift {A} (o : outcome A) : M A := fun fs => (o, fs, []).

(** [try: m except Exception as e: h e]. *)
Definition try_except {A} (m : M A) (h : exn -> M A) : M A :=
  fun fs =>
    match m fs with
    | (Raise e, fs1, ev1) =>
        let '(o, fs2, ev2) := h e fs1 in (o, fs2, (ev1 ++ ev2)%list)
    | r => r
    end.

Definition emit (e : event) : M unit := fun fs => (Ret tt, fs, [e]).

Definition log (lv : level) (site : string) (args : list string) : M unit :=
  emit (Log lv site args).

(** The exit status the operating system sees: 0 on normal return, the low
    byte of the argument of [sys.exit], 1 for an uncaught exception. *)
Definition exit_status {A} (o : outcome A) : Z :=
  match o with
  | Ret _ => 0
  | SysExit c => c mod 256
  | Raise _ => 1
  end.

(** [str(n)] for an [int]. *)
Definition str_of_int (n : Z) : string :=
  DecimalString.NilZero.string_of_int (Z.to_int n).

(** A record of the script's logger. *)
Definition is_log (e : event) : Prop :=
  exists lv site args, e = Log lv site args.

Definition is_warning (e : event) : Prop :=
  exists site args, e = Log WARNING site args.

(* ===================================================================== *)
(** * Python floats *)
(* ===================================================================== *)

Module PyFloat.

(** [max(a, b)]: the first argument is kept unless the second is greater. *)
Definition py_max (a b : float) : float :=
  if PrimFloat.ltb a b then b else a.

(** [a / b] raises [ZeroDivisionError] when [b == 0]. *)
Definition truediv (a b : float) : outcome float :=
  if PrimFloat.eqb b 0%float then Raise ZeroDivisionError
  else Ret (PrimFloat.div a b).

(** An order-preserving key for the numbers of binary64. *)
Definition sf_key (f : spec_float) : Z * Z * Z :=
  match f with
  | S754_nan => (0, 0, 0)
  | S754_zero _ => (0, 0, 0)
  | S754_infinity s => (if s then -2 else 2, 0, 0)
  | S754_finite s m e => if s then (-1, - e, Zneg m) else (1, e, Zpos m)
  end.

Definition key (x : float) : Z * Z * Z := sf_key (Prim2SF x).

Definition key_lt (a b : Z * Z * Z) : Prop :=
  let '(a1, a2, a3) := a in
  let '(b1, b2, b3) := b in
  a1 < b1 \/ (a1 = b1 /\ (a2 < b2 \/ (a2 = b2 /\ a3 < b3))).

Definition sf_is_nan (f : spec_float) : bool :=
  match f with S754_nan => true | _ => false end.

(** Neither NaN nor an infinity. *)
Definition finite (x : float) : Prop := PrimFloat.is_finite x = true.

End PyFloat.

(* ===================================================================== *)
(** * External collaborators *)
(* ===================================================================== *)

(** The Python built-ins the scripts call on text.  [None] stands for the
    [ValueError] of [int(s)] and [float(s)]. *)
Record Builtins := mkBuiltins {
  py_int : string -> option Z;
  py_float : string -> option float;
  str_strip : string -> string;
  str_isdigit : string -> bool;
  str_splitlines : string -> list string
}.

(** The built-ins restricted to ASCII text with decimal integer numerals,
    which is what [nvidia-smi --format=csv,noheader,nounits] prints; they
    instantiate [Builtins] in the concrete runs below. *)
Module AsciiText.

Definition is_space (c : ascii) : bool :=
  let n := N_of_ascii c in
  ((9 <=? n) && (n <=? 13) || (28 <=? n) && (n <=? 32))%N.

Definition is_digit (c : ascii) : bool :=
  let n := N_of_ascii c in ((48 <=? n) && (n <=? 57))%N.

Fixpoint lstrip (s : string) : string :=
  match s with
  | String c r => if is_space c then lstrip r else s
  | EmptyString => s
  end.

Fixpoint rstrip (s : string) : string :=
  match s with
  | String c r =>
      let r' := rstrip r in
      if is_space c && String.eqb r' "" then "" else String c r'
  | EmptyString => s
  end.

Definition strip (s : string) : string := rstrip (lstrip s).

Fixpoint all_digits (s : string) : bool :=
  match s with
  | String c r => is_digit c && all_digits r
  | EmptyString => true
  end.

Definition isdigit (s : string) : bool :=
  negb (String.eqb s "") && all_digits s.

Fixpoint digits_value (acc : Z) (s : string) : Z :=
  match s with
  | String c r => digits_value (10 * acc + (Z.of_N (N_of_ascii c) - 48)) r
  | EmptyString => acc
  end.

Definition to_int (s : string) : option Z :=
  match strip s with
  | String "-" r => if isdigit r then Some (- digits_value 0 r) else None
  | String "+" r => if isdigit r then Some (digits_value 0 r) else None
  | t => if isdigit t then Some (digits_value 0 t) else None
  end.

Definition float_of_Z (z : Z) : float :=
  if (z <? 0)%Z then PrimFloat.opp (PrimFloat.of_uint63 (Uint63.of_Z (- z)))
  else PrimFloat.of_uint63 (Uint63.of_Z z).

Definition to_float (s : string) : option float :=
  option_map float_of_Z (to_int s).

Definition splitlines (s : string) : list string :=
  if String.eqb s "" then []
  else
    let ls := PyStr.split_on "010" s in
    if String.eqb (last ls "x") "" then removelast ls else ls.

Definition builtins : Builtins :=
  mkBuiltins to_int to_float strip isdigit splitlines.

End AsciiText.

(* ===================================================================== *)
(** * run_cryoatom_auto.py: [pick_free_gpu] *)
(* ===================================================================== *)

Module Gpu.

Section WithBuiltins.
Variable B : Builtins.

(** One parsed line of [nvidia-smi] output. *)
Record gpu_row := mkRow {
  idx : Z; mem_used : float; mem_total : float; util : float
}.

(** [(mem_ratio, util)]. *)
Definition score : Type := (float * float)%type.

(** Python's [<] on two pairs of floats: the first position where the
    components are not [==] decides. *)
Definition tuple_lt (a b : score) : bool :=
  if negb (PrimFloat.eqb (fst a) (fst b)) then PrimFloat.ltb (fst a) (fst b)
  else if negb (PrimFloat.eqb (snd a) (snd b)) then PrimFloat.ltb (snd a) (snd b)
  else false.

(** [{int(x) for x in visible.split(",") if x.strip().isdigit()}];
    [None] when [int] raises. *)
Fixpoint parse_allowed (xs : list string) : option (list Z) :=
  match xs with
  | [] => Some []
  | x :: r =>
      if str_isdigit B (str_strip B x) then
        match py_int B x with
        | None => None
        | Some n => option_map (cons n) (parse_allowed r)
        end
      else parse_allowed r
  end.

(** The [if visible:] block: the allow-list, [None] meaning no restriction;
    a failure of [int] is caught, logged and lifts the restriction. *)
Definition read_allowed (visible : option string) : M (option (list Z)) :=
  match visible with
  | Some v =>
      if PyStr.truthy visible then
        match parse_allowed (PyStr.split_on "," v) with
        | Some a => ret (Some a)
        | None =>
            log WARNING "CUDA_VISIBLE_DEVICES unparsable, ignored" [v] ;;
            ret None
        end
      else ret None
  | None => ret None
  end.

(** [allowed is not None and idx not in allowed]. *)
Definition excluded (allowed : option (list Z)) (i : Z) : bool :=
  match allowed with
  | Some a => negb (existsb (Z.eqb i) a)
  | None => false
  end.

(** The body of the loop up to the second [continue]. *)
Definition parse_line (line : string) : option gpu_row :=
  let parts := map (str_strip B) (PyStr.split_on "," line) in
  if (List.length parts <? 4)%nat then None
  else
    match py_int B (nth 0 parts "") with
    | None => None
    | Some i =>
        match py_float B (nth 1 parts "") with
        | None => None
        | Some mu =>
            match py_float B (nth 2 parts "") with
            | None => None
            | Some mt =>
                match py_float B (nth 3 parts "") with
                | None => None
                | Some u => Some (mkRow i mu mt u)
                end
            end
        end
    end.

(** The [for] loop over the lines, with [best_idx] and [best_score]. *)
Fixpoint scan (allowed : option (list Z)) (lines : list string)
         (best_idx : Z) (best_score : option score)
  : outcome (Z * option score) :=
  match lines with
  | [] => Ret (best_idx, best_score)
  | line :: rest =>
      match parse_line line with
      | None => scan allowed rest best_idx best_score
      | Some g =>
          if excluded allowed (idx g) then scan allowed rest best_idx best_score
          else
            match PyFloat.truediv (mem_used g)
                                  (PyFloat.py_max (mem_total g) 1%float) with
            | Ret mem_ratio =>
                let sc := (mem_ratio, util g) in
                if match best_score with
                   | None => true
                   | Some b => tuple_lt sc b
                   end
                then scan allowed rest (idx g) (Some sc)
                else scan allowed rest best_idx best_score
            | Raise e => Raise e
            | SysExit c => SysExit c
            end
      end
  end.

(** [pick_free_gpu()]; [visible] is [os.getenv("CUDA_VISIBLE_DEVICES")],
    [smi] the text returned by [subprocess.check_output], [None] when
    that call raises. *)
Definition pick_free_gpu (visible : option string) (smi : option string)
  : M Z :=
  allowed <- read_allowed visible ;;
  match smi with
  | None =>
      log WARNING "nvidia-smi unavailable, falling back to GPU 0" [] ;;
      ret 0
  | Some out =>
      r <- lift (scan allowed (str_splitlines B (str_strip B out)) 0 None) ;;
      match snd r with
      | None =>
          log WARNING "no valid GPU reported, falling back to GPU 0" [] ;;
          ret 0
      | Some _ =>
          log INFO "auto-selected GPU" [str_of_int (fst r)] ;;
          ret (fst r)
      end
  end.

(** ** The candidates that survive parsing and the allow-list *)

(** The allow-list [read_allowed] returns. *)
Definition allowed_of (visible : option string) : option (list Z) :=
  match visible with
  | Some v =>
      if PyStr.truthy visible then parse_allowed (PyStr.split_on "," v)
      else None
  | None => None
  end.

(** The lines of the output. *)
Definition lines_of (out : string) : list string :=
  str_splitlines B (str_strip B out).

Fixpoint candidates (allowed : option (list Z)) (lines : list string)
  : list gpu_row :=
  match lines with
  | [] => []
  | line :: rest =>
      match parse_line line with
      | Some g =>
          if excluded allowed (idx g) then candidates allowed rest
          else g :: candidates allowed rest
      | None => candidates allowed rest
      end
  end.

Definition score_of (g : gpu_row) : score :=
  (PrimFloat.div (mem_used g) (PyFloat.py_max (mem_total g) 1%float), util g).

(** The loop seen on the candidates alone. *)
Fixpoint select (cs : list gpu_row) (best_idx : Z) (best_score : option score)
  : Z * option score :=
  match cs with
  | [] => (best_idx, best_score)
  | g :: rest =>
      if match best_score with
         | None => true
         | Some b => tuple_lt (score_of g) b
         end
      then select rest (idx g) (Some (score_of g))
      else select rest best_idx best_score
  end.

(** ** The lexicographic order on scores *)

Definition lex_lt (a b : score) : Prop :=
  PrimFloat.ltb (fst a) (fst b) = true \/
  (PrimFloat.eqb (fst a) (fst b) = true /\ PrimFloat.ltb (snd a) (snd b) = true).

Definition lex_eq (a b : score) : Prop :=
  PrimFloat.eqb (fst a) (fst b) = true /\ PrimFloat.eqb (snd a) (snd b) = true.

Definition lex_le (a b : score) : Prop := lex_lt a b \/ lex_eq a b.

(** Both components of a score are numbers. *)
Definition numeric (a : score) : Prop :=
  PrimFloat.is_nan (fst a) = false /\ PrimFloat.is_nan (snd a) = false.

Definition skey (a : score) : (Z * Z * Z) * (Z * Z * Z) :=
  (PyFloat.key (fst a), PyFloat.key (snd a)).

Definition skey_lt (x y : (Z * Z * Z) * (Z * Z * Z)) : Prop :=
  PyFloat.key_lt (fst x) (fst y) \/ (fst x = fst y /\ PyFloat.key_lt (snd x) (snd y)).

(** ** The selected candidate *)

(** [g], at position [i] of [cs], is the first minimum of [cs]. *)
Definition best_of (cs : list gpu_row) (i : nat) (g : gpu_row) : Prop :=
  nth_error cs i = Some g /\
  (forall j g', nth_error cs j = Some g' -> lex_le (score_of g) (score_of g')) /\
  (forall j g', (j < i)%nat -> nth_error cs j = Some g' ->
                lex_lt (score_of g) (score_of g')).

Definition all_numeric (cs : list gpu_row) : Prop :=
  Forall (fun g => numeric (score_of g)) cs.

(** The three numbers of the line are finite. *)
Definition finite_row (g : gpu_row) : Prop :=
  PyFloat.finite (mem_used g) /\ PyFloat.finite (mem_total g) /\
  PyFloat.finite (util g).

(** A line is dropped when it does not parse or its index is not allowed. *)
Definition dropped (allowed : option (list Z)) (line : string) : Prop :=
  match parse_line line with
  | None => True
  | Some g => excluded allowed (idx g) = true
  end.

End WithBuiltins.

End Gpu.

(* ===================================================================== *)
(** * The CryoSPARC session, the file system and the external tool *)
(* ===================================================================== *)

(** One row of a dataset: field names with their values, in key order. *)
Definition Row : Type := list (string * string).

(** [.dir] of a project or job is a property in some versions of
    cryosparc-tools and a method in others. *)
Inductive dir_attr :=
| DirProperty (d : string)
| DirMethod (d : string).

Record Project := mkProject { p_uid : string; p_dir : dir_attr }.

Record Job := mkJob {
  j_uid : string;
  j_type : string;
  j_dir : dir_attr;
  j_load_output : string -> option (list Row)   (* None: load_output raises *)
}.

(** Everything outside the scripts. *)
Record Env := mkEnv {
  rt : Builtins;
  cwd : list string;                       (* os.getcwd(), as components *)
  env_visible : option string;             (* CUDA_VISIBLE_DEVICES *)
  env_smi : option string;                 (* nvidia-smi output; None: raises *)
  cs_connect : bool;                       (* the CryoSPARC session is established *)
  find_project : string -> option Project;
  find_job : string -> string -> option Job;
  create_external_job : option string;     (* uid of the new job; None: raises *)
  io_denied : event -> bool;               (* the mkdir, copy or spawn that raises *)
  job_log_raises : bool;                   (* job.log(...) raises *)
  tool_returncode : Z;                     (* return code of cryoatom build *)
  tool_writes : list Path;                 (* the files it leaves behind, resolved *)
  script_dir : Path                        (* Path(__file__).resolve().parent *)
}.

Module Fs.

(** Removal of [".."] components, as [Path.resolve()] does on a file system
    without symbolic links. *)
Fixpoint norm_rev (stack ps : list string) : list string :=
  match ps with
  | [] => rev stack
  | x :: r =>
      if String.eqb x ".." then norm_rev (tl stack) r
      else norm_rev (x :: stack) r
  end.

Definition normalize (ps : list string) : list string := norm_rev [] ps.

(** No component is [".."]. *)
Definition clean (ps : list string) : Prop := Forall (fun x => x <> "..") ps.

(** [p.resolve()]: absolute, rooted at ["/"], without [".."]. *)
Definition resolve (env : Env) (p : Path) : Path :=
  Pathlib.mkPath "/"
    (normalize ((if Pathlib.is_absolute p then [] else cwd env)
                ++ Pathlib.parts p)).

(** The file system holds resolved paths. *)
Definition mem (env : Env) (p : Path) (files : list Path) : bool :=
  existsb (Pathlib.eqb (resolve env p)) files.

(** [p.exists()]. *)
Definition path_exists (env : Env) (p : Path) : M bool :=
  fun fs => (Ret (mem env p fs), fs, []).

Definition add (ps : list Path) : M unit :=
  fun fs => (Ret tt, (ps ++ fs)%list, []).

(** The non-empty prefixes of a list of components, shortest first. *)
Fixpoint prefixes (ps : list string) : list (list string) :=
  match ps with
  | [] => []
  | x :: r => [x] :: map (cons x) (prefixes r)
  end.

(** What [mkdir] creates: the directory and the directories above it. *)
Definition made (env : Env) (p : Path) : list Path :=
  resolve env p
  :: map (Pathlib.mkPath "/")
         (rev (prefixes (removelast (Pathlib.parts (resolve env p))))).

(** [p.mkdir(parents=True, exist_ok=True)]. *)
Definition mkdir (env : Env) (p : Path) : M unit :=
  (emit (Mkdir p) ;;
   if io_denied env (Mkdir p) then raise OSError
   else add (made env p))%py.

(** [shutil.copy2(src, dst)]: raises when [src] is missing. *)
Definition copy2 (env : Env) (src dst : Path) : M unit :=
  (emit (Copy src dst) ;;
   present <- path_exists env src ;;
   if io_denied env (Copy src dst) || negb present then raise OSError
   else add [resolve env dst])%py.

End Fs.

(** [safe_dir(obj)], the same in the three scripts: [Path(d)] whether
    [obj.dir] is a property or a method. *)
Definition safe_dir (d : dir_attr) : Path :=
  match d with
  | DirProperty s => Pathlib.of_string s
  | DirMethod s => Pathlib.of_string s
  end.

(** [x = o] or log an error and [sys.exit(1)]. *)
Definition or_exit {A} (o : option A) (site : string) (args : list string)
  : M A :=
  match o with
  | Some a => ret a
  | None => (log ERROR site args ;; sys_exit 1)%py
  end.

(* ===================================================================== *)
(** * run_cryoatom.py *)
(* ===================================================================== *)

Module RunCryoatom.

Record Args := mkArgs {
  project : string;
  job : string;
  volume_output : string;
  map_field : option string;
  row_index : Z;
  fasta : string;
  gpu : option Z;
  out_dir : option string;
  no_copy_map : bool
}.

Definition preferred : list string :=
  ["map_sharp/path"; "map/path"; "map_half_A/path"; "map_half_B/path"].

Definition keys (row : Row) : list string := map fst row.

(** [choose_map_field(row, explicit)]. *)
Definition choose_map_field (row : Row) (explicit : option string)
  : outcome string :=
  let keys := keys row in
  let auto :=
    match find (fun k => PyStr.mem k keys) preferred with
    | Some k => Ret k
    | None =>
        match find (fun k => PyStr.endswith k "/path") keys with
        | Some k => Ret k
        | None => Raise (RuntimeError (NoPathFieldFound keys))
        end
    end in
  match explicit with
  | Some e =>
      if PyStr.truthy explicit then
        if PyStr.mem e keys then Ret e
        else Raise (RuntimeError (FieldNotFound e keys))
      else auto
  | None => auto
  end.

(** [row[k]]; a missing key raises [KeyError]. *)
Fixpoint row_get (row : Row) (k : string) : outcome string :=
  match row with
  | [] => Raise OtherException
  | (k', v) :: r => if String.eqb k k' then Ret v else row_get r k
  end.

(** Lines 201-206: the map path, absolute as it is, relative against the
    project directory. *)
Definition resolve_map_path (env : Env) (project_dir : Path) (raw : string)
  : Path :=
  let map_rel_path := Pathlib.of_string raw in
  if Pathlib.is_absolute map_rel_path then Fs.resolve env map_rel_path
  else Fs.resolve env (Pathlib.join project_dir map_rel_path).

(** Lines 218-221: the working directory. *)
Definition work_dir_of (args : Args) (prj : Project) (jb : Job) : Path :=
  if PyStr.truthy (out_dir args) then
    match out_dir args with
    | Some d => Pathlib.of_string d
    | None => Pathlib.of_string ""
    end
  else safe_dir (p_dir prj) // ("cryoatom_" ++ p_uid prj ++ "_" ++ j_uid jb).

(** Lines 249-260: the command line of the modelling tool. *)
Definition tool_cmd (args : Args) (fasta_in map_in out_d : Path)
  : list string :=
  List.app
    ["cryoatom"; "build"; "-s"; Pathlib.to_string fasta_in;
     "-v"; Pathlib.to_string map_in; "-o"; Pathlib.to_string out_d]
    match gpu args with
    | Some g => ["-d"; "cuda:" ++ str_of_int g]
    | None => []
    end.

(** [subprocess.run(cmd, cwd=..., check=True)] on the modelling tool. *)
Definition run_tool (env : Env) (cmd : list string) (wd : Path) : M unit :=
  emit (Spawn cmd (Some wd)) ;;
  if io_denied env (Spawn cmd (Some wd)) then raise OSError
  else
    Fs.add (tool_writes env) ;;
    if tool_returncode env =? 0 then ret tt
    else raise (CalledProcessError (tool_returncode env) cmd).

Definition found (b : bool) : string := if b then "found" else "missing".

(** Lines 244 and 272: the output directory and the result file. *)
Definition out_dir_of (work_dir : Path) : Path := work_dir // "out".
Definition cif_of (work_dir : Path) : Path := out_dir_of work_dir // "out.cif".

(** Steps 1 to 4 of [main]: connect, find the project and the job, load the
    dataset, check the row index, read the row. *)
Definition load_row (env : Env) (args : Args) : M (Project * Job * Row) :=
  log INFO "connecting to CryoSPARC" [] ;;
  (if cs_connect env then ret tt
   else log ERROR "cannot connect to CryoSPARC" [] ;; sys_exit 1) ;;
  prj <- or_exit (find_project env (project args))
                 "project not found" [project args] ;;
  jb <- or_exit (find_job env (project args) (job args))
                "job not found" [project args; job args] ;;
  log INFO "using project / job" [p_uid prj; j_uid jb; j_type jb] ;;
  ds <- or_exit (j_load_output jb (volume_output args))
                "loading the output failed" [j_uid jb; volume_output args] ;;
  (if Z.of_nat (List.length ds) =? 0
   then log ERROR "output is empty" [j_uid jb; volume_output args] ;;
        sys_exit 1
   else ret tt) ;;
  log INFO "rows in output" [volume_output args;
                             str_of_int (Z.of_nat (List.length ds))] ;;
  (if negb ((0 <=? row_index args)
            && (row_index args <? Z.of_nat (List.length ds)))
   then log ERROR "row-index out of range"
            [str_of_int (row_index args);
             str_of_int (Z.of_nat (List.length ds))] ;;
        sys_exit 1
   else ret tt) ;;
  emit (ReadRow (row_index args)) ;;
  row <- match nth_error ds (Z.to_nat (row_index args)) with
         | Some r => ret r
         | None => raise OtherException
         end ;;
  log INFO "using row" [str_of_int (row_index args)] ;;
  ret (prj, jb, row).

(** Step 5: choose the map field, resolve its path, check that it exists. *)
Definition locate_map (env : Env) (args : Args) (prj : Project) (row : Row)
  : M Path :=
  mf <- try_except (lift (choose_map_field row (map_field args)))
          (fun _ => log ERROR "choosing the map field failed" [] ;;
                    sys_exit 1) ;;
  map_rel_path <- lift (row_get row mf) ;;
  log INFO "map field" [mf; map_rel_path] ;;
  let project_dir := safe_dir (p_dir prj) in
  let map_path := resolve_map_path env project_dir map_rel_path in
  present <- Fs.path_exists env map_path ;;
  (if negb present
   then log ERROR "map file not found" [Pathlib.to_string map_path] ;;
        sys_exit 1
   else ret tt) ;;
  log INFO "resolved map path" [Pathlib.to_string map_path] ;;
  ret map_path.

(** The paths handed to the modelling tool. *)
Record Staged := mkStaged {
  work_dir : Path; fasta_in : Path; map_in : Path; out_d : Path
}.

(** Steps 6 and 7: the working directory and the input files. *)
Definition stage_inputs (env : Env) (args : Args) (prj : Project) (jb : Job)
           (map_path : Path) : M Staged :=
  let work_dir := work_dir_of args prj jb in
  Fs.mkdir env work_dir ;;
  log INFO "working directory" [Pathlib.to_string work_dir] ;;
  let fasta_path := Pathlib.of_string (fasta args) in
  present <- Fs.path_exists env fasta_path ;;
  (if negb present
   then log ERROR "FASTA file not found" [Pathlib.to_string fasta_path] ;;
        sys_exit 1
   else ret tt) ;;
  let fasta_in := work_dir // "input.fasta" in
  Fs.copy2 env fasta_path fasta_in ;;
  log INFO "copied FASTA" [Pathlib.to_string fasta_in] ;;
  map_in <- (if no_copy_map args
             then log INFO "map used in place" [Pathlib.to_string map_path] ;;
                  ret map_path
             else
               let map_in := work_dir // "input_map.mrc" in
               Fs.copy2 env map_path map_in ;;
               log INFO "copied map" [Pathlib.to_string map_in] ;;
               ret map_in) ;;
  let out_d := out_dir_of work_dir in
  Fs.mkdir env out_d ;;
  log INFO "output directory" [Pathlib.to_string out_d] ;;
  ret (mkStaged work_dir fasta_in map_in out_d).

(** Steps 8 to 10: build the command, run the tool, report its outputs. *)
Definition build_and_report (env : Env) (args : Args) (s : Staged) : M unit :=
  let cmd := tool_cmd args (fasta_in s) (map_in s) (out_d s) in
  log INFO "running CryoAtom" [PyStr.join " " cmd] ;;
  run_tool env cmd (work_dir s) ;;
  let cif := out_d s // "out.cif" in
  let cif_raw := out_d s // "out_raw.cif" in
  has_cif <- Fs.path_exists env cif ;;
  has_raw <- Fs.path_exists env cif_raw ;;
  log INFO "CryoAtom finished"
      [Pathlib.to_string cif; found has_cif;
       Pathlib.to_string cif_raw; found has_raw].

(** Steps 1 to 7. *)
Definition prepare (env : Env) (args : Args) : M Staged :=
  r <- load_row env args ;;
  let '(prj, jb, row) := r in
  map_path <- locate_map env args prj row ;;
  stage_inputs env args prj jb map_path.

(** [main()]. *)
Definition main (env : Env) (args : Args) : M unit :=
  s <- prepare env args ;;
  build_and_report env args s.

(** The [if __name__ == "__main__":] block. *)
Definition script (env : Env) (args : Args) : M unit :=
  try_except (main env args)
    (fun e =>
       match e with
       | CalledProcessError rc cmd =>
           log ERROR "CryoAtom process failed"
               [str_of_int rc; PyStr.join " " cmd] ;;
           sys_exit rc
       | _ =>
           log ERROR "unhandled exception" [] ;;
           sys_exit 1
       end).

(** The script as a process: its exit status and what it left behind. *)
Definition run (env : Env) (args : Args) (fs : list Path)
  : Z * list Path * list event :=
  let '(o, fs', evs) := script env args fs in (exit_status o, fs', evs).

End RunCryoatom.

(* ===================================================================== *)
(** * run_cryoatom_auto.py *)
(* ===================================================================== *)

Module Auto.

Record Args := mkArgs {
  project : string;
  job : string;
  fasta : string;
  volume_output : string;
  map_field : option string;
  row_index : Z;
  out_dir : option string;
  no_copy_map : bool;
  gpu : option Z
}.

(** [x if x else None]: an option passed on only when it is truthy. *)
Definition passed (o : option string) : option string :=
  if PyStr.truthy o then o else None.

Definition flag (name : string) (o : option string) : list string :=
  match passed o with
  | Some v => [name; v]
  | None => []
  end.

(** Lines 197-219: the command line for [run_cryoatom.py]. *)
Definition child_cmd (env : Env) (args : Args) (g : Z) : list string :=
  List.app
    ["python"; Pathlib.to_string (script_dir env // "run_cryoatom.py");
     "--project"; project args; "--job"; job args;
     "--volume-output"; volume_output args; "--fasta"; fasta args;
     "--gpu"; str_of_int g]
    (List.app (flag "--map-field" (map_field args))
       (List.app ["--row-index"; str_of_int (row_index args)]
          (List.app (flag "--out-dir" (out_dir args))
             (if no_copy_map args then ["--no-copy-map"] else [])))).

(** What [argparse] in [run_cryoatom.py] makes of that command line when it
    accepts it: every value comes back as it was given.  (It rejects a
    command line in which a value begins with ["-"].) *)
Definition child_args (args : Args) (g : Z) : RunCryoatom.Args :=
  RunCryoatom.mkArgs (project args) (job args) (volume_output args)
    (passed (map_field args)) (row_index args) (fasta args) (Some g)
    (passed (out_dir args)) (no_copy_map args).

(** [subprocess.run(cmd, check=True)] on [run_cryoatom.py]. *)
Definition run_child (env : Env) (cmd : list string)
           (cargs : RunCryoatom.Args) : M unit :=
  emit (Spawn cmd None) ;;
  if io_denied env (Spawn cmd None) then raise OSError
  else
    fun fs =>
      let '(status, fs', evs) := RunCryoatom.run env cargs fs in
      if status =? 0 then (Ret tt, fs', evs)
      else (Raise (CalledProcessError status cmd), fs', evs).

(** Lines 246-254: the working directory and [out.cif], recomputed. *)
Definition work_dir_of (args : Args) (prj : Project) (jb : Job) : Path :=
  if PyStr.truthy (out_dir args) then
    match out_dir args with
    | Some d => Pathlib.of_string d
    | None => Pathlib.of_string ""
    end
  else safe_dir (p_dir prj) // ("cryoatom_" ++ p_uid prj ++ "_" ++ j_uid jb).

Definition out_cif_of (args : Args) (prj : Project) (jb : Job) : Path :=
  work_dir_of args prj jb // "out" // "out.cif".

(** Lines 263-267: where the model is published. *)
Definition dest_file_of (prj : Project) (jb : Job) : Path :=
  safe_dir (j_dir jb) // "cryoatom"
    // (p_uid prj ++ "_" ++ j_uid jb ++ "_cryoatom.cif").

(** [job.log(text, level="info")]. *)
Definition job_log (env : Env) (jb : Job) (text : string)
           (a : list string) : M unit :=
  emit (JobLog (j_uid jb) text a) ;;
  if job_log_raises env then raise OtherException else ret tt.

(** Steps 5 and 6 of [main] and its closing log records: publish [out_cif]
    into the job directory and record it in the job's log. *)
Definition publish (env : Env) (prj : Project) (jb : Job) (g : Z)
           (out_cif : Path) : M unit :=
  let target_dir := safe_dir (j_dir jb) // "cryoatom" in
  Fs.mkdir env target_dir ;;
  let dest_file := dest_file_of prj jb in
  Fs.copy2 env out_cif dest_file ;;
  log INFO "model copied to job directory" [Pathlib.to_string dest_file] ;;
  try_except
    (job_log env jb "CryoAtom model generated and copied"
             [str_of_int g; Pathlib.to_string dest_file] ;;
     log INFO "recorded in the CryoSPARC job log" [])
    (fun _ => log WARNING "writing the job log failed" []) ;;
  log INFO "done" [Pathlib.to_string dest_file].

(** Step 1: the GPU, chosen unless given. *)
Definition choose_gpu (env : Env) (args : Args) : M Z :=
  match gpu args with
  | None => Gpu.pick_free_gpu (rt env) (env_visible env) (env_smi env)
  | Some g => log INFO "using the requested GPU" [str_of_int g] ;; ret g
  end.

(** Step 2: run [run_cryoatom.py]; its failure ends this script with the
    same exit code. *)
Definition call_run_cryoatom (env : Env) (args : Args) (g : Z) : M unit :=
  let rc_script := script_dir env // "run_cryoatom.py" in
  present <- Fs.path_exists env rc_script ;;
  (if negb present
   then log ERROR "run_cryoatom.py not found" [Pathlib.to_string rc_script] ;;
        sys_exit 1
   else ret tt) ;;
  let cmd := child_cmd env args g in
  log INFO "calling run_cryoatom.py" [PyStr.join " " cmd] ;;
  try_except (run_child env cmd (child_args args g))
    (fun e =>
       match e with
       | CalledProcessError rc _ =>
           log ERROR "run_cryoatom.py failed" [str_of_int rc] ;;
           sys_exit rc
       | _ => raise e
       end).

(** Steps 3 to 6: find the project and the job again, look for [out.cif],
    publish it. *)
Definition collect (env : Env) (args : Args) (g : Z) : M unit :=
  (if cs_connect env then ret tt
   else log ERROR "results exist but CryoSPARC is unreachable" [] ;;
        sys_exit 1) ;;
  prj <- or_exit (find_project env (project args))
                 "project not found" [project args] ;;
  jb <- or_exit (find_job env (project args) (job args))
                "job not found" [project args; job args] ;;
  let out_cif := out_cif_of args prj jb in
  present <- Fs.path_exists env out_cif ;;
  (if negb present
   then log ERROR "CryoAtom output not found" [Pathlib.to_string out_cif] ;;
        sys_exit 1
   else ret tt) ;;
  log INFO "found the CryoAtom model" [Pathlib.to_string out_cif] ;;
  publish env prj jb g out_cif.

(** [main()]. *)
Definition main (env : Env) (args : Args) : M unit :=
  g <- choose_gpu env args ;;
  call_run_cryoatom env args g ;;
  collect env args g.

(** The script as a process. *)
Definition run (env : Env) (args : Args) (fs : list Path)
  : Z * list Path * list event :=
  let '(o, fs', evs) := main env args fs in (exit_status o, fs', evs).

End Auto.

(* ===================================================================== *)
(** * cryoatom_external_job.py *)
(* ===================================================================== *)

Module External.

Record Args := mkArgs {
  project : string;
  workspace : string;
  src_job : string;
  fasta : string;
  volume_output : string;
  map_field : option string;
  row_index : Z;
  out_dir : option string;
  no_copy_map : bool;
  gpu : option Z
}.

(** Lines 190-211: the command line for [run_cryoatom_auto.py]. *)
Definition child_cmd (env : Env) (args : Args) : list string :=
  List.app
    ["python"; Pathlib.to_string (script_dir env // "run_cryoatom_auto.py");
     "--project"; project args; "--job"; src_job args;
     "--fasta"; fasta args; "--volume-output"; volume_output args]
    (List.app (Auto.flag "--map-field" (map_field args))
       (List.app ["--row-index"; str_of_int (row_index args)]
          (List.app (Auto.flag "--out-dir" (out_dir args))
             (List.app (if no_copy_map args then ["--no-copy-map"] else [])
                match gpu args with
                | Some g => ["--gpu"; str_of_int g]
                | None => []
                end)))).

(** What [argparse] in [run_cryoatom_auto.py] makes of that command line
    when it accepts it: every value comes back as it was given. *)
Definition child_args (args : Args) : Auto.Args :=
  Auto.mkArgs (project args) (src_job args) (fasta args) (volume_output args)
    (Auto.passed (map_field args)) (row_index args)
    (Auto.passed (out_dir args)) (no_copy_map args) (gpu args).

(** [ej.log(text)]. *)
Definition ej_log (ej : string) (text : string) (a : list string) : M unit :=
  emit (JobLog ej text a).

(** Lines 225-243: [subprocess.run(cmd, ..., check=True)] on
    [run_cryoatom_auto.py]; a failure is logged to the job and re-raised. *)
Definition run_child (env : Env) (ej : string) (cmd : list string)
           (cargs : Auto.Args) : M unit :=
  emit (Spawn cmd None) ;;
  if io_denied env (Spawn cmd None) then raise OSError
  else
    status <- (fun fs => let '(s, fs', evs) := Auto.run env cargs fs in
                         (Ret s, fs', evs)) ;;
    if status =? 0 then ret tt
    else
      ej_log ej "[ERROR] run_cryoatom_auto.py failed" [str_of_int status] ;;
      raise (CalledProcessError status cmd).

(** Lines 258-265: the working directory and [out.cif], recomputed. *)
Definition work_dir_of (args : Args) (prj : Project) (sjob : Job) : Path :=
  if PyStr.truthy (out_dir args) then
    match out_dir args with
    | Some d => Pathlib.of_string d
    | None => Pathlib.of_string ""
    end
  else safe_dir (p_dir prj) // ("cryoatom_" ++ p_uid prj ++ "_" ++ j_uid sjob).

Definition out_cif_of (args : Args) (prj : Project) (sjob : Job) : Path :=
  work_dir_of args prj sjob // "out" // "out.cif".

(** Lines 268-270: where [run_cryoatom_auto.py] publishes the model. *)
Definition dest_file_of (prj : Project) (sjob : Job) : Path :=
  safe_dir (j_dir sjob) // "cryoatom"
    // (p_uid prj ++ "_" ++ j_uid sjob ++ "_cryoatom.cif").

Inductive source_kind := PublishedCopy | RawWorkingCopy | NotFound.

(** Lines 272-284: the published copy first, then the raw output. *)
Definition resolve_artifact (env : Env) (dest_file out_cif : Path)
  : M (source_kind * option Path) :=
  has_dest <- Fs.path_exists env dest_file ;;
  if has_dest then ret (PublishedCopy, Some dest_file)
  else
    has_cif <- Fs.path_exists env out_cif ;;
    if has_cif then ret (RawWorkingCopy, Some out_cif)
    else ret (NotFound, None).

(** Lines 257-315, after the child succeeded: [true] when the block runs to
    its end, [false] on the early [return]. *)
Definition mount_model (env : Env) (args : Args) (prj : Project)
           (sjob : Job) (ej : string) : M bool :=
  let out_cif := out_cif_of args prj sjob in
  let dest_file := dest_file_of prj sjob in
  r <- resolve_artifact env dest_file out_cif ;;
  match r with
  | (PublishedCopy, Some model_path) =>
      ej_log ej "[INFO] using the model copied to the job directory"
             [Pathlib.to_string model_path] ;;
      ej_log ej "[INFO] model output mounted" [Pathlib.to_string model_path] ;;
      ej_log ej "[INFO] External Job complete" [] ;;
      ret true
  | (RawWorkingCopy, Some model_path) =>
      ej_log ej "[INFO] no copy found, using out.cif of the work directory"
             [Pathlib.to_string model_path] ;;
      ej_log ej "[INFO] model output mounted" [Pathlib.to_string model_path] ;;
      ej_log ej "[INFO] External Job complete" [] ;;
      ret true
  | _ =>
      ej_log ej "[WARN] no model file to mount, skipping"
             [Pathlib.to_string dest_file; Pathlib.to_string out_cif] ;;
      ej_log ej "[INFO] External Job ends without model output" [] ;;
      ret false
  end.

(** [main()]. *)
Definition main (env : Env) (args : Args) : M unit :=
  log INFO "connecting to CryoSPARC" [] ;;
  (if cs_connect env then ret tt
   else log ERROR "cannot connect to CryoSPARC" [] ;; sys_exit 1) ;;
  prj <- or_exit (find_project env (project args))
                 "project not found" [project args] ;;
  log INFO "found project" [p_uid prj] ;;
  sjob <- or_exit (find_job env (project args) (src_job args))
                  "source job not found" [project args; src_job args] ;;
  log INFO "source job" [j_uid sjob; j_type sjob] ;;
  log INFO "workspace" [workspace args] ;;
  ej <- or_exit (create_external_job env)
                "creating the External Job failed" [] ;;
  log INFO "External Job created" [ej] ;;
  let rc_auto := script_dir env // "run_cryoatom_auto.py" in
  present <- Fs.path_exists env rc_auto ;;
  (if negb present
   then log ERROR "run_cryoatom_auto.py not found"
            [Pathlib.to_string rc_auto] ;;
        sys_exit 1
   else ret tt) ;;
  let cmd := child_cmd env args in
  log INFO "command run inside the External Job" [PyStr.join " " cmd] ;;
  completed <-
    try_except
      (ej_log ej "[INFO] ExternalJob starts CryoAtom" [src_job args] ;;
       ej_log ej "[INFO] command" [PyStr.join " " cmd] ;;
       run_child env ej cmd (child_args args) ;;
       ej_log ej "[INFO] CryoAtom sub-process succeeded" [] ;;
       mount_model env args prj sjob ej)
      (fun _ => log ERROR "External Job failed" [] ;; sys_exit 1) ;;
  if completed
  then log INFO "done, see the External Job in the GUI" [ej]
  else ret tt.

(** The script as a process. *)
Definition run (env : Env) (args : Args) (fs : list Path)
  : Z * list Path * list event :=
  let '(o, fs', evs) := main env args fs in (exit_status o, fs', evs).

End External.

(* ===================================================================== *)
(** * Notions for the statements about runs *)
(* ===================================================================== *)

Module Trace.

Definition events_of {A} (r : outcome A * list Path * list event) : list event :=
  snd r.

(** Every event [m] causes satisfies [P]. *)
Definition emits (P : event -> Prop) {A} (m : M A) : Prop :=
  forall fs, Forall P (events_of (m fs)).

(** The events that touch the file system or start a process. *)
Definition effects (evs : list event) : list event :=
  filter (fun e => match e with Log _ _ _ => false | _ => true end) evs.

(** The only row [e] may read is row [r]. *)
Definition reads_only (r : Z) (e : event) : Prop :=
  forall i, e = ReadRow i -> i = r.

Definition is_tool_cmd (cmd : list string) : bool :=
  match cmd with
  | c :: _ => String.eqb c "cryoatom"
  | [] => false
  end.

(** [e] does not start the modelling tool. *)
Definition no_tool (e : event) : Prop :=
  match e with
  | Spawn cmd _ => is_tool_cmd cmd = false
  | _ => True
  end.

(** The modelling tool was started. *)
Definition tool_started (env : Env) (evs : list event) : Prop :=
  exists cmd wd,
    In (Spawn cmd wd) evs /\ is_tool_cmd cmd = true /\
    io_denied env (Spawn cmd wd) = false.

(** [e] is no entry in the log of a CryoSPARC job. *)
Definition no_job_log (e : event) : Prop :=
  match e with
  | JobLog _ _ _ => False
  | _ => True
  end.

(** [e] may happen before the tool runs. *)
Definition before_tool (e : event) : Prop := no_tool e /\ no_job_log e.

(** The tool was started; nothing was written to a job's log before, and
    only log records of the script follow. *)
Definition tool_then_logs (evs : list event) : Prop :=
  exists pre cmd wd post,
    evs = (pre ++ Spawn cmd wd :: post)%list /\
    is_tool_cmd cmd = true /\
    Forall no_job_log pre /\ Forall is_log post.

End Trace.

(* ===================================================================== *)
(** * A concrete session *)
(* ===================================================================== *)

Module Scenario.

Definition P : string -> Path := Pathlib.of_string.

Definition row0 : Row :=
  [("other/path", "J1/other.mrc"); ("map_sharp/path", "J1/map_sharp.mrc")].

Definition job0 : Job :=
  mkJob "J1" "homo_refine" (DirMethod "/data/P1/J1")
        (fun name => if String.eqb name "volume" then Some [row0] else None).

Definition prj0 : Project := mkProject "P1" (DirProperty "/data/P1").

(** Project P1 with job J1; no GPU telemetry; the tool returns [rc] and
    leaves the files [writes]; [log_raises] makes [job.log] fail. *)
Definition env0 (rc : Z) (writes : list Path) (log_raises : bool) : Env :=
  mkEnv AsciiText.builtins ["home"; "user"] None None true
        (fun p => if String.eqb p "P1" then Some prj0 else None)
        (fun p j => if String.eqb p "P1" && String.eqb j "J1"
                    then Some job0 else None)
        (Some "J9") (fun _ => false) log_raises rc writes (P "/opt/tools").

(** The map, the FASTA file and the scripts exist. *)
Definition fs0 : list Path :=
  [P "/data/P1/J1/map_sharp.mrc"; P "/home/user/seq.fasta";
   P "/opt/tools/run_cryoatom.py"; P "/opt/tools/run_cryoatom_auto.py"].

Definition out_cif0 : Path := P "/data/P1/cryoatom_P1_J1/out/out.cif".
Definition dest0 : Path := P "/data/P1/J1/cryoatom/P1_J1_cryoatom.cif".

Definition rargs0 : RunCryoatom.Args :=
  RunCryoatom.mkArgs "P1" "J1" "volume" None 0 "seq.fasta" (Some 0) None false.

Definition aargs0 : Auto.Args :=
  Auto.mkArgs "P1" "J1" "seq.fasta" "volume" None 0 None false None.

Definition xargs0 : External.Args :=
  External.mkArgs "P1" "W1" "J1" "seq.fasta" "volume" None 0 None false None.

Definition lf : string := String "010" "".

(** Three devices with the same memory ratio; devices 1 and 2 share the
    lowest utilisation; a fourth line does not parse. *)
Definition smi_out : string :=
  "0, 100, 1000, 50" ++ lf ++ "1, 100, 1000, 20" ++ lf ++
  "2, 100, 1000, 20" ++ lf ++ "[N/A], 1, 2, 3" ++ lf.

(** A record with a generic path field and the sharpened map. *)
Definition sharp_row : Row := row0.

End Scenario.

(* ===================================================================== *)
(** * Notions for the statements about whole runs *)
(* ===================================================================== *)

Module Runs.

Definition outcome_of {A} (r : outcome A * list Path * list event)
  : outcome A := fst (fst r).

Definition files_of {A} (r : outcome A * list Path * list event)
  : list Path := snd (fst r).

(** An outcome is a normal return, [sys.exit(1)], or an exception that
    satisfies [R]. *)
Definition ends_well (R : exn -> Prop) {A} (o : outcome A) : Prop :=
  match o with
  | Ret _ => True
  | SysExit c => c = 1
  | Raise e => R e
  end.

(** Every way [m] ends is of that kind. *)
Definition ends (R : exn -> Prop) {A} (m : M A) : Prop :=
  forall fs, ends_well R (outcome_of (m fs)).

(** [m] leaves the file system as it found it. *)
Definition keeps_fs {A} (m : M A) : Prop :=
  forall fs, files_of (m fs) = fs.

Definition any_exn (e : exn) : Prop := True.
Definition no_exn (e : exn) : Prop := False.

(** Any exception but the [CalledProcessError] of [subprocess.run]. *)
Definition not_called_process_error (e : exn) : Prop :=
  match e with
  | CalledProcessError _ _ => False
  | _ => True
  end.

(** A log record or the reading of a row. *)
Definition quiet (e : event) : Prop :=
  match e with
  | Log _ _ _ | ReadRow _ => True
  | _ => False
  end.


(** When [e] starts the tool, the tool is told to use device [g]; when [e]
    is an entry in a job's log, it names [g]. *)
Definition names_gpu (g : Z) (e : event) : Prop :=
  match e with
  | Spawn cmd _ =>
      Trace.is_tool_cmd cmd = true ->
      exists pre,
        cmd = List.app pre ["-d"; String.append "cuda:" (str_of_int g)]
  | JobLog _ _ a => exists rest, a = str_of_int g :: rest
  | _ => True
  end.



End Runs.

(* ===================================================================== *)
(** * The connection settings read when a script is loaded *)
(* ===================================================================== *)

Module Config.

(** [os.environ]. *)
Definition Environ : Type := string -> option string.

(** [os.getenv(name, default)]. *)
Definition getenv_default (environ : Environ) (name default : string)
  : string :=
  match environ name with
  | Some v => v
  | None => default
  end.

(** What stops the module from loading: the [RuntimeError] of [get_env] or
    the [ValueError] of [int]. *)
Inductive load_error :=
| MissingEnvVar (name : string)
| PortNotAnInteger (text : string).

(** [get_env(name)]: an unset and an empty variable are both missing. *)
Definition get_env (environ : Environ) (name : string)
  : load_error + string :=
  match environ name with
  | Some v => if String.eqb v "" then inl (MissingEnvVar name) else inr v
  | None => inl (MissingEnvVar name)
  end.

(** The dictionary [CS]. *)
Record Conn := mkConn {
  host : string;
  base_port : Z;
  email : string;
  password : string;
  license : string
}.

(** The variables read with [get_env], in the order of the calls. *)
Definition required : list string :=
  ["CS_EMAIL"; "CS_PASSWORD"; "CS_LICENSE_ID"].

(** [CS = dict(host=..., base_port=..., email=..., password=...,
    license=...)], the arguments evaluated from left to right. *)
Definition load_cs (B : Builtins) (environ : Environ) : load_error + Conn :=
  let host := getenv_default environ "CS_HOST" "10.210.21.48" in
  let port_text := getenv_default environ "CS_BASE_PORT" "39000" in
  match py_int B port_text with
  | None => inl (PortNotAnInteger port_text)
  | Some port =>
      match get_env environ "CS_EMAIL" with
      | inl e => inl e
      | inr email =>
          match get_env environ "CS_PASSWORD" with
          | inl e => inl e
          | inr password =>
              match get_env environ "CS_LICENSE_ID" with
              | inl e => inl e
              | inr license => inr (mkConn host port email password license)
              end
          end
      end
  end.

(** A script as a process: the module is loaded, which builds [CS], then
    [main] runs.  An exception while loading ends the process with status 1
    before anything else is done. *)
Definition start {A} (B : Builtins) (environ : Environ) (script : M A)
           (fs : list Path) : Z * list Path * list event :=
  match load_cs B environ with
  | inl _ => (1, fs, [])
  | inr _ => let '(o, fs', evs) := script fs in (exit_status o, fs', evs)
  end.

End Config.

(* ===================================================================== *)
(** * The command line *)
(* ===================================================================== *)

Module Cli.

(** What [parse_args()] makes of [sys.argv].  It returns the parsed
    arguments, or argparse ends the process itself by raising [SystemExit]:
    with status 2 after it reported a usage error (a required option is
    missing, a value is no integer, an option is unknown), with status 0
    after it printed the help of [-h] or [--help]. *)
Inductive cmdline (A : Type) : Type :=
| Parsed (args : A)
| UsageError
| HelpRequested.

Arguments Parsed {A} args.
Arguments UsageError {A}.
Arguments HelpRequested {A}.

(** [args = parse_args()]. *)
Definition parse_args {A} (cl : cmdline A) : M A :=
  match cl with
  | Parsed args => ret args
  | UsageError => sys_exit 2
  | HelpRequested => sys_exit 0
  end.

(** [main()] of [run_cryoatom.py], from its first line. *)
Definition run_cryoatom_main (env : Env) (cl : cmdline RunCryoatom.Args)
  : M unit :=
  args <- parse_args cl ;;
  RunCryoatom.main env args.

(** The [if __name__ == "__main__":] block of [run_cryoatom.py].
    [SystemExit] is no [Exception]: it passes both handlers. *)
Definition run_cryoatom_script (env : Env) (cl : cmdline RunCryoatom.Args)
  : M unit :=
  try_except (run_cryoatom_main env cl)
    (fun e =>
       match e with
       | CalledProcessError rc cmd =>
           log ERROR "CryoAtom process failed"
               [str_of_int rc; PyStr.join " " cmd] ;;
           sys_exit rc
       | _ =>
           log ERROR "unhandled exception" [] ;;
           sys_exit 1
       end).

(** [python run_cryoatom.py ...]: the module is loaded, which builds [CS],
    then the [__main__] block runs. *)
Definition run_cryoatom (env : Env) (environ : Config.Environ)
           (cl : cmdline RunCryoatom.Args) (fs : list Path)
  : Z * list Path * list event :=
  Config.start (rt env) environ (run_cryoatom_script env cl) fs.

(** [main()] of [run_cryoatom_auto.py], from its first line. *)
Definition run_cryoatom_auto_main (env : Env) (cl : cmdline Auto.Args)
  : M unit :=
  args <- parse_args cl ;;
  Auto.main env args.

(** [python run_cryoatom_auto.py ...]. *)
Definition run_cryoatom_auto (env : Env) (environ : Config.Environ)
           (cl : cmdline Auto.Args) (fs : list Path)
  : Z * list Path * list event :=
  Config.start (rt env) environ (run_cryoatom_auto_main env cl) fs.

(** [main()] of [cryoatom_external_job.py], from its first line. *)
Definition cryoatom_external_job_main (env : Env)
           (cl : cmdline External.Args) : M unit :=
  args <- parse_args cl ;;
  External.main env args.

(** [python cryoatom_external_job.py ...]. *)
Definition cryoatom_external_job (env : Env) (environ : Config.Environ)
           (cl : cmdline External.Args) (fs : list Path)
  : Z * list Path * list event :=
  Config.start (rt env) environ (cryoatom_external_job_main env cl) fs.

(** The working directory of a run of [run_cryoatom.py]: there is one once
    the command line has parsed and the project and the job are found. *)
Definition work_dir (env : Env) (cl : cmdline RunCryoatom.Args)
  : option Path :=
  match cl with
  | Parsed args =>
      match find_project env (RunCryoatom.project args),
            find_job env (RunCryoatom.project args) (RunCryoatom.job args)
      with
      | Some prj, Some jb => Some (RunCryoatom.work_dir_of args prj jb)
      | _, _ => None
      end
  | _ => None
  end.

End Cli.

(* ===================================================================== *)
(** * More sample data *)
(* ===================================================================== *)

Module Samples.

(** Device 1 has the lowest memory ratio and the highest utilisation. *)
Definition smi_low : string :=
  "0, 500, 1000, 0" ++ Scenario.lf ++ "1, 100, 1000, 99" ++ Scenario.lf ++
  "2, 900, 1000, 5" ++ Scenario.lf.

Definition row_low : Gpu.gpu_row :=
  Gpu.mkRow 1 (AsciiText.float_of_Z 100) (AsciiText.float_of_Z 1000)
            (AsciiText.float_of_Z 99).

(** The UTF-8 encoding of SUPERSCRIPT TWO, a character for which
    [str.isdigit()] is true and [int()] raises [ValueError]. *)
Definition sup2 : string := String "194" (String "178" "").

(** The ASCII built-ins with [isdigit] extended to that character. *)
Definition builtins_sup2 : Builtins :=
  mkBuiltins AsciiText.to_int AsciiText.to_float AsciiText.strip
             (fun s => AsciiText.isdigit s || String.eqb s sup2)
             AsciiText.splitlines.

(** The ASCII built-ins with [float] accepting the text ["nan"], as
    Python's [float] does. *)
Definition builtins_nan : Builtins :=
  mkBuiltins AsciiText.to_int
    (fun s => if String.eqb (AsciiText.strip s) "nan" then Some PrimFloat.nan
              else AsciiText.to_float s)
    AsciiText.strip AsciiText.isdigit AsciiText.splitlines.

(** Device 5 reports [nan] as its used memory; device 6 is idle. *)
Definition smi_nan : string :=
  "5, nan, 1000, 3" ++ Scenario.lf ++ "6, 1, 1000, 3" ++ Scenario.lf.

(** The three required variables, nothing else. *)
Definition environ0 : Config.Environ :=
  fun name =>
    if String.eqb name "CS_EMAIL" then Some "user@example.org"
    else if String.eqb name "CS_PASSWORD" then Some "secret"
    else if String.eqb name "CS_LICENSE_ID" then Some "0000"
    else None.

(** The same with an empty password. *)
Definition environ_empty_password : Config.Environ :=
  fun name =>
    if String.eqb name "CS_PASSWORD" then Some "" else environ0 name.

(** The sample session started in [/tmp]. *)
Definition env_tmp : Env :=
  mkEnv AsciiText.builtins ["tmp"] None None true
        (find_project (Scenario.env0 0 [] false))
        (find_job (Scenario.env0 0 [] false))
        (Some "J9") (fun _ => false) false 0 []
        (Scenario.P "/opt/tools").

(** The sample session with telemetry [smi_low]. *)
Definition env_low : Env :=
  mkEnv AsciiText.builtins ["home"; "user"] None (Some smi_low) true
        (find_project (Scenario.env0 0 [] false))
        (find_job (Scenario.env0 0 [] false))
        (Some "J9") (fun _ => false) false 0 [Scenario.out_cif0]
        (Scenario.P "/opt/tools").

End Samples.

(* ===================================================================== *)
(** * Facts about strings, paths and floats *)
(* ===================================================================== *)

Module StrFacts.

Lemma mem_In x xs : PyStr.mem x xs = true <-> In x xs.
Proof.
  unfold PyStr.mem. rewrite existsb_exists. split.
  - intros [y [Hy He]]. apply String.eqb_eq in He. now subst.
  - intros H. exists x. split; [assumption | apply String.eqb_refl].
Qed.

Lemma find_first_such f l k :
  find f l = Some k <-> PyStr.first_such f l k.
Proof.
  split.
  - revert k. induction l as [|x r IH]; intros k H; simpl in H; [discriminate|].
    destruct (f x) eqn:Fx.
    + inversion H; subst. exists [], r. repeat split; auto.
      intros y [].
    + destruct (IH k H) as (pre & post & -> & Hk & Hpre).
      exists (x :: pre), post. repeat split; auto.
      intros y [<-|Hy]; auto.
  - intros (pre & post & -> & Hk & Hpre).
    induction pre as [|x pre IH]; simpl.
    + now rewrite Hk.
    + rewrite (Hpre x (or_introl eq_refl)). apply IH.
      intros y Hy. apply Hpre. now right.
Qed.

Lemma find_none_all f (l : list string) :
  find f l = None <-> forall x, In x l -> f x = false.
Proof.
  split.
  - intros H x Hx. eapply find_none; eassumption.
  - induction l as [|x r IH]; intros H; simpl; [reflexivity|].
    rewrite (H x (or_introl eq_refl)). apply IH.
    intros y Hy. apply H. now right.
Qed.

Lemma path_eqb_eq p q : Pathlib.eqb p q = true <-> p = q.
Proof.
  unfold Pathlib.eqb. destruct p as [r1 p1], q as [r2 p2]; simpl.
  destruct (list_eq_dec string_dec p1 p2) as [E|N].
  - rewrite andb_true_r, String.eqb_eq. split; intros H.
    + now subst.
    + now inversion H.
  - rewrite andb_false_r. split; [discriminate|].
    intros H. inversion H. contradiction.
Qed.

Lemma path_eqb_refl p : Pathlib.eqb p p = true.
Proof. now apply path_eqb_eq. Qed.

End StrFacts.

Module FloatFacts.

Import PyFloat.

Lemma SFltb_key a b :
  sf_is_nan a = false -> sf_is_nan b = false ->
  (SFltb a b = true <-> key_lt (sf_key a) (sf_key b)).
Proof.
  unfold SFltb.
  destruct a as [sa|sa| |sa ma ea], b as [sb|sb| |sb mb eb]; simpl;
    try discriminate; intros _ _;
    repeat match goal with s : bool |- _ => destruct s end; simpl;
    try (split; [intros; lia | intros; (reflexivity || lia)]);
    try (split; [discriminate | lia]).
  - destruct (Z.compare_spec ea eb); rewrite ?Pos.compare_cont_spec; simpl;
      try destruct (Pos.compare_spec ma mb); simpl;
      split; (discriminate || lia || reflexivity || idtac); intros; try lia.
  - destruct (Z.compare_spec ea eb); rewrite ?Pos.compare_cont_spec; simpl;
      try destruct (Pos.compare_spec ma mb); simpl;
      split; (discriminate || lia || reflexivity || idtac); intros; try lia.
Qed.

Lemma SFeqb_key a b :
  sf_is_nan a = false -> sf_is_nan b = false ->
  (SFeqb a b = true <-> sf_key a = sf_key b).
Proof.
  unfold SFeqb.
  destruct a as [sa|sa| |sa ma ea], b as [sb|sb| |sb mb eb]; simpl;
    try discriminate; intros _ _;
    repeat match goal with s : bool |- _ => destruct s end; simpl;
    try (split; [intros; congruence | intros; (reflexivity || congruence)]);
    try (split; [discriminate | congruence]).
  - destruct (Z.compare_spec ea eb); rewrite ?Pos.compare_cont_spec; simpl;
      try destruct (Pos.compare_spec ma mb); simpl;
      split; intros E; try discriminate; try reflexivity; try congruence;
      inversion E; lia.
  - destruct (Z.compare_spec ea eb); rewrite ?Pos.compare_cont_spec; simpl;
      try destruct (Pos.compare_spec ma mb); simpl;
      split; intros E; try discriminate; try reflexivity; try congruence;
      inversion E; lia.
Qed.

Lemma is_nan_sf x : PrimFloat.is_nan x = sf_is_nan (Prim2SF x).
Proof.
  unfold PrimFloat.is_nan. rewrite eqb_spec.
  destruct (sf_is_nan (Prim2SF x)) eqn:E.
  - destruct (Prim2SF x); try discriminate. reflexivity.
  - apply negb_false_iff. now apply SFeqb_key.
Qed.

Lemma ltb_key x y :
  PrimFloat.is_nan x = false -> PrimFloat.is_nan y = false ->
  (PrimFloat.ltb x y = true <-> key_lt (key x) (key y)).
Proof. rewrite !is_nan_sf, ltb_spec. apply SFltb_key. Qed.

Lemma eqb_key x y :
  PrimFloat.is_nan x = false -> PrimFloat.is_nan y = false ->
  (PrimFloat.eqb x y = true <-> key x = key y).
Proof. rewrite !is_nan_sf, eqb_spec. apply SFeqb_key. Qed.

(** The divisor [max(total, 1.0)] is never zero, so the division of
    [pick_free_gpu] cannot raise. *)
Lemma py_max_one_nonzero t : PrimFloat.eqb (py_max t 1%float) 0%float = false.
Proof.
  unfold py_max. destruct (PrimFloat.ltb t 1%float) eqn:L; [reflexivity|].
  destruct (PrimFloat.eqb t 0%float) eqn:E; [|reflexivity].
  rewrite ltb_spec in L. rewrite eqb_spec in E.
  change (Prim2SF 1%float) with (S754_finite false 4503599627370496 (-52)) in L.
  change (Prim2SF 0%float) with (S754_zero false) in E.
  unfold SFltb, SFeqb in *.
  destruct (Prim2SF t) as [s|s| |s m e]; cbn [SFcompare] in *;
    try discriminate; destruct s; discriminate.
Qed.

(** ** Division does not produce NaN from finite numbers *)

Lemma iter_pos_invariant {A} (f : A -> A) (Inv : A -> Prop) :
  (forall x, Inv x -> Inv (f x)) ->
  forall n x, Inv x -> Inv (iter_pos f n x).
Proof.
  intros Hf. induction n as [n IH|n IH|]; intros x Hx; simpl; auto.
Qed.

Lemma shr_1_nonneg mrs : 0 <= shr_m mrs -> 0 <= shr_m (shr_1 mrs).
Proof.
  destruct mrs as [m r s]. destruct m as [|p|p]; [| |simpl; lia];
    try destruct p; simpl; lia.
Qed.

Lemma shr_nonneg mrs e n : 0 <= shr_m mrs -> 0 <= shr_m (fst (shr mrs e n)).
Proof.
  intros H. destruct n as [|p|p]; simpl; try assumption.
  now apply iter_pos_invariant; [apply shr_1_nonneg|].
Qed.

Lemma shr_fexp_nonneg prec emax m e l :
  0 <= m -> 0 <= shr_m (fst (shr_fexp prec emax m e l)).
Proof.
  intros H. unfold shr_fexp. apply shr_nonneg.
  destruct l as [|[]]; simpl; assumption.
Qed.

Lemma round_nearest_even_nonneg m l : 0 <= m -> 0 <= round_nearest_even m l.
Proof.
  intros H. destruct l as [|[]]; simpl; try lia.
  destruct (Z.even m); lia.
Qed.

Lemma binary_round_aux_number prec emax sx mx ex lx :
  0 <= mx -> sf_is_nan (binary_round_aux prec emax sx mx ex lx) = false.
Proof.
  intros H. unfold binary_round_aux.
  pose proof (shr_fexp_nonneg prec emax mx ex lx H) as H1.
  destruct (shr_fexp prec emax mx ex lx) as [mrs' e']; cbn [fst] in H1.
  pose proof (shr_fexp_nonneg prec emax
                (round_nearest_even (shr_m mrs') (loc_of_shr_record mrs'))
                e' loc_Exact (round_nearest_even_nonneg _ _ H1)) as H2.
  destruct (shr_fexp prec emax _ e' loc_Exact) as [mrs'' e'']; cbn [fst] in H2.
  destruct (shr_m mrs'') as [|p|p]; [reflexivity | | lia].
  destruct (e'' <=? emax - prec); reflexivity.
Qed.

Lemma div_core_nonneg prec emax mx ex my ey :
  0 <= fst (fst (SFdiv_core_binary prec emax (Zpos mx) ex (Zpos my) ey)).
Proof.
  unfold SFdiv_core_binary.
  set (s := _ - _ - _).
  set (m' := match s with Zpos _ => Z.shiftl (Zpos mx) s | 0 => Zpos mx | Zneg _ => 0 end).
  assert (Hm : 0 <= m').
  { unfold m'. destruct s; try lia. apply Z.shiftl_nonneg. lia. }
  pose proof (Z.div_pos m' (Zpos my) Hm ltac:(lia)) as Hq.
  unfold Z.div in Hq.
  destruct (Z.div_eucl m' (Zpos my)) as [q r]. exact Hq.
Qed.

(** A quotient of two numbers is a number again, except infinity by
    infinity and zero by zero. *)
Lemma SFdiv_number prec emax x y :
  sf_is_nan x = false -> sf_is_nan y = false ->
  match x, y with
  | S754_infinity _, S754_infinity _ => False
  | S754_zero _, S754_zero _ => False
  | _, _ => True
  end ->
  sf_is_nan (SFdiv prec emax x y) = false.
Proof.
  destruct x as [sx|sx| |sx mx ex], y as [sy|sy| |sy my ey];
    simpl; try discriminate; try reflexivity; try contradiction.
  intros _ _ _.
  pose proof (div_core_nonneg prec emax mx ex my ey) as H.
  destruct (SFdiv_core_binary prec emax (Zpos mx) ex (Zpos my) ey)
    as [[mz ez] lz]; cbn [fst] in H.
  now apply binary_round_aux_number.
Qed.

Lemma finite_cases x :
  finite x ->
  match Prim2SF x with
  | S754_zero _ | S754_finite _ _ _ => True
  | _ => False
  end.
Proof.
  unfold finite, PrimFloat.is_finite, PrimFloat.is_infinity.
  rewrite is_nan_sf. rewrite eqb_spec, abs_spec.
  change (Prim2SF infinity) with (S754_infinity false).
  destruct (Prim2SF x) as [s|s| |s m e]; cbn; try discriminate; auto.
Qed.

Lemma finite_number x : finite x -> PrimFloat.is_nan x = false.
Proof.
  intros H. apply finite_cases in H. rewrite is_nan_sf.
  destruct (Prim2SF x); (reflexivity || contradiction).
Qed.

End FloatFacts.

(* ===================================================================== *)
(** * The GPU selection *)
(* ===================================================================== *)

Module GpuFacts.

Import Gpu.
Local Open Scope list_scope.

Section WithBuiltins.
Variable B : Builtins.

Lemma scan_select allowed lines bi bs :
  scan B allowed lines bi bs = Ret (select (candidates B allowed lines) bi bs).
Proof.
  revert bi bs. induction lines as [|line rest IH]; intros bi bs; simpl.
  - reflexivity.
  - destruct (parse_line B line) as [g|]; [|apply IH].
    destruct (excluded allowed (idx g)); [apply IH|].
    unfold PyFloat.truediv. rewrite FloatFacts.py_max_one_nonzero.
    simpl. fold (score_of g).
    destruct bs as [b|].
    + destruct (tuple_lt (score_of g) b); apply IH.
    + apply IH.
Qed.

Lemma lex_lt_key a b :
  numeric a -> numeric b -> (lex_lt a b <-> skey_lt (skey a) (skey b)).
Proof.
  intros [Ha1 Ha2] [Hb1 Hb2]. unfold lex_lt, skey_lt, skey; simpl.
  rewrite !FloatFacts.ltb_key, FloatFacts.eqb_key by assumption. reflexivity.
Qed.

Lemma lex_eq_key a b :
  numeric a -> numeric b -> (lex_eq a b <-> skey a = skey b).
Proof.
  intros [Ha1 Ha2] [Hb1 Hb2]. unfold lex_eq, skey; simpl.
  rewrite !FloatFacts.eqb_key by assumption.
  split; [intros [-> ->]; reflexivity | intros E; inversion E; auto].
Qed.

Lemma skey_trichotomy x y : skey_lt x y \/ x = y \/ skey_lt y x.
Proof.
  destruct x as [x1 x2], y as [y1 y2].
  destruct x1 as [[a1 a2] a3], x2 as [[b1 b2] b3],
           y1 as [[c1 c2] c3], y2 as [[d1 d2] d3].
  unfold skey_lt, PyFloat.key_lt; simpl.
  destruct (Z.lt_total a1 c1) as [?|[?|?]]; [lia | | lia].
  destruct (Z.lt_total a2 c2) as [?|[?|?]]; [lia | | lia].
  destruct (Z.lt_total a3 c3) as [?|[?|?]]; [lia | | lia].
  destruct (Z.lt_total b1 d1) as [?|[?|?]];
    [left; right; split; [congruence | lia] | | right; right; right; split; [congruence | lia]].
  destruct (Z.lt_total b2 d2) as [?|[?|?]];
    [left; right; split; [congruence | lia] | | right; right; right; split; [congruence | lia]].
  destruct (Z.lt_total b3 d3) as [?|[?|?]];
    [left; right; split; [congruence | lia] | | right; right; right; split; [congruence | lia]].
  right; left; congruence.
Qed.

Lemma skey_lt_trans x y z : skey_lt x y -> skey_lt y z -> skey_lt x z.
Proof.
  destruct x as [[[a1 a2] a3] [[b1 b2] b3]],
           y as [[[c1 c2] c3] [[d1 d2] d3]],
           z as [[[e1 e2] e3] [[f1 f2] f3]].
  unfold skey_lt, PyFloat.key_lt; simpl.
  intros [H1|[E1 H1]] [H2|[E2 H2]].
  - left; lia.
  - inversion E2; subst. left; lia.
  - inversion E1; subst. left; lia.
  - inversion E1; inversion E2; subst. right; split; [reflexivity | lia].
Qed.

(** On numbers, Python's tuple comparison is the lexicographic order. *)
Lemma tuple_lt_lex a b :
  numeric a -> numeric b -> (tuple_lt a b = true <-> lex_lt a b).
Proof.
  intros Ha Hb. unfold tuple_lt, lex_lt.
  destruct Ha as [Ha1 Ha2], Hb as [Hb1 Hb2].
  destruct (PrimFloat.eqb (fst a) (fst b)) eqn:E1; simpl.
  - destruct (PrimFloat.eqb (snd a) (snd b)) eqn:E2; simpl.
    + split; [discriminate|].
      apply FloatFacts.eqb_key in E1, E2; try assumption.
      intros [L|[_ L]]; apply FloatFacts.ltb_key in L; try assumption;
        [rewrite E1 in L | rewrite E2 in L];
        exfalso; revert L; generalize (PyFloat.key (fst b)), (PyFloat.key (snd b));
        intros [[? ?] ?] [[? ?] ?]; unfold PyFloat.key_lt; lia.
    + split; [intros L; right; split; [reflexivity | exact L] |].
      intros [L|[_ L]]; [|exact L].
      apply FloatFacts.eqb_key in E1; try assumption.
      apply FloatFacts.ltb_key in L; try assumption. rewrite E1 in L.
      exfalso; revert L; generalize (PyFloat.key (fst b));
        intros [[? ?] ?]; unfold PyFloat.key_lt; lia.
  - split; [intros L; left; exact L |].
    intros [L|[E _]]; [exact L | discriminate].
Qed.

Lemma lex_le_refl a : numeric a -> lex_le a a.
Proof. intros Ha. right. now apply lex_eq_key. Qed.

Lemma lex_total a b :
  numeric a -> numeric b -> tuple_lt a b = false -> lex_le b a.
Proof.
  intros Ha Hb Hlt.
  destruct (skey_trichotomy (skey a) (skey b)) as [H|[H|H]].
  - apply lex_lt_key in H; try assumption.
    apply tuple_lt_lex in H; try assumption. congruence.
  - right. apply lex_eq_key; auto.
  - left. now apply lex_lt_key.
Qed.

Lemma lex_lt_le_trans a b c :
  numeric a -> numeric b -> numeric c ->
  lex_lt a b -> lex_le b c -> lex_lt a c.
Proof.
  intros Ha Hb Hc Hab [Hbc|Hbc].
  - apply lex_lt_key; try assumption.
    apply skey_lt_trans with (skey b); now apply lex_lt_key.
  - apply lex_eq_key in Hbc; try assumption.
    apply lex_lt_key; try assumption. rewrite <- Hbc. now apply lex_lt_key.
Qed.

Lemma nth_error_snoc_inv {A} (pre : list A) (c : A) j x :
  nth_error (pre ++ [c]) j = Some x ->
  ((j < List.length pre)%nat /\ nth_error pre j = Some x) \/
  (j = List.length pre /\ x = c).
Proof.
  intros H. destruct (Nat.lt_ge_cases j (List.length pre)) as [Hlt|Hge].
  - left. split; [assumption|]. now rewrite nth_error_app1 in H.
  - right. rewrite nth_error_app2 in H by assumption.
    destruct (j - List.length pre)%nat as [|k] eqn:E; simpl in H.
    + split; [lia | congruence].
    + destruct k; discriminate.
Qed.

Lemma all_numeric_nth cs j g :
  all_numeric cs -> nth_error cs j = Some g -> numeric (score_of g).
Proof.
  intros H Hn. unfold all_numeric in H. rewrite Forall_forall in H.
  apply H. eapply nth_error_In; eassumption.
Qed.

(** The score of a line whose three numbers are finite has no NaN. *)
Lemma finite_row_numeric g : finite_row g -> numeric (score_of g).
Proof.
  intros (Hu & Ht & Hl). split; [|now apply FloatFacts.finite_number].
  unfold score_of; cbn [fst].
  rewrite FloatFacts.is_nan_sf, div_spec. unfold SF64div.
  apply FloatFacts.finite_cases in Hu, Ht.
  assert (Hy : exists s m e,
             Prim2SF (PyFloat.py_max (mem_total g) 1%float) = S754_finite s m e).
  { unfold PyFloat.py_max. destruct (PrimFloat.ltb (mem_total g) 1%float) eqn:L.
    - do 3 eexists. reflexivity.
    - rewrite ltb_spec in L.
      change (Prim2SF 1%float) with (S754_finite false 4503599627370496 (-52)) in L.
      destruct (Prim2SF (mem_total g)) as [s|s| |s m e];
        try contradiction; [discriminate L | eauto]. }
  destruct Hy as (s & m & e & ->).
  apply FloatFacts.SFdiv_number; [|reflexivity|].
  - destruct (Prim2SF (mem_used g)); (reflexivity || contradiction).
  - destruct (Prim2SF (mem_used g)); (exact I || contradiction).
Qed.

Lemma finite_rows_numeric cs : Forall finite_row cs -> all_numeric cs.
Proof.
  intros H. unfold all_numeric. eapply Forall_impl; [|exact H].
  exact finite_row_numeric.
Qed.

Lemma select_best cs : forall pre i g,
  all_numeric (pre ++ cs) ->
  best_of pre i g ->
  exists i' g',
    best_of (pre ++ cs) i' g' /\
    select cs (idx g) (Some (score_of g)) = (idx g', Some (score_of g')).
Proof.
  induction cs as [|c cs IH]; intros pre i g Hnum Hbest.
  - rewrite app_nil_r. exists i, g. split; [assumption | reflexivity].
  - assert (Hpre : pre ++ c :: cs = (pre ++ [c]) ++ cs)
      by (rewrite <- app_assoc; reflexivity).
    rewrite Hpre in Hnum |- *.
    assert (Hnum' : all_numeric (pre ++ [c])).
    { unfold all_numeric in *. apply Forall_app in Hnum. tauto. }
    destruct Hbest as (Hi & Hle & Hlt).
    assert (Hil : (i < List.length pre)%nat)
      by (apply nth_error_Some; congruence).
    assert (Hg : numeric (score_of g)).
    { eapply all_numeric_nth; [exact Hnum'|].
      rewrite nth_error_app1; eassumption. }
    assert (Hc : numeric (score_of c)).
    { eapply all_numeric_nth with (j := List.length pre); [exact Hnum'|].
      rewrite nth_error_app2, Nat.sub_diag by lia. reflexivity. }
    simpl. destruct (tuple_lt (score_of c) (score_of g)) eqn:T.
    + apply (IH (pre ++ [c]) (List.length pre) c Hnum).
      apply tuple_lt_lex in T; try assumption.
      assert (Hall : forall j g', nth_error (pre ++ [c]) j = Some g' ->
                (j < List.length pre)%nat -> lex_lt (score_of c) (score_of g')).
      { intros j g' Hj Hjl. rewrite nth_error_app1 in Hj by assumption.
        apply lex_lt_le_trans with (score_of g); try assumption.
        - eapply all_numeric_nth; [exact Hnum'|].
          rewrite nth_error_app1; eassumption.
        - eapply Hle; eassumption. }
      split; [|split].
      * rewrite nth_error_app2, Nat.sub_diag by lia. reflexivity.
      * intros j g' Hj.
        destruct (nth_error_snoc_inv _ _ _ _ Hj) as [[Hjl _]|[_ ->]].
        -- left. eapply Hall; eassumption.
        -- now apply lex_le_refl.
      * intros j g' Hjl Hj. eapply Hall; eassumption.
    + apply (IH (pre ++ [c]) i g Hnum).
      split; [|split].
      * rewrite nth_error_app1; assumption.
      * intros j g' Hj.
        destruct (nth_error_snoc_inv _ _ _ _ Hj) as [[_ Hj']|[_ ->]].
        -- eapply Hle; eassumption.
        -- now apply lex_total.
      * intros j g' Hji Hj. rewrite nth_error_app1 in Hj by lia.
        eapply Hlt; eassumption.
Qed.

Lemma select_first_min cs :
  cs <> [] -> all_numeric cs ->
  exists i g, best_of cs i g /\ select cs 0 None = (idx g, Some (score_of g)).
Proof.
  destruct cs as [|c cs]; [congruence|]. intros _ Hnum. simpl.
  apply (select_best cs [c] 0%nat c Hnum).
  assert (Hc : numeric (score_of c)) by (now inversion Hnum).
  split; [reflexivity | split].
  - intros [|[|j]] g' Hj; try discriminate. inversion Hj; subst.
    now apply lex_le_refl.
  - intros j g' Hj; lia.
Qed.

Lemma read_allowed_spec visible fs :
  exists ws,
    read_allowed B visible fs = (Ret (allowed_of B visible), fs, ws) /\
    Forall (fun e => exists site args, e = Log WARNING site args) ws.
Proof.
  unfold read_allowed, allowed_of.
  destruct visible as [v|]; [|exists []; split; [reflexivity | constructor]].
  destruct (PyStr.truthy (Some v));
    [|exists []; split; [reflexivity | constructor]].
  destruct (parse_allowed B (PyStr.split_on "," v)) as [a|].
  - exists []; split; [reflexivity | constructor].
  - eexists [_]. split; [reflexivity|].
    constructor; [|constructor]. eauto.
Qed.

Lemma candidates_nil allowed lines :
  (forall line, In line lines -> dropped B allowed line) ->
  candidates B allowed lines = [].
Proof.
  induction lines as [|l r IH]; intros H; simpl; [reflexivity|].
  assert (Hl := H l (or_introl eq_refl)). unfold dropped in Hl.
  destruct (parse_line B l) as [g|].
  - rewrite Hl. apply IH. intros; apply H; now right.
  - apply IH. intros; apply H; now right.
Qed.

(** [pick_free_gpu B] always returns: no exception escapes it; it leaves the
    file system alone and only writes to the log. *)
Lemma pick_free_gpu_returns visible smi fs :
  exists n evs,
    pick_free_gpu B visible smi fs = (Ret n, fs, evs) /\ Forall is_log evs.
Proof.
  unfold pick_free_gpu, bind.
  destruct (read_allowed_spec visible fs) as (ws & -> & Hws).
  assert (Hlog : Forall is_log ws).
  { eapply Forall_impl; [|exact Hws]. intros e (site & a & ->). red; eauto. }
  destruct smi as [out|].
  - unfold lift. rewrite scan_select.
    destruct (select _ 0 None) as [bi [sc|]]; cbn [snd fst];
      unfold log, emit, ret; cbn [app];
      do 2 eexists; (split; [reflexivity|]);
      apply Forall_app; (split; [exact Hlog|]);
      repeat constructor; red; eauto.
  - unfold log, emit, ret; cbn [app].
    do 2 eexists; (split; [reflexivity|]).
    apply Forall_app; (split; [exact Hlog|]).
    repeat constructor; red; eauto.
Qed.

(** C1, as amended.  When at least one telemetry line parses and passes the
    allow-list, and the score of every such candidate is a pair of numbers
    (no NaN), [pick_free_gpu B] returns the index of the candidate whose
    score [(mem_used / max(mem_total, 1.0), util)] is least in the
    lexicographic order (memory ratio first, utilisation second); among
    candidates of equal score the one listed first is returned: every
    candidate listed before the selected one has a strictly greater score.
    Without the condition on the scores the claim fails, see
    [nan_line_defeats_minimum]. *)
Theorem pick_free_gpu_selects_first_minimum visible out fs cs :
  cs = candidates B (allowed_of B visible) (lines_of B out) ->
  cs <> [] ->
  all_numeric cs ->
  exists i g,
    nth_error cs i = Some g /\
    fst (fst (pick_free_gpu B visible (Some out) fs)) = Ret (idx g) /\
    (forall j g', nth_error cs j = Some g' ->
                  lex_le (score_of g) (score_of g')) /\
    (forall j g', (j < i)%nat -> nth_error cs j = Some g' ->
                  lex_lt (score_of g) (score_of g')).
Proof.
  intros -> Hne Hnum.
  destruct (select_first_min _ Hne Hnum) as (i & g & (Hi & Hle & Hlt) & Hsel).
  exists i, g. repeat split; try assumption.
  unfold pick_free_gpu, bind.
  destruct (read_allowed_spec visible fs) as (ws & -> & _).
  unfold lift. rewrite scan_select. fold (lines_of B out). rewrite Hsel.
  reflexivity.
Qed.

(** C5. When the telemetry query fails, or every line of its output is
    dropped (it does not parse, or its index is outside the allow-list),
    [pick_free_gpu B] returns 0 normally; all it emits are warnings, at least
    one, and the file system is untouched. *)
Theorem pick_free_gpu_fallback_zero visible smi fs :
  (smi = None \/
   exists out, smi = Some out /\
     forall line, In line (lines_of B out) -> dropped B (allowed_of B visible) line) ->
  exists ws,
    pick_free_gpu B visible smi fs = (Ret 0, fs, ws) /\
    ws <> [] /\ Forall is_warning ws.
Proof.
  intros H. unfold pick_free_gpu, bind.
  destruct (read_allowed_spec visible fs) as (ws & -> & Hws).
  destruct H as [-> | (out & -> & Hdrop)].
  - eexists (ws ++ [_]). unfold log, emit, ret; cbn [app].
    split; [reflexivity|]. split.
    + destruct ws; discriminate.
    + apply Forall_app. split; [exact Hws|].
      constructor; [|constructor]. red; eauto.
  - unfold lift. rewrite scan_select. fold (lines_of B out).
    rewrite (candidates_nil _ _ Hdrop). cbn [select snd fst].
    eexists (ws ++ [_]). unfold log, emit, ret; cbn [app].
    split; [reflexivity|]. split.
    + destruct ws; discriminate.
    + apply Forall_app. split; [exact Hws|].
      constructor; [|constructor]. red; eauto.
Qed.

End WithBuiltins.

(** ** Concrete telemetry *)

Example pick_smi_out :
  Gpu.pick_free_gpu AsciiText.builtins (Some "0,1,2") (Some Scenario.smi_out) []
  = (Ret 1, [], [Log INFO "auto-selected GPU" ["1"]]).
Proof. vm_compute. reflexivity. Qed.

Lemma pick_free_gpu_selects_first_minimum_witness :
  let cs := Gpu.candidates AsciiText.builtins
              (Gpu.allowed_of AsciiText.builtins (Some "0,1,2"))
              (Gpu.lines_of AsciiText.builtins Scenario.smi_out) in
  cs <> [] /\ Gpu.all_numeric cs /\
  exists i g,
    nth_error cs i = Some g /\
    fst (fst (Gpu.pick_free_gpu AsciiText.builtins (Some "0,1,2")
                (Some Scenario.smi_out) []))
    = Ret (Gpu.idx g) /\
    (forall j g', nth_error cs j = Some g' ->
                  Gpu.lex_le (Gpu.score_of g) (Gpu.score_of g')) /\
    (forall j g', (j < i)%nat -> nth_error cs j = Some g' ->
                  Gpu.lex_lt (Gpu.score_of g) (Gpu.score_of g')).
Proof.
  intros cs.
  assert (Hne : cs <> []) by (vm_compute; discriminate).
  assert (Hnum : Gpu.all_numeric cs)
    by (vm_compute; repeat constructor).
  split; [exact Hne | split; [exact Hnum |]].
  exact (GpuFacts.pick_free_gpu_selects_first_minimum AsciiText.builtins
           (Some "0,1,2") Scenario.smi_out [] cs eq_refl Hne Hnum).
Defined.

(** Every reporting device is outside the allow-list [{7}]. *)
Lemma pick_free_gpu_fallback_zero_witness :
  exists ws,
    Gpu.pick_free_gpu AsciiText.builtins (Some "7") (Some Scenario.smi_out) []
    = (Ret 0, [], ws) /\
    ws <> [] /\ Forall is_warning ws.
Proof.
  apply (GpuFacts.pick_free_gpu_fallback_zero AsciiText.builtins (Some "7")
           (Some Scenario.smi_out) []).
  right. exists Scenario.smi_out. split; [reflexivity|].
  intros line Hin. vm_compute in Hin.
  repeat (destruct Hin as [<-|Hin]; [vm_compute; exact I || reflexivity|]).
  contradiction.
Defined.

(** With a line whose used memory is the text [nan], which [float]
    accepts, the comparison of scores is no order: device 5 is returned
    although device 6 is well formed and the score of device 5 is not below
    or equal to that of device 6. *)
Lemma nan_line_defeats_minimum :
  let B := Samples.builtins_nan in
  let cs := candidates B (allowed_of B None) (lines_of B Samples.smi_nan) in
  map idx cs = [5; 6] /\
  (exists g, nth_error cs 1 = Some g /\ idx g = 6 /\ finite_row g) /\
  fst (fst (pick_free_gpu B None (Some Samples.smi_nan) [])) = Ret 5 /\
  ~ exists i g,
      nth_error cs i = Some g /\
      fst (fst (pick_free_gpu B None (Some Samples.smi_nan) [])) = Ret (idx g) /\
      (forall j g', nth_error cs j = Some g' ->
                    lex_le (score_of g) (score_of g')) /\
      (forall j g', (j < i)%nat -> nth_error cs j = Some g' ->
                    lex_lt (score_of g) (score_of g')).
Proof.
  intros B cs.
  assert (Hcs : cs = [mkRow 5 PrimFloat.nan (AsciiText.float_of_Z 1000)
                            (AsciiText.float_of_Z 3);
                      mkRow 6 (AsciiText.float_of_Z 1)
                            (AsciiText.float_of_Z 1000)
                            (AsciiText.float_of_Z 3)])
    by (vm_compute; reflexivity).
  assert (Hp : fst (fst (pick_free_gpu B None (Some Samples.smi_nan) []))
               = Ret 5)
    by (vm_compute; reflexivity).
  split; [rewrite Hcs; reflexivity|].
  split.
  { rewrite Hcs. eexists. split; [reflexivity|]. split; [reflexivity|].
    repeat split; vm_compute; reflexivity. }
  split; [exact Hp|].
  intros (i & g & Hi & Hr & Hle & _).
  rewrite Hp in Hr. rewrite Hcs in Hi, Hle.
  destruct i as [|[|i]]; cbn [nth_error] in Hi.
  - inversion Hi; subst g; clear Hi.
    specialize (Hle 1%nat _ eq_refl).
    destruct Hle as [[H|[H _]]|[H _]]; vm_compute in H; discriminate H.
  - inversion Hi; subst g. discriminate Hr.
  - destruct i; discriminate Hi.
Qed.

End GpuFacts.

(* ===================================================================== *)
(** * The choice of the map field *)
(* ===================================================================== *)

Module Locator.

Import RunCryoatom.

(** C4. [choose_map_field] with a non-empty explicit field returns it when
    it is one of the record's keys and otherwise raises the error that
    lists the keys; without one it returns the first name of the
    preference list that is a key, else the first key, in key order, that
    ends with ["/path"], else raises.  A record that has the key
    ["map_sharp/path"] gets it, whatever other keys it has.  Every error
    it raises is fatal: [main] logs it and exits with code 1, the file
    system untouched. *)
Theorem choose_map_field_spec (row : Row) (explicit : option string) :
  let ks := keys row in
  (forall e, explicit = Some e -> e <> "" ->
     (In e ks -> choose_map_field row explicit = Ret e) /\
     (~ In e ks ->
      choose_map_field row explicit = Raise (RuntimeError (FieldNotFound e ks))))
  /\
  (PyStr.truthy explicit = false ->
     (forall k, PyStr.first_such (fun k => PyStr.mem k ks) preferred k ->
                choose_map_field row explicit = Ret k) /\
     ((forall k, In k preferred -> ~ In k ks) ->
      (forall k, PyStr.first_such (fun k => PyStr.endswith k "/path") ks k ->
                 choose_map_field row explicit = Ret k) /\
      ((forall k, In k ks -> PyStr.endswith k "/path" = false) ->
       choose_map_field row explicit
       = Raise (RuntimeError (NoPathFieldFound ks)))))
  /\
  (PyStr.truthy explicit = false -> In "map_sharp/path" ks ->
   choose_map_field row explicit = Ret "map_sharp/path")
  /\
  (forall env args prj fs e,
     map_field args = explicit ->
     choose_map_field row explicit = Raise e ->
     locate_map env args prj row fs
     = (SysExit 1, fs, [Log ERROR "choosing the map field failed" []])).
Proof.
  intros ks. split; [|split; [|split]]; cycle 3.
  { intros env args prj fs e Hf He.
    unfold locate_map, bind, try_except, lift. rewrite Hf, He.
    reflexivity. }
  - intros e -> Hne. unfold choose_map_field. fold ks.
    assert (Ht : PyStr.truthy (Some e) = true).
    { unfold PyStr.truthy. apply negb_true_iff.
      now apply String.eqb_neq. }
    rewrite Ht. split; intros H.
    + apply StrFacts.mem_In in H. now rewrite H.
    + destruct (PyStr.mem e ks) eqn:E; [|reflexivity].
      apply StrFacts.mem_In in E. contradiction.
  - intros Ht.
    assert (Hauto : choose_map_field row explicit
                    = match find (fun k => PyStr.mem k ks) preferred with
                      | Some k => Ret k
                      | None =>
                          match find (fun k => PyStr.endswith k "/path") ks with
                          | Some k => Ret k
                          | None => Raise (RuntimeError (NoPathFieldFound ks))
                          end
                      end).
    { unfold choose_map_field. fold ks. destruct explicit as [e|]; [|reflexivity].
      now rewrite Ht. }
    rewrite Hauto. split.
    + intros k Hk. apply StrFacts.find_first_such in Hk. now rewrite Hk.
    + intros Hnone.
      assert (Hp : find (fun k => PyStr.mem k ks) preferred = None).
      { apply StrFacts.find_none_all. intros x Hx.
        destruct (PyStr.mem x ks) eqn:E; [|reflexivity].
        apply StrFacts.mem_In in E. now apply Hnone in Hx. }
      rewrite Hp. split.
      * intros k Hk. apply StrFacts.find_first_such in Hk. now rewrite Hk.
      * intros Hs. apply StrFacts.find_none_all in Hs. now rewrite Hs.
  - intros Ht Hin.
    unfold choose_map_field. fold ks.
    assert (Hm : PyStr.mem "map_sharp/path" ks = true)
      by now apply StrFacts.mem_In.
    destruct explicit as [e|]; [rewrite Ht|]; unfold preferred;
      cbn [find]; now rewrite Hm.
Qed.

Example choose_sharp_row :
  choose_map_field Scenario.sharp_row None = Ret "map_sharp/path".
Proof. reflexivity. Qed.

(** The specification at the record with keys [other/path] and
    [map_sharp/path]: an explicit key, an explicit name that is no key, and
    the automatic choice. *)
Lemma choose_map_field_spec_witness :
  choose_map_field Scenario.sharp_row (Some "other/path") = Ret "other/path" /\
  choose_map_field Scenario.sharp_row (Some "map/path")
  = Raise (RuntimeError (FieldNotFound "map/path" (keys Scenario.sharp_row))) /\
  choose_map_field Scenario.sharp_row None = Ret "map_sharp/path".
Proof.
  pose proof (choose_map_field_spec Scenario.sharp_row (Some "other/path")) as H1.
  pose proof (choose_map_field_spec Scenario.sharp_row (Some "map/path")) as H2.
  pose proof (choose_map_field_spec Scenario.sharp_row None) as H3.
  cbv zeta in H1, H2, H3.
  split; [|split].
  - apply (proj1 H1 "other/path" eq_refl); [discriminate|].
    vm_compute. auto.
  - apply (proj1 H2 "map/path" eq_refl); [discriminate|].
    vm_compute. intros [H|[H|[]]]; discriminate.
  - apply (proj1 (proj2 (proj2 H3))); [reflexivity|]. vm_compute. auto.
Defined.

End Locator.

(* ===================================================================== *)
(** * Reasoning about event traces *)
(* ===================================================================== *)

Module Logic.

Import Trace.

Ltac run_m :=
  cbv beta iota zeta delta
      [bind ret raise sys_exit lift try_except emit log or_exit
       Fs.path_exists Fs.add Fs.mkdir Fs.copy2
       events_of];
  cbn [fst snd app negb].

Section Rules.
Context (P : event -> Prop).

Lemma emits_ret {A} (a : A) : emits P (ret a).
Proof. intros fs. constructor. Qed.

Lemma emits_raise {A} e : emits P (@raise A e).
Proof. intros fs. constructor. Qed.

Lemma emits_sys_exit {A} c : emits P (@sys_exit A c).
Proof. intros fs. constructor. Qed.

Lemma emits_lift {A} (o : outcome A) : emits P (lift o).
Proof. intros fs. constructor. Qed.

Lemma emits_emit e : P e -> emits P (emit e).
Proof. intros H fs. repeat constructor. exact H. Qed.

Lemma emits_log lv site a : P (Log lv site a) -> emits P (log lv site a).
Proof. apply emits_emit. Qed.

Lemma emits_bind {A B} (m : M A) (k : A -> M B) :
  emits P m -> (forall a, emits P (k a)) -> emits P (bind m k).
Proof.
  intros Hm Hk fs. specialize (Hm fs). unfold bind, events_of in *.
  destruct (m fs) as [[[a|e|c] fs1] ev1]; cbn [snd] in *; try assumption.
  specialize (Hk a fs1). unfold events_of in Hk.
  destruct (k a fs1) as [[o fs2] ev2]; cbn [snd] in *.
  apply Forall_app; split; assumption.
Qed.

Lemma emits_try {A} (m : M A) (h : exn -> M A) :
  emits P m -> (forall e, emits P (h e)) -> emits P (try_except m h).
Proof.
  intros Hm Hh fs. specialize (Hm fs). unfold try_except, events_of in *.
  destruct (m fs) as [[[a|e|c] fs1] ev1]; cbn [snd] in *; try assumption.
  specialize (Hh e fs1). unfold events_of in Hh.
  destruct (h e fs1) as [[o fs2] ev2]; cbn [snd] in *.
  apply Forall_app; split; assumption.
Qed.

Lemma emits_or_exit {A} (o : option A) site a :
  P (Log ERROR site a) -> emits P (or_exit o site a).
Proof.
  intros H. destruct o; [apply emits_ret|].
  apply emits_bind; [now apply emits_log | intros; apply emits_sys_exit].
Qed.

Lemma emits_path_exists env p : emits P (Fs.path_exists env p).
Proof. intros fs. constructor. Qed.

Lemma emits_add ps : emits P (Fs.add ps).
Proof. intros fs. constructor. Qed.

Lemma emits_mkdir env p : P (Mkdir p) -> emits P (Fs.mkdir env p).
Proof.
  intros H. apply emits_bind; [now apply emits_emit|]. intros _.
  destruct (io_denied env (Mkdir p)); [apply emits_raise | apply emits_add].
Qed.

Lemma emits_copy2 env src dst : P (Copy src dst) -> emits P (Fs.copy2 env src dst).
Proof.
  intros H. apply emits_bind; [now apply emits_emit|]. intros _.
  apply emits_bind; [apply emits_path_exists|]. intros b.
  destruct (_ || _); [apply emits_raise | apply emits_add].
Qed.

End Rules.

Ltac emits_step :=
  match goal with
  | |- emits _ (bind _ _) => apply emits_bind; [|intros]
  | |- emits _ (ret _) => apply emits_ret
  | |- emits _ (raise _) => apply emits_raise
  | |- emits _ (sys_exit _) => apply emits_sys_exit
  | |- emits _ (lift _) => apply emits_lift
  | |- emits _ (log _ _ _) => apply emits_log
  | |- emits _ (emit _) => apply emits_emit
  | |- emits _ (or_exit _ _ _) => apply emits_or_exit
  | |- emits _ (try_except _ _) => apply emits_try; [|intros]
  | |- emits _ (Fs.path_exists _ _) => apply emits_path_exists
  | |- emits _ (Fs.add _) => apply emits_add
  | |- emits _ (Fs.mkdir _ _) => apply emits_mkdir
  | |- emits _ (Fs.copy2 _ _ _) => apply emits_copy2
  | |- emits _ (if ?b then _ else _) => destruct b
  | |- emits _ (match ?x with _ => _ end) => destruct x
  | |- emits _ (let '(_, _) := ?x in _) => destruct x
  end.

Ltac emits_auto := repeat emits_step.

End Logic.

(* ===================================================================== *)
(** * Failure of the modelling tool *)
(* ===================================================================== *)

Module ToolFailure.

Import Trace.
Import Logic.

Lemma log_no_tool e : is_log e -> no_tool e.
Proof. intros (lv & s & a & ->). exact I. Qed.

Lemma no_tool_not_started env evs :
  Forall no_tool evs -> ~ tool_started env evs.
Proof.
  intros H (cmd & wd & Hin & Ht & _).
  rewrite Forall_forall in H. specialize (H _ Hin). simpl in H. congruence.
Qed.

Lemma started_is_the_spawn env pre cmd wd post :
  Forall no_tool pre -> Forall no_tool post ->
  tool_started env (pre ++ Spawn cmd wd :: post) ->
  io_denied env (Spawn cmd wd) = false.
Proof.
  intros Hpre Hpost (c & w & Hin & Ht & Hd).
  apply in_app_or in Hin. destruct Hin as [Hin|[Heq|Hin]].
  - rewrite Forall_forall in Hpre. specialize (Hpre _ Hin). simpl in Hpre. congruence.
  - now inversion Heq; subst.
  - rewrite Forall_forall in Hpost. specialize (Hpost _ Hin). simpl in Hpost. congruence.
Qed.

Lemma before_no_tool e : before_tool e -> no_tool e.
Proof. now intros [H _]. Qed.

Lemma before_no_job_log e : before_tool e -> no_job_log e.
Proof. now intros [_ H]. Qed.

Lemma log_before_tool e : is_log e -> before_tool e.
Proof. intros (lv & s & a & ->). split; exact I. Qed.

Lemma prepare_before_tool env args :
  emits before_tool (RunCryoatom.prepare env args).
Proof.
  unfold RunCryoatom.prepare, RunCryoatom.load_row, RunCryoatom.locate_map,
    RunCryoatom.stage_inputs.
  emits_auto; split; exact I.
Qed.

(** What a run of [run_cryoatom.py] looks like from outside. *)
Lemma run_cases env args fs :
  let '(status, fs', evs) := RunCryoatom.run env args fs in
  Forall no_tool evs \/
  exists pre cmd wd post,
    evs = (pre ++ Spawn cmd wd :: post)%list /\
    Forall before_tool pre /\ Forall is_log post /\ is_tool_cmd cmd = true /\
    (if io_denied env (Spawn cmd wd) then status = 1
     else status = tool_returncode env mod 256).
Proof.
  unfold RunCryoatom.run, RunCryoatom.script, RunCryoatom.main.
  pose proof (prepare_before_tool env args fs) as Hpre.
  unfold try_except, bind.
  destruct (RunCryoatom.prepare env args fs) as [[[s|e|c] fs1] ev1];
    cbn [events_of snd] in Hpre.
  - unfold RunCryoatom.build_and_report, RunCryoatom.run_tool.
    set (cmd := RunCryoatom.tool_cmd args _ _ _).
    assert (Hp : Forall before_tool
                   (ev1 ++ [Log INFO "running CryoAtom" [PyStr.join " " cmd]]))
      by (apply Forall_app; split; [assumption | repeat constructor]).
    run_m.
    destruct (io_denied env (Spawn cmd (Some (RunCryoatom.work_dir s)))) eqn:D;
      [|destruct (tool_returncode env =? 0) eqn:Z0]; run_m;
      right;
      exists (ev1 ++ [Log INFO "running CryoAtom" [PyStr.join " " cmd]])%list,
        cmd, (Some (RunCryoatom.work_dir s));
      eexists; rewrite D;
      (split; [repeat rewrite <- app_assoc; reflexivity|]);
      (split; [exact Hp|]);
      (split; [repeat constructor; red; eauto|]);
      (split; [reflexivity|]).
    + reflexivity.
    + apply Z.eqb_eq in Z0. now rewrite Z0.
    + reflexivity.
  - apply (Forall_impl _ before_no_tool) in Hpre.
    destruct e; run_m; left;
      (apply Forall_app; split; [assumption | repeat constructor]).
  - run_m. left. eapply Forall_impl; [exact before_no_tool | assumption].
Qed.

Lemma choose_gpu_returns env args fs :
  exists g evs,
    Auto.choose_gpu env args fs = (Ret g, fs, evs) /\ Forall is_log evs.
Proof.
  unfold Auto.choose_gpu. destruct (Auto.gpu args) as [g|].
  - run_m. do 2 eexists. split; [reflexivity|].
    repeat constructor. red; eauto.
  - apply GpuFacts.pick_free_gpu_returns.
Qed.

Lemma collect_no_tool env args g : emits no_tool (Auto.collect env args g).
Proof.
  unfold Auto.collect, Auto.publish, Auto.job_log. emits_auto; exact I.
Qed.

Lemma exit_status_code (c : Z) :
  0 < c < 256 -> exit_status (@SysExit unit c) = c.
Proof. intros H. unfold exit_status. now apply Z.mod_small; lia. Qed.

Lemma log_no_job_log e : is_log e -> no_job_log e.
Proof. intros (lv & s & a & ->). exact I. Qed.

Ltac no_tool_list :=
  repeat first [assumption | apply Forall_nil | exact I | reflexivity
                | apply Forall_cons | (apply Forall_app; split)
                | (eapply Forall_impl; [exact log_no_tool | assumption])
                | (eapply Forall_impl; [exact before_no_tool | assumption])
                | (eapply Forall_impl; [exact log_no_job_log | assumption])
                | (eapply Forall_impl; [exact before_no_job_log | assumption])].

(** C3. Whenever the modelling tool has been started and returns a code
    [rc] between 1 and 255, [run_cryoatom.py] and [run_cryoatom_auto.py]
    both exit with exactly [rc]; no entry has been written to the job's
    log before, and after the start of the tool they write log records
    only: no directory is made and no file copied, so nothing is
    published. *)
Theorem tool_exit_code_propagates env :
  0 < tool_returncode env < 256 ->
  (forall args fs,
     let '(status, _, evs) := RunCryoatom.run env args fs in
     tool_started env evs ->
     status = tool_returncode env /\ tool_then_logs evs) /\
  (forall args fs,
     let '(status, _, evs) := Auto.run env args fs in
     tool_started env evs ->
     status = tool_returncode env /\ tool_then_logs evs).
Proof.
  intros Hrc.
  assert (Hmod : tool_returncode env mod 256 = tool_returncode env)
    by (apply Z.mod_small; lia).
  split; intros args fs.
  - pose proof (run_cases env args fs) as H.
    destruct (RunCryoatom.run env args fs) as [[status fs'] evs].
    intros Hst. destruct H as [H | (pre & cmd & wd & post & -> & Hp & Hq & Hc & Hs)].
    + exfalso. eapply no_tool_not_started; eassumption.
    + assert (Hq' : Forall no_tool post)
        by (eapply Forall_impl; [exact log_no_tool | assumption]).
      assert (Hp' : Forall no_tool pre) by no_tool_list.
      rewrite (started_is_the_spawn env pre cmd wd post Hp' Hq' Hst) in Hs.
      split; [congruence|]. exists pre, cmd, wd, post.
      repeat split; try assumption. no_tool_list.
  - unfold Auto.run, Auto.main, bind.
    destruct (choose_gpu_returns env args fs) as (g & evg & -> & Hg).
    unfold Auto.call_run_cryoatom, Auto.run_child. run_m.
    destruct (Fs.mem env (script_dir env // "run_cryoatom.py") fs);
      cbn [negb]; run_m.
    2:{ intros Hst. exfalso. eapply no_tool_not_started; [|exact Hst].
        no_tool_list. }
    set (cmd := Auto.child_cmd env args g).
    destruct (io_denied env (Spawn cmd None)); run_m.
    { intros Hst. exfalso. eapply no_tool_not_started; [|exact Hst].
      no_tool_list. }
    pose proof (run_cases env (Auto.child_args args g) fs) as H.
    destruct (RunCryoatom.run env (Auto.child_args args g) fs)
      as [[status fs'] evs].
    pose proof (collect_no_tool env args g fs') as Hcol.
    destruct H as [H | (pre & c & wd & post & -> & Hp & Hq & Hc & Hs)].
    + destruct (status =? 0); run_m.
      * unfold events_of in Hcol.
        destruct (Auto.collect env args g fs') as [[o fs2] ev2]; cbn [snd] in Hcol.
        intros Hst. exfalso. eapply no_tool_not_started; [|exact Hst].
        no_tool_list.
      * intros Hst. exfalso. eapply no_tool_not_started; [|exact Hst].
        no_tool_list.
    + assert (Hq' : Forall no_tool post)
        by (eapply Forall_impl; [exact log_no_tool | assumption]).
      destruct (status =? 0) eqn:S0; run_m.
      * unfold events_of in Hcol.
        destruct (Auto.collect env args g fs') as [[o fs2] ev2]; cbn [snd] in Hcol.
        intros Hst. exfalso.
        assert (Hd : io_denied env (Spawn c wd) = false).
        { apply (started_is_the_spawn env
                   (evg ++ [Log INFO "calling run_cryoatom.py" [PyStr.join " " cmd];
                            Spawn cmd None] ++ pre) c wd (post ++ ev2)).
          - no_tool_list.
          - no_tool_list.
          - repeat rewrite <- app_assoc in *. exact Hst. }
        rewrite Hd in Hs. apply Z.eqb_eq in S0. lia.
      * intros Hst.
        assert (Hd : io_denied env (Spawn c wd) = false).
        { apply (started_is_the_spawn env
                   (evg ++ [Log INFO "calling run_cryoatom.py" [PyStr.join " " cmd];
                            Spawn cmd None] ++ pre) c wd
                   (post ++ [Log ERROR "run_cryoatom.py failed" [str_of_int status]])).
          - no_tool_list.
          - no_tool_list.
          - repeat rewrite <- app_assoc in *. exact Hst. }
        rewrite Hd in Hs. subst status. rewrite Hmod.
        split; [apply exit_status_code; lia|].
        exists (evg ++ [Log INFO "calling run_cryoatom.py" [PyStr.join " " cmd];
                        Spawn cmd None] ++ pre)%list, c, wd,
          (post ++ [Log ERROR "run_cryoatom.py failed"
                        [str_of_int (tool_returncode env)]])%list.
        split; [repeat rewrite <- app_assoc; reflexivity|].
        split; [assumption|].
        split; [no_tool_list|].
        apply Forall_app; split; [assumption|].
        repeat constructor. red; eauto.
Qed.

(** Scenario A: the tool succeeds and writes [out/out.cif]. *)
Example scenario_A :
  let '(status, fs', _) :=
    Auto.run (Scenario.env0 0 [Scenario.out_cif0] false)
             Scenario.aargs0 Scenario.fs0 in
  status = 0 /\ In Scenario.dest0 fs'.
Proof. vm_compute. split; [reflexivity | auto]. Qed.

(** Scenario B: the tool exits with 137. *)
Example scenario_B :
  fst (fst (Auto.run (Scenario.env0 137 [] false)
                     Scenario.aargs0 Scenario.fs0)) = 137.
Proof. vm_compute. reflexivity. Qed.

(** A tool killed by signal 9 has return code -9; the scripts then exit
    with status 247. *)
Example killed_by_signal :
  fst (fst (Auto.run (Scenario.env0 (-9) [] false)
                     Scenario.aargs0 Scenario.fs0)) = 247.
Proof. vm_compute. reflexivity. Qed.

(** The External Job script does not pass the code on: it exits with 1. *)
Example external_job_exits_1 :
  fst (fst (External.run (Scenario.env0 137 [] false)
                         Scenario.xargs0 Scenario.fs0)) = 1.
Proof. vm_compute. reflexivity. Qed.

Lemma tool_exit_code_propagates_witness :
  let env := Scenario.env0 137 [] false in
  0 < tool_returncode env < 256 /\
  (let '(status, _, evs) := RunCryoatom.run env Scenario.rargs0 Scenario.fs0 in
   status = tool_returncode env /\ tool_then_logs evs) /\
  (let '(status, _, evs) := Auto.run env Scenario.aargs0 Scenario.fs0 in
   status = tool_returncode env /\ tool_then_logs evs).
Proof.
  intros env.
  assert (Hrc : 0 < tool_returncode env < 256) by (cbn; lia).
  split; [exact Hrc|].
  destruct (tool_exit_code_propagates env Hrc) as [Hr Ha].
  specialize (Hr Scenario.rargs0 Scenario.fs0). specialize (Ha Scenario.aargs0 Scenario.fs0).
  split.
  - destruct (RunCryoatom.run env Scenario.rargs0 Scenario.fs0) as [[status fs'] evs] eqn:E.
    apply Hr. vm_compute in E. inversion E; subst; clear E.
    eexists ("cryoatom" :: _), _.
    split; [repeat (first [left; reflexivity | right]) | split; reflexivity].
  - destruct (Auto.run env Scenario.aargs0 Scenario.fs0) as [[status fs'] evs] eqn:E.
    apply Ha. vm_compute in E. inversion E; subst; clear E.
    eexists ("cryoatom" :: _), _.
    split; [repeat (first [left; reflexivity | right]) | split; reflexivity].
Defined.

End ToolFailure.

(* ===================================================================== *)
(** * The row index is checked before the row is read *)
(* ===================================================================== *)

Module RowGuard.

Import Trace.
Import Logic.
Import RunCryoatom.

Lemma script_reads_only env args :
  emits (reads_only (row_index args)) (script env args).
Proof.
  unfold script, main, prepare, build_and_report, run_tool, load_row,
    locate_map, stage_inputs.
  emits_auto; intros i Hi; (discriminate || congruence).
Qed.

(** C10. With the dataset loaded, the only row the script ever reads is the
    requested one, and it reads it only when [0 <= r < n], where the row
    exists; on an empty dataset or an index out of range the script exits
    with status 1 having written log records only: no row was read, no
    directory made, no file copied, no process started. *)
Theorem row_read_in_bounds env args fs prj jb ds :
  cs_connect env = true ->
  find_project env (project args) = Some prj ->
  find_job env (project args) (job args) = Some jb ->
  j_load_output jb (volume_output args) = Some ds ->
  let n := Z.of_nat (List.length ds) in
  let r := row_index args in
  let '(status, fs', evs) := run env args fs in
  (forall i, In (ReadRow i) evs ->
             i = r /\ 0 <= i < n /\
             exists row, nth_error ds (Z.to_nat i) = Some row) /\
  (~ (0 <= r < n) -> status = 1 /\ fs' = fs /\ Forall is_log evs).
Proof.
  intros Hc Hp Hj Hl n r.
  destruct (Z_lt_dec r 0) as [Hneg|Hnn];
    [|destruct (Z_lt_dec r n) as [Hlt|Hge]].
  2:{ (* in range *)
    pose proof (script_reads_only env args fs) as Hro.
    unfold run. unfold events_of in Hro.
    destruct (script env args fs) as [[o fs'] evs]; cbn [snd] in Hro.
    split; [|intros H; exfalso; apply H; lia].
    intros i Hi. rewrite Forall_forall in Hro.
    assert (i = r) by (apply (Hro _ Hi); reflexivity). subst i.
    split; [reflexivity | split; [lia|]].
    destruct (nth_error ds (Z.to_nat r)) as [row|] eqn:E; [eauto|].
    apply nth_error_None in E. unfold n in Hlt. lia. }
  all: assert (Hout :
      run env args fs = (1, fs,
        List.app
        [Log INFO "connecting to CryoSPARC" [];
         Log INFO "using project / job" [p_uid prj; j_uid jb; j_type jb]]
        (if n =? 0
         then [Log ERROR "output is empty" [j_uid jb; volume_output args]]
         else [Log INFO "rows in output" [volume_output args; str_of_int n];
               Log ERROR "row-index out of range"
                   [str_of_int r; str_of_int n]]))).
  1,3: unfold run, script, main, prepare, load_row; run_m;
      rewrite Hc; run_m; rewrite Hp; run_m; rewrite Hj; run_m;
      rewrite Hl; run_m; fold n; fold r;
      destruct (n =? 0) eqn:N0; run_m; [reflexivity|];
      replace ((0 <=? r) && (r <? n)) with false
        by (symmetry; apply andb_false_iff;
            rewrite Z.leb_gt, Z.ltb_ge; lia);
      run_m; reflexivity.
  all: rewrite Hout; split;
    [ intros i Hi; exfalso; destruct (n =? 0); cbn in Hi;
      repeat (destruct Hi as [Hi|Hi]; [discriminate|]); exact Hi
    | intros _; split; [reflexivity | split; [reflexivity|]];
      destruct (n =? 0); repeat constructor; red; eauto ].
Qed.

(** Row 5 of a dataset of one row. *)
Lemma row_read_in_bounds_witness :
  let args := RunCryoatom.mkArgs "P1" "J1" "volume" None 5 "seq.fasta"
                                 (Some 0) None false in
  let '(status, fs', evs) :=
    run (Scenario.env0 0 [] false) args Scenario.fs0 in
  (forall i, In (ReadRow i) evs ->
             i = 5 /\ 0 <= i < 1 /\
             exists row, nth_error [Scenario.row0] (Z.to_nat i) = Some row) /\
  (~ (0 <= 5 < 1) ->
   status = 1 /\ fs' = Scenario.fs0 /\ Forall is_log evs).
Proof.
  intros args.
  exact (row_read_in_bounds (Scenario.env0 0 [] false) args Scenario.fs0
           Scenario.prj0 Scenario.job0 [Scenario.row0]
           eq_refl eq_refl eq_refl eq_refl).
Defined.

End RowGuard.

(* ===================================================================== *)
(** * Resolution of the map path *)
(* ===================================================================== *)

Module ResolvePath.

Import Trace.
Import Logic.
Import RunCryoatom.

Lemma norm_rev_clean_out stack ps :
  Fs.clean stack -> Fs.clean (Fs.norm_rev stack ps).
Proof.
  revert stack. induction ps as [|x r IH]; intros stack Hs; simpl.
  - now apply Forall_rev.
  - destruct (String.eqb x "..") eqn:E.
    + apply IH. destruct stack; [constructor | now inversion Hs].
    + apply IH. constructor; [|assumption]. now apply String.eqb_neq.
Qed.

Lemma norm_rev_clean_in stack ps :
  Fs.clean ps -> Fs.norm_rev stack ps = (rev stack ++ ps)%list.
Proof.
  revert stack. induction ps as [|x r IH]; intros stack Hp; simpl.
  - now rewrite app_nil_r.
  - inversion Hp as [|? ? Hx Hr]; subst.
    apply String.eqb_neq in Hx. rewrite Hx, IH by assumption.
    simpl. now rewrite <- app_assoc.
Qed.

Lemma normalize_idempotent ps :
  Fs.normalize (Fs.normalize ps) = Fs.normalize ps.
Proof.
  unfold Fs.normalize at 1. rewrite norm_rev_clean_in; [reflexivity|].
  apply norm_rev_clean_out. constructor.
Qed.

Lemma resolve_idempotent env p :
  Fs.resolve env (Fs.resolve env p) = Fs.resolve env p.
Proof.
  unfold Fs.resolve at 1. cbn [Fs.resolve Pathlib.is_absolute Pathlib.root
    Pathlib.parts String.eqb negb app].
  unfold Fs.resolve.
  change (Pathlib.is_absolute {| Pathlib.root := "/"; Pathlib.parts := ?x |}) with true.
  cbn [Pathlib.parts app]. now rewrite normalize_idempotent.
Qed.
Lemma resolve_clean_absolute env p :
  Pathlib.root p = "/" -> Fs.clean (Pathlib.parts p) -> Fs.resolve env p = p.
Proof.
  destruct p as [rt ps]; cbn [Pathlib.root Pathlib.parts]. intros -> Hc.
  unfold Fs.resolve.
  change (Pathlib.is_absolute {| Pathlib.root := "/"; Pathlib.parts := ps |})
    with true.
  cbn [Pathlib.parts app]. unfold Fs.normalize.
  now rewrite norm_rev_clean_in.
Qed.

(** C8. An absolute raw path is resolved without the base directory, and
    is returned as it is when it is rooted at ["/"] and has no [".."];
    a relative one is joined to the base directory first.  Resolving is
    idempotent: a resolved path resolves to itself.  Resolution does not
    look at the file system; [locate_map], its caller, checks that the
    resolved path exists and otherwise logs the error and exits with
    code 1, leaving the file system as it was. *)
Theorem resolve_map_path_spec env :
  (forall base base' raw,
     Pathlib.is_absolute (Pathlib.of_string raw) = true ->
     resolve_map_path env base raw = resolve_map_path env base' raw /\
     resolve_map_path env base raw = Fs.resolve env (Pathlib.of_string raw) /\
     (Pathlib.root (Pathlib.of_string raw) = "/" ->
      Fs.clean (Pathlib.parts (Pathlib.of_string raw)) ->
      resolve_map_path env base raw = Pathlib.of_string raw)) /\
  (forall base raw,
     Pathlib.is_absolute (Pathlib.of_string raw) = false ->
     resolve_map_path env base raw
     = Fs.resolve env (Pathlib.join base (Pathlib.of_string raw))) /\
  (forall base raw,
     Fs.resolve env (resolve_map_path env base raw)
     = resolve_map_path env base raw) /\
  (forall args prj row fs mf raw,
     choose_map_field row (map_field args) = Ret mf ->
     row_get row mf = Ret raw ->
     let map_path := resolve_map_path env (safe_dir (p_dir prj)) raw in
     let '(o, fs', evs) := locate_map env args prj row fs in
     fs' = fs /\ Forall is_log evs /\
     if Fs.mem env map_path fs then o = Ret map_path
     else o = SysExit 1 /\
          In (Log ERROR "map file not found" [Pathlib.to_string map_path]) evs).
Proof.
  split; [|split; [|split]].
  - intros base base' raw Habs. unfold resolve_map_path. rewrite Habs.
    split; [reflexivity | split; [reflexivity|]].
    intros Hr Hc. now apply resolve_clean_absolute.
  - intros base raw Hrel. unfold resolve_map_path. now rewrite Hrel.
  - intros base raw. unfold resolve_map_path.
    destruct (Pathlib.is_absolute (Pathlib.of_string raw));
      apply resolve_idempotent.
  - intros args prj row fs mf raw Hf Hg map_path.
    unfold locate_map. run_m. rewrite Hf. run_m. rewrite Hg. run_m.
    fold map_path.
    destruct (Fs.mem env map_path fs); run_m.
    + split; [reflexivity|]. split; [|reflexivity].
      repeat constructor; red; eauto.
    + split; [reflexivity|]. split; [|split; [reflexivity|]].
      * repeat constructor; red; eauto.
      * right; left; reflexivity.
Qed.

(** The relative path ["J1/map_sharp.mrc"] of the sample row, which exists
    under the project directory. *)
Lemma resolve_map_path_spec_witness :
  let env := Scenario.env0 0 [] false in
  let map_path := resolve_map_path env (safe_dir (p_dir Scenario.prj0))
                                   "J1/map_sharp.mrc" in
  map_path = Scenario.P "/data/P1/J1/map_sharp.mrc" /\
  Fs.resolve env map_path = map_path /\
  locate_map env Scenario.rargs0 Scenario.prj0 Scenario.row0 []
  = (SysExit 1, [],
     [Log INFO "map field" ["map_sharp/path"; "J1/map_sharp.mrc"];
      Log ERROR "map file not found" ["/data/P1/J1/map_sharp.mrc"]]).
Proof.
  intros env map_path.
  destruct (resolve_map_path_spec env) as (_ & Hrel & Hidem & Hloc).
  split; [|split].
  - unfold map_path. rewrite Hrel by reflexivity. reflexivity.
  - apply Hidem.
  - specialize (Hloc Scenario.rargs0 Scenario.prj0 Scenario.row0 []
                     "map_sharp/path" "J1/map_sharp.mrc" eq_refl eq_refl).
    cbv zeta in Hloc.
    destruct (locate_map env Scenario.rargs0 Scenario.prj0 Scenario.row0 [])
      as [[o fs'] evs] eqn:E.
    vm_compute in E. inversion E; subst. reflexivity.
Defined.

End ResolvePath.

(* ===================================================================== *)
(** * The working directory *)
(* ===================================================================== *)

Module Layout.

Import Trace.
Import Logic.

Lemma truthy_passed o : PyStr.truthy (Auto.passed o) = PyStr.truthy o.
Proof.
  unfold Auto.passed. destruct (PyStr.truthy o) eqn:E; [exact E | reflexivity].
Qed.

Lemma work_dir_passed (o : option string) (dflt : Path) :
  (if PyStr.truthy (Auto.passed o)
   then match Auto.passed o with
        | Some d => Pathlib.of_string d
        | None => Pathlib.of_string ""
        end
   else dflt)
  = (if PyStr.truthy o
     then match o with
          | Some d => Pathlib.of_string d
          | None => Pathlib.of_string ""
          end
     else dflt).
Proof.
  rewrite truthy_passed. unfold Auto.passed.
  destruct (PyStr.truthy o); reflexivity.
Qed.

(** C6. Started from the same options, the three scripts look up the same
    project and job and compute the same working directory and the same
    [out/out.cif]: [run_cryoatom_auto.py] and [cryoatom_external_job.py]
    recompute exactly the paths of [run_cryoatom.py], whether the scripts
    are chained (each passing its options to the next) or given the same
    [--out-dir].  A non-empty [--out-dir] is the working directory as it
    is; otherwise it is [cryoatom_<project uid>_<job uid>] under the
    project directory. *)
Theorem work_dir_agreement (prj : Project) (jb : Job) :
  (forall (xargs : External.Args) (g : Z),
     let aargs := External.child_args xargs in
     let rargs := Auto.child_args aargs g in
     (RunCryoatom.project rargs = External.project xargs /\
      RunCryoatom.job rargs = External.src_job xargs /\
      Auto.project aargs = External.project xargs /\
      Auto.job aargs = External.src_job xargs) /\
     Auto.work_dir_of aargs prj jb = RunCryoatom.work_dir_of rargs prj jb /\
     External.work_dir_of xargs prj jb = RunCryoatom.work_dir_of rargs prj jb /\
     Auto.out_cif_of aargs prj jb
     = RunCryoatom.cif_of (RunCryoatom.work_dir_of rargs prj jb) /\
     External.out_cif_of xargs prj jb
     = RunCryoatom.cif_of (RunCryoatom.work_dir_of rargs prj jb)) /\
  (forall (rargs : RunCryoatom.Args) (aargs : Auto.Args)
          (xargs : External.Args),
     Auto.out_dir aargs = RunCryoatom.out_dir rargs ->
     External.out_dir xargs = RunCryoatom.out_dir rargs ->
     Auto.work_dir_of aargs prj jb = RunCryoatom.work_dir_of rargs prj jb /\
     External.work_dir_of xargs prj jb = RunCryoatom.work_dir_of rargs prj jb /\
     Pathlib.to_string (Auto.out_cif_of aargs prj jb)
     = Pathlib.to_string (RunCryoatom.cif_of (RunCryoatom.work_dir_of rargs prj jb)) /\
     Pathlib.to_string (External.out_cif_of xargs prj jb)
     = Pathlib.to_string (RunCryoatom.cif_of (RunCryoatom.work_dir_of rargs prj jb))) /\
  (forall (rargs : RunCryoatom.Args),
     (forall d, RunCryoatom.out_dir rargs = Some d -> d <> "" ->
                RunCryoatom.work_dir_of rargs prj jb = Pathlib.of_string d) /\
     (PyStr.truthy (RunCryoatom.out_dir rargs) = false ->
      RunCryoatom.work_dir_of rargs prj jb
      = safe_dir (p_dir prj) // ("cryoatom_" ++ p_uid prj ++ "_" ++ j_uid jb))).
Proof.
  split; [|split].
  - intros xargs g aargs rargs.
    assert (Ha : Auto.work_dir_of aargs prj jb
                 = RunCryoatom.work_dir_of rargs prj jb).
    { unfold Auto.work_dir_of, RunCryoatom.work_dir_of, rargs, Auto.child_args.
      cbn [RunCryoatom.out_dir]. now rewrite work_dir_passed. }
    assert (Hx : External.work_dir_of xargs prj jb
                 = RunCryoatom.work_dir_of rargs prj jb).
    { rewrite <- Ha.
      unfold External.work_dir_of, Auto.work_dir_of, aargs, External.child_args.
      cbn [Auto.out_dir]. now rewrite work_dir_passed. }
    split; [repeat split|].
    split; [exact Ha|]. split; [exact Hx|].
    unfold Auto.out_cif_of, External.out_cif_of, RunCryoatom.cif_of,
      RunCryoatom.out_dir_of.
    rewrite Ha, Hx. split; reflexivity.
  - intros rargs aargs xargs Hao Hxo.
    assert (Ha : Auto.work_dir_of aargs prj jb
                 = RunCryoatom.work_dir_of rargs prj jb)
      by (unfold Auto.work_dir_of, RunCryoatom.work_dir_of; now rewrite Hao).
    assert (Hx : External.work_dir_of xargs prj jb
                 = RunCryoatom.work_dir_of rargs prj jb)
      by (unfold External.work_dir_of, RunCryoatom.work_dir_of; now rewrite Hxo).
    split; [exact Ha|]. split; [exact Hx|].
    unfold Auto.out_cif_of, External.out_cif_of, RunCryoatom.cif_of,
      RunCryoatom.out_dir_of.
    rewrite Ha, Hx. split; reflexivity.
  - intros rargs. unfold RunCryoatom.work_dir_of. split.
    + intros d Hd Hne. rewrite Hd.
      assert (Ht : PyStr.truthy (Some d) = true).
      { unfold PyStr.truthy. apply negb_true_iff. now apply String.eqb_neq. }
      now rewrite Ht.
    + intros Ht. now rewrite Ht.
Qed.

Ltac run_m_in H :=
  cbv beta iota zeta delta
      [bind ret raise sys_exit lift try_except emit log or_exit
       Fs.path_exists Fs.add Fs.mkdir Fs.copy2
       events_of] in H;
  cbn [fst snd app negb] in H.

Ltac split_ifs H :=
  repeat match type of H with
         | context [if ?b then _ else _] =>
             destruct b eqn:?; run_m_in H; try discriminate H
         end.

(** C7. The working directory depends on nothing but the override, the
    project directory and the two uids.  When staging succeeds, the paths
    it hands to the tool are [root/input.fasta], [root/out] and, only when
    the map is copied, [root/input_map.mrc] (otherwise the resolved map
    path itself); what it does to the file system is exactly: make [root],
    copy the FASTA file, copy the map unless told not to, make [root/out].
    The result file is [root/out/out.cif]. *)
Theorem workspace_layout env (args : RunCryoatom.Args) prj jb :
  let root := RunCryoatom.work_dir_of args prj jb in
  (forall (args' : RunCryoatom.Args) prj' jb',
     RunCryoatom.out_dir args' = RunCryoatom.out_dir args ->
     safe_dir (p_dir prj') = safe_dir (p_dir prj) ->
     p_uid prj' = p_uid prj -> j_uid jb' = j_uid jb ->
     RunCryoatom.work_dir_of args' prj' jb' = root) /\
  (forall map_path fs s fs' evs,
     RunCryoatom.stage_inputs env args prj jb map_path fs = (Ret s, fs', evs) ->
     s = RunCryoatom.mkStaged root (root // "input.fasta")
           (if RunCryoatom.no_copy_map args then map_path
            else root // "input_map.mrc")
           (root // "out") /\
     effects evs
     = Mkdir root
       :: Copy (Pathlib.of_string (RunCryoatom.fasta args))
               (root // "input.fasta")
       :: (if RunCryoatom.no_copy_map args then []
           else [Copy map_path (root // "input_map.mrc")])
       ++ [Mkdir (root // "out")]) /\
  RunCryoatom.cif_of root = root // "out" // "out.cif".
Proof.
  intros root. split; [|split; [|reflexivity]].
  - intros args' prj' jb' Ho Hd Hu Hj. unfold root, RunCryoatom.work_dir_of.
    now rewrite Ho, Hd, Hu, Hj.
  - intros map_path fs s fs' evs H.
    unfold RunCryoatom.stage_inputs, RunCryoatom.out_dir_of in H.
    fold root in H. run_m_in H.
    destruct (RunCryoatom.no_copy_map args); split_ifs H;
      inversion H; subst; split; reflexivity.
Qed.

(** Staging in the sample session, map copied. *)
Lemma workspace_layout_witness :
  let env := Scenario.env0 0 [] false in
  let root := Scenario.P "/data/P1/cryoatom_P1_J1" in
  let map_path := Scenario.P "/data/P1/J1/map_sharp.mrc" in
  RunCryoatom.work_dir_of Scenario.rargs0 Scenario.prj0 Scenario.job0 = root /\
  exists s fs' evs,
    RunCryoatom.stage_inputs env Scenario.rargs0 Scenario.prj0 Scenario.job0
      map_path Scenario.fs0 = (Ret s, fs', evs) /\
    s = RunCryoatom.mkStaged root (root // "input.fasta")
          (root // "input_map.mrc") (root // "out") /\
    effects evs
    = [Mkdir root; Copy (Scenario.P "seq.fasta") (root // "input.fasta");
       Copy map_path (root // "input_map.mrc"); Mkdir (root // "out")].
Proof.
  intros env root map_path. split; [reflexivity|].
  destruct (RunCryoatom.stage_inputs env Scenario.rargs0 Scenario.prj0
              Scenario.job0 map_path Scenario.fs0) as [[o fs'] evs] eqn:E.
  assert (Ho : exists s, o = Ret s).
  { vm_compute in E. inversion E. eexists. reflexivity. }
  destruct Ho as [s ->]. exists s, fs', evs. split; [reflexivity|].
  exact (proj1 (proj2 (workspace_layout env Scenario.rargs0 Scenario.prj0
                         Scenario.job0))
           map_path Scenario.fs0 s fs' evs E).
Defined.

End Layout.

(* ===================================================================== *)
(** * Publishing the model *)
(* ===================================================================== *)

Module Publish.

Import Trace.
Import Logic.

Lemma mem_here env p fs : Fs.mem env p (Fs.resolve env p :: fs) = true.
Proof. unfold Fs.mem. cbn [existsb]. now rewrite StrFacts.path_eqb_refl. Qed.

Lemma mem_later env p q fs :
  Fs.mem env p fs = true -> Fs.mem env p (q :: fs) = true.
Proof. unfold Fs.mem. cbn [existsb]. intros ->. apply orb_true_r. Qed.

(** C9. [publish] first makes the destination directory, which exists
    afterwards.  When the copy fails (it is denied, or the source is
    missing) the exception escapes [main], the process ends with status 1,
    and no job log entry is written.  When the copy succeeds the published
    file exists and [publish] completes normally, exit status 0, also when
    writing the job's log raises: that failure is caught and reported as
    a warning. *)
Theorem publish_spec env prj jb g out_cif fs :
  let target_dir := safe_dir (j_dir jb) // "cryoatom" in
  let dest := Auto.dest_file_of prj jb in
  io_denied env (Mkdir target_dir) = false ->
  let '(o, fs', evs) := Auto.publish env prj jb g out_cif fs in
  hd_error evs = Some (Mkdir target_dir) /\
  Fs.mem env target_dir fs' = true /\
  (if io_denied env (Copy out_cif dest)
      || negb (Fs.mem env out_cif (Fs.made env target_dir ++ fs))
   then o = Raise OSError /\ exit_status o = 1 /\
        forall uid text a, ~ In (JobLog uid text a) evs
   else o = Ret tt /\ exit_status o = 0 /\
        Fs.mem env dest fs' = true /\
        In (Copy out_cif dest) evs /\
        (job_log_raises env = true ->
         In (Log WARNING "writing the job log failed" []) evs)).
Proof.
  intros target_dir dest Hmk.
  unfold Auto.publish, Auto.job_log. fold target_dir. fold dest. run_m.
  rewrite Hmk. run_m.
  destruct (io_denied env (Copy out_cif dest)
            || negb (Fs.mem env out_cif (Fs.made env target_dir ++ fs))).
  - run_m. split; [reflexivity|]. split; [apply mem_here|].
    split; [reflexivity|]. split; [reflexivity|].
    intros uid text a [H|[H|[]]]; discriminate.
  - run_m. destruct (job_log_raises env); run_m;
      (split; [reflexivity|]);
      (split; [apply mem_later, mem_here|]);
      (split; [reflexivity|]); (split; [reflexivity|]);
      (split; [apply mem_here|]);
      (split; [right; left; reflexivity|]).
    + intros _. do 4 right. left. reflexivity.
    + discriminate.
Qed.

(** The job log raises, the model is published all the same. *)
Lemma publish_spec_witness :
  let env := Scenario.env0 0 [] true in
  let '(o, fs', evs) :=
    Auto.publish env Scenario.prj0 Scenario.job0 0 Scenario.out_cif0
                 [Scenario.out_cif0] in
  o = Ret tt /\ exit_status o = 0 /\
  Fs.mem env Scenario.dest0 fs' = true /\
  In (Log WARNING "writing the job log failed" []) evs.
Proof.
  intros env.
  pose proof (publish_spec env Scenario.prj0 Scenario.job0 0
                Scenario.out_cif0 [Scenario.out_cif0] eq_refl) as H.
  destruct (Auto.publish env Scenario.prj0 Scenario.job0 0 Scenario.out_cif0
              [Scenario.out_cif0]) as [[o fs'] evs].
  destruct H as (_ & _ & H).
  change (io_denied env _ || negb (Fs.mem env _ _)) with false in H.
  destruct H as (Ho & He & Hd & _ & Hw).
  repeat split; try assumption. now apply Hw.
Defined.

(** The whole of [run_cryoatom_auto.py] when the job log raises. *)
Example auto_run_log_raises :
  let '(status, fs', _) :=
    Auto.run (Scenario.env0 0 [Scenario.out_cif0] true)
             Scenario.aargs0 Scenario.fs0 in
  status = 0 /\ In Scenario.dest0 fs'.
Proof. vm_compute. split; [reflexivity | auto]. Qed.

End Publish.

(* ===================================================================== *)
(** * Resolution of the artifact *)
(* ===================================================================== *)

Module Artifact.

Import Trace.
Import Logic.

(** C2, as the code has it.  In [cryoatom_external_job.py] the published
    copy is tried first and [out/out.cif] second; when neither exists the
    script writes a [[WARN]] entry to the External Job's log and returns
    normally, the file system untouched and no model mounted.  In
    [run_cryoatom_auto.py], when [out/out.cif] does not exist after the
    run, the script logs an error and exits with code 1, nothing
    published. *)
Theorem artifact_resolution env :
  (forall dest out_cif fs,
     External.resolve_artifact env dest out_cif fs
     = (Ret (if Fs.mem env dest fs then (External.PublishedCopy, Some dest)
             else if Fs.mem env out_cif fs
                  then (External.RawWorkingCopy, Some out_cif)
                  else (External.NotFound, None)),
        fs, [])) /\
  (forall xargs prj sjob ej fs,
     let dest := External.dest_file_of prj sjob in
     let out_cif := External.out_cif_of xargs prj sjob in
     Fs.mem env dest fs = false -> Fs.mem env out_cif fs = false ->
     External.mount_model env xargs prj sjob ej fs
     = (Ret false, fs,
        [JobLog ej "[WARN] no model file to mount, skipping"
                [Pathlib.to_string dest; Pathlib.to_string out_cif];
         JobLog ej "[INFO] External Job ends without model output" []])) /\
  (forall aargs g prj jb fs,
     cs_connect env = true ->
     find_project env (Auto.project aargs) = Some prj ->
     find_job env (Auto.project aargs) (Auto.job aargs) = Some jb ->
     Fs.mem env (Auto.out_cif_of aargs prj jb) fs = false ->
     Auto.collect env aargs g fs
     = (SysExit 1, fs,
        [Log ERROR "CryoAtom output not found"
             [Pathlib.to_string (Auto.out_cif_of aargs prj jb)]])).
Proof.
  split; [|split].
  - intros dest out_cif fs. unfold External.resolve_artifact. run_m.
    destruct (Fs.mem env dest fs); run_m; [reflexivity|].
    destruct (Fs.mem env out_cif fs); reflexivity.
  - intros xargs prj sjob ej fs dest out_cif Hd Hc.
    unfold External.mount_model, External.resolve_artifact, External.ej_log.
    fold dest. fold out_cif. run_m. rewrite Hd. run_m. rewrite Hc. run_m.
    reflexivity.
  - intros aargs g prj jb fs Hc Hp Hj Hm.
    unfold Auto.collect. run_m. rewrite Hc. run_m. rewrite Hp. run_m.
    rewrite Hj. run_m. rewrite Hm. run_m. reflexivity.
Qed.

(** Neither path exists in the empty file system. *)
Lemma artifact_resolution_witness :
  let env := Scenario.env0 0 [] false in
  External.mount_model env Scenario.xargs0 Scenario.prj0 Scenario.job0 "J9" []
  = (Ret false, [],
     [JobLog "J9" "[WARN] no model file to mount, skipping"
             ["/data/P1/J1/cryoatom/P1_J1_cryoatom.cif";
              "/data/P1/cryoatom_P1_J1/out/out.cif"];
      JobLog "J9" "[INFO] External Job ends without model output" []]) /\
  Auto.collect env Scenario.aargs0 0 []
  = (SysExit 1, [],
     [Log ERROR "CryoAtom output not found"
          ["/data/P1/cryoatom_P1_J1/out/out.cif"]]).
Proof.
  intros env. destruct (artifact_resolution env) as (_ & Hm & Ha). split.
  - exact (Hm Scenario.xargs0 Scenario.prj0 Scenario.job0 "J9" []
              eq_refl eq_refl).
  - exact (Ha Scenario.aargs0 0 Scenario.prj0 Scenario.job0 []
              eq_refl eq_refl eq_refl eq_refl).
Defined.

(** The claim fails on the whole pipeline: the tool runs and returns 0 but
    leaves no [out/out.cif]; afterwards neither candidate path exists, and
    both [run_cryoatom_auto.py] and the External Job script end with
    status 1 instead of 0. *)
Lemma missing_output_is_fatal :
  let env := Scenario.env0 0 [] false in
  tool_returncode env = 0 /\
  (let '(status, fs', evs) := Auto.run env Scenario.aargs0 Scenario.fs0 in
   tool_started env evs /\
   Fs.mem env Scenario.dest0 fs' = false /\
   Fs.mem env Scenario.out_cif0 fs' = false /\
   status = 1 /\ status <> 0) /\
  (let '(status, fs', evs) := External.run env Scenario.xargs0 Scenario.fs0 in
   tool_started env evs /\
   Fs.mem env Scenario.dest0 fs' = false /\
   Fs.mem env Scenario.out_cif0 fs' = false /\
   status = 1 /\ status <> 0).
Proof.
  intros env. split; [reflexivity|]. split.
  - destruct (Auto.run env Scenario.aargs0 Scenario.fs0)
      as [[status fs'] evs] eqn:E.
    vm_compute in E. inversion E; subst; clear E. split.
    + eexists ("cryoatom" :: _), _.
      split; [repeat (first [left; reflexivity | right]) | split; reflexivity].
    + vm_compute. repeat split; discriminate.
  - destruct (External.run env Scenario.xargs0 Scenario.fs0)
      as [[status fs'] evs] eqn:E.
    vm_compute in E. inversion E; subst; clear E. split.
    + eexists ("cryoatom" :: _), _.
      split; [repeat (first [left; reflexivity | right]) | split; reflexivity].
    + vm_compute. repeat split; discriminate.
Qed.

End Artifact.

(* ===================================================================== *)
(** * More about the choice of the GPU *)
(* ===================================================================== *)

Module GpuMore.

Import Gpu.
Local Open Scope list_scope.

Section WithBuiltins.
Variable B : Builtins.

Lemma select_some cs bi b :
  exists n sc, select cs bi (Some b) = (n, Some sc).
Proof.
  revert bi b. induction cs as [|g r IH]; intros bi b; simpl; [eauto|].
  destruct (tuple_lt (score_of g) b); apply IH.
Qed.

Lemma select_none_nil cs bi n :
  select cs bi None = (n, None) -> cs = [] /\ n = bi.
Proof.
  destruct cs as [|g r]; simpl; intros H.
  - inversion H. auto.
  - destruct (select_some r (idx g) (score_of g)) as (m & sc & E).
    rewrite E in H. discriminate.
Qed.

Lemma select_member cs : forall bi bs n sc,
  select cs bi bs = (n, sc) ->
  (n = bi /\ sc = bs) \/ exists g, In g cs /\ idx g = n.
Proof.
  induction cs as [|g r IH]; intros bi bs n sc H; simpl in H.
  - inversion H. auto.
  - destruct (match bs with None => true | Some b => tuple_lt (score_of g) b end).
    + apply IH in H. destruct H as [[-> _] | (g' & Hin & Hg)].
      * right. exists g. split; [now left | reflexivity].
      * right. exists g'. split; [now right | assumption].
    + apply IH in H. destruct H as [H | (g' & Hin & Hg)]; [now left|].
      right. exists g'. split; [now right | assumption].
Qed.

Lemma candidates_sound allowed lines g :
  In g (candidates B allowed lines) ->
  excluded allowed (idx g) = false /\
  exists line, In line lines /\ parse_line B line = Some g.
Proof.
  induction lines as [|l r IH]; simpl; [contradiction|].
  destruct (parse_line B l) as [g0|] eqn:P.
  - destruct (excluded allowed (idx g0)) eqn:X.
    + intros H. destruct (IH H) as (Hx & line & Hl & Hp). eauto 6.
    + intros [<-|H].
      * split; [assumption|]. exists l. auto.
      * destruct (IH H) as (Hx & line & Hl & Hp). eauto 6.
  - intros H. destruct (IH H) as (Hx & line & Hl & Hp). eauto 6.
Qed.

(** X1. The device [pick_free_gpu] returns is the index of a line that parsed
    and passed the allow-list, or else it is 0, returned after a warning
    exactly when the query failed or no line survived. *)
Theorem pick_free_gpu_result visible smi fs :
  let '(o, fs', evs) := pick_free_gpu B visible smi fs in
  exists n, o = Ret n /\
    ((n = 0 /\
      (smi = None \/
       exists out, smi = Some out /\
         candidates B (allowed_of B visible) (lines_of B out) = []) /\
      exists pre w, evs = pre ++ [w] /\ is_warning w)
     \/
     (exists out g,
        smi = Some out /\
        In g (candidates B (allowed_of B visible) (lines_of B out)) /\
        idx g = n /\ excluded (allowed_of B visible) n = false /\
        exists line, In line (lines_of B out) /\ parse_line B line = Some g)).
Proof.
  unfold pick_free_gpu, bind.
  destruct (GpuFacts.read_allowed_spec B visible fs) as (ws & -> & Hws).
  destruct smi as [out|].
  - unfold lift. rewrite GpuFacts.scan_select. fold (lines_of B out).
    destruct (select (candidates B (allowed_of B visible) (lines_of B out))
                     0 None) as [n [sc|]] eqn:E;
      cbn [snd fst]; unfold log, emit, ret; cbn [app].
    + exists n. split; [reflexivity|]. right.
      apply select_member in E.
      destruct E as [[_ E] | (g & Hin & Hg)]; [discriminate|].
      destruct (candidates_sound _ _ _ Hin) as (Hx & line & Hl & Hp).
      exists out, g. rewrite <- Hg at 2. eauto 8.
    + apply select_none_nil in E. destruct E as [E _].
      exists 0. split; [reflexivity|]. left.
      split; [reflexivity|]. split; [right; eauto|].
      eexists ws, _. split; [reflexivity|]. red; eauto.
  - unfold log, emit, ret; cbn [app]. exists 0. split; [reflexivity|]. left.
    split; [reflexivity|]. split; [now left|].
    eexists ws, _. split; [reflexivity|]. red; eauto.
Qed.

Lemma ratio_lt_not_le a b :
  numeric a -> numeric b ->
  PrimFloat.ltb (fst a) (fst b) = true -> ~ lex_le b a.
Proof.
  intros Ha Hb Hlt Hle.
  apply FloatFacts.ltb_key in Hlt; try (apply Ha || apply Hb).
  assert (Hk : skey_lt (skey b) (skey a) \/ skey b = skey a).
  { destruct Hle as [H|H]; [left; now apply GpuFacts.lex_lt_key
                           | right; now apply GpuFacts.lex_eq_key]. }
  unfold skey, skey_lt in Hk; cbn [fst snd] in Hk.
  revert Hlt Hk.
  generalize (PyFloat.key (fst a)), (PyFloat.key (fst b)),
             (PyFloat.key (snd a)), (PyFloat.key (snd b)).
  intros [[a1 a2] a3] [[b1 b2] b3] ka kb. unfold PyFloat.key_lt.
  intros Hlt [[H|[H _]]|H]; try (inversion H; subst); lia.
Qed.

(** X2. A candidate whose memory ratio is strictly below that of every other
    candidate is selected, whatever the utilisations. *)
Theorem lowest_memory_ratio_wins visible out fs cs i g :
  cs = candidates B (allowed_of B visible) (lines_of B out) ->
  all_numeric cs ->
  nth_error cs i = Some g ->
  (forall j g', j <> i -> nth_error cs j = Some g' ->
     PrimFloat.ltb (fst (score_of g)) (fst (score_of g')) = true) ->
  fst (fst (pick_free_gpu B visible (Some out) fs)) = Ret (idx g).
Proof.
  intros -> Hnum Hi Hlow.
  assert (Hne : candidates B (allowed_of B visible) (lines_of B out) <> [])
    by (intros E; rewrite E in Hi; destruct i; discriminate).
  destruct (GpuFacts.select_first_min _ Hne Hnum)
    as (i' & g' & (Hi' & Hle & _) & Hsel).
  assert (g' = g).
  { destruct (Nat.eq_dec i' i) as [->|Hd]; [congruence|].
    exfalso. apply (ratio_lt_not_le (score_of g) (score_of g')).
    - eapply GpuFacts.all_numeric_nth; eassumption.
    - eapply GpuFacts.all_numeric_nth; eassumption.
    - eapply Hlow; eassumption.
    - eapply Hle; eassumption. }
  subst g'.
  unfold pick_free_gpu, bind.
  destruct (GpuFacts.read_allowed_spec B visible fs) as (ws & -> & _).
  unfold lift. rewrite GpuFacts.scan_select. fold (lines_of B out).
  rewrite Hsel. reflexivity.
Qed.

Lemma parse_allowed_no_digits xs :
  (forall x, In x xs -> str_isdigit B (str_strip B x) = false) ->
  parse_allowed B xs = Some [].
Proof.
  induction xs as [|x r IH]; intros H; simpl; [reflexivity|].
  rewrite (H x (or_introl eq_refl)). apply IH. intros y Hy. apply H. now right.
Qed.

(** X3. When no comma-separated token of a non-empty [CUDA_VISIBLE_DEVICES] is
    a string of digits (device UUIDs, for instance), the allow-list is
    empty and [pick_free_gpu] returns 0, whatever [nvidia-smi] reports. *)
Theorem non_numeric_visible_devices v smi fs :
  v <> "" ->
  (forall x, In x (PyStr.split_on "," v) ->
             str_isdigit B (str_strip B x) = false) ->
  allowed_of B (Some v) = Some [] /\
  exists ws,
    pick_free_gpu B (Some v) smi fs = (Ret 0, fs, ws) /\
    ws <> [] /\ Forall is_warning ws.
Proof.
  intros Hv Hnd.
  assert (Ht : PyStr.truthy (Some v) = true).
  { unfold PyStr.truthy. apply negb_true_iff. now apply String.eqb_neq. }
  assert (Ha : allowed_of B (Some v) = Some []).
  { unfold allowed_of. rewrite Ht. now apply parse_allowed_no_digits. }
  split; [exact Ha|].
  unfold pick_free_gpu, bind.
  destruct (GpuFacts.read_allowed_spec B (Some v) fs) as (ws & -> & Hws).
  rewrite Ha. destruct smi as [out|].
  - unfold lift. rewrite GpuFacts.scan_select.
    rewrite (GpuFacts.candidates_nil B (Some [])).
    2:{ intros line _. unfold dropped.
        destruct (parse_line B line); [reflexivity | exact I]. }
    cbn [select snd fst]. unfold log, emit, ret; cbn [app].
    eexists (ws ++ [_]). split; [reflexivity|]. split.
    + destruct ws; discriminate.
    + apply Forall_app. split; [exact Hws|].
      constructor; [|constructor]. red; eauto.
  - unfold log, emit, ret; cbn [app].
    eexists (ws ++ [_]). split; [reflexivity|]. split.
    + destruct ws; discriminate.
    + apply Forall_app. split; [exact Hws|].
      constructor; [|constructor]. red; eauto.
Qed.

(** X4. When [int] fails on a token that [isdigit] accepted, the restriction is
    given up: the selection is the one made without [CUDA_VISIBLE_DEVICES],
    preceded by one warning. *)
Theorem unparsable_visible_devices v smi fs :
  v <> "" ->
  parse_allowed B (PyStr.split_on "," v) = None ->
  pick_free_gpu B (Some v) smi fs
  = let '(o, fs', evs) := pick_free_gpu B None smi fs in
    (o, fs',
     Log WARNING "CUDA_VISIBLE_DEVICES unparsable, ignored" [v] :: evs).
Proof.
  intros Hv Hp.
  assert (Ht : PyStr.truthy (Some v) = true).
  { unfold PyStr.truthy. apply negb_true_iff. now apply String.eqb_neq. }
  unfold pick_free_gpu, bind, read_allowed. rewrite Ht, Hp.
  unfold log, emit, ret, bind, lift; cbn [app].
  destruct smi as [out|]; [|reflexivity].
  rewrite GpuFacts.scan_select.
  destruct (select _ 0 None) as [n [sc|]]; reflexivity.
Qed.

(** X5. The loop cannot raise: the divisor [max(mem_total, 1.0)] is never zero,
    whatever float [mem_total] is, so the division always goes through;
    [pick_free_gpu] returns on every input, changes no file and writes
    log records only. *)
Theorem pick_free_gpu_never_raises :
  (forall used total,
     PyFloat.truediv used (PyFloat.py_max total 1%float)
     = Ret (PrimFloat.div used (PyFloat.py_max total 1%float))) /\
  (forall allowed lines bi bs, exists r, scan B allowed lines bi bs = Ret r) /\
  (forall visible smi fs,
     exists n evs,
       pick_free_gpu B visible smi fs = (Ret n, fs, evs) /\
       Forall is_log evs).
Proof.
  split; [|split].
  - intros used total. unfold PyFloat.truediv.
    now rewrite FloatFacts.py_max_one_nonzero.
  - intros. rewrite GpuFacts.scan_select. eauto.
  - intros. apply GpuFacts.pick_free_gpu_returns.
Qed.

End WithBuiltins.


(** Device 1 of [smi_low] is chosen although it is the busiest. *)
Lemma lowest_memory_ratio_wins_witness :
  fst (fst (pick_free_gpu AsciiText.builtins None (Some Samples.smi_low) []))
  = Ret 1.
Proof.
  apply (lowest_memory_ratio_wins AsciiText.builtins None Samples.smi_low []
           _ 1%nat Samples.row_low eq_refl).
  - vm_compute. repeat constructor.
  - vm_compute. reflexivity.
  - intros j g' Hj Hn.
    destruct j as [|[|[|j]]]; vm_compute in Hn;
      try discriminate; try (exfalso; apply Hj; reflexivity);
      try (destruct j; discriminate Hn);
      inversion Hn; subst; vm_compute; reflexivity.
Defined.

(** Two device UUIDs in [CUDA_VISIBLE_DEVICES]. *)
Lemma non_numeric_visible_devices_witness :
  allowed_of AsciiText.builtins (Some "GPU-1a2b,GPU-3c4d") = Some [] /\
  exists ws,
    pick_free_gpu AsciiText.builtins (Some "GPU-1a2b,GPU-3c4d")
                  (Some Scenario.smi_out) []
    = (Ret 0, [], ws) /\
    ws <> [] /\ Forall is_warning ws.
Proof.
  apply (non_numeric_visible_devices AsciiText.builtins "GPU-1a2b,GPU-3c4d"
           (Some Scenario.smi_out) []).
  - discriminate.
  - intros x Hx. vm_compute in Hx.
    destruct Hx as [<-|[<-|[]]]; vm_compute; reflexivity.
Defined.

(** [CUDA_VISIBLE_DEVICES] holds a superscript two: device 1 of
    [Scenario.smi_out] is chosen as without the variable. *)
Lemma unparsable_visible_devices_witness :
  pick_free_gpu Samples.builtins_sup2 (Some Samples.sup2)
                (Some Scenario.smi_out) []
  = (Ret 1, [],
     [Log WARNING "CUDA_VISIBLE_DEVICES unparsable, ignored" [Samples.sup2];
      Log INFO "auto-selected GPU" ["1"]]).
Proof.
  rewrite (unparsable_visible_devices Samples.builtins_sup2 Samples.sup2
             (Some Scenario.smi_out) []).
  - vm_compute. reflexivity.
  - discriminate.
  - vm_compute. reflexivity.
Defined.

End GpuMore.

(* ===================================================================== *)
(** * How runs end *)
(* ===================================================================== *)

Module RunLogic.

Import Trace.
Import Logic.
Import Runs.

Section EndsRules.
Context (R : exn -> Prop).

Lemma ends_ret {A} (a : A) : ends R (ret a).
Proof. intros fs. exact I. Qed.

Lemma ends_sys_exit_1 {A} : ends R (@sys_exit A 1).
Proof. intros fs. reflexivity. Qed.

Lemma ends_raise {A} e : R e -> ends R (@raise A e).
Proof. intros H fs. exact H. Qed.

Lemma ends_emit e : ends R (emit e).
Proof. intros fs. exact I. Qed.

Lemma ends_log lv site a : ends R (log lv site a).
Proof. intros fs. exact I. Qed.

Lemma ends_bind {A B} (m : M A) (k : A -> M B) :
  ends R m -> (forall a, ends R (k a)) -> ends R (bind m k).
Proof.
  intros Hm Hk fs. specialize (Hm fs). unfold bind, outcome_of in *.
  destruct (m fs) as [[[a|e|c] fs1] ev1]; cbn [fst] in *; try assumption.
  specialize (Hk a fs1). unfold outcome_of in Hk.
  destruct (k a fs1) as [[o fs2] ev2]; cbn [fst] in *. exact Hk.
Qed.

Lemma ends_try {A} (R' : exn -> Prop) (m : M A) (h : exn -> M A) :
  ends R' m -> (forall e, R' e -> ends R (h e)) -> ends R (try_except m h).
Proof.
  intros Hm Hh fs. specialize (Hm fs). unfold try_except, outcome_of in *.
  destruct (m fs) as [[[a|e|c] fs1] ev1]; cbn [fst] in *; try assumption.
  specialize (Hh e Hm fs1). unfold outcome_of in Hh.
  destruct (h e fs1) as [[o fs2] ev2]; cbn [fst] in *. exact Hh.
Qed.

Lemma ends_or_exit {A} (o : option A) site a : ends R (or_exit o site a).
Proof.
  destruct o; [apply ends_ret|].
  apply ends_bind; [apply ends_log | intros; apply ends_sys_exit_1].
Qed.

Lemma ends_path_exists env p : ends R (Fs.path_exists env p).
Proof. intros fs. exact I. Qed.

Lemma ends_add ps : ends R (Fs.add ps).
Proof. intros fs. exact I. Qed.

Lemma ends_mkdir env p : R OSError -> ends R (Fs.mkdir env p).
Proof.
  intros H. apply ends_bind; [apply ends_emit|]. intros _.
  destruct (io_denied env (Mkdir p)); [now apply ends_raise | apply ends_add].
Qed.

Lemma ends_copy2 env src dst : R OSError -> ends R (Fs.copy2 env src dst).
Proof.
  intros H. apply ends_bind; [apply ends_emit|]. intros _.
  apply ends_bind; [apply ends_path_exists|]. intros b.
  destruct (_ || _); [now apply ends_raise | apply ends_add].
Qed.

End EndsRules.

Ltac ends_step :=
  match goal with
  | |- ends _ (bind _ _) => apply ends_bind; [|intros]
  | |- ends _ (ret _) => apply ends_ret
  | |- ends _ (sys_exit 1) => apply ends_sys_exit_1
  | |- ends _ (raise _) => apply ends_raise
  | |- ends _ (log _ _ _) => apply ends_log
  | |- ends _ (emit _) => apply ends_emit
  | |- ends _ (or_exit _ _ _) => apply ends_or_exit
  | |- ends _ (Fs.path_exists _ _) => apply ends_path_exists
  | |- ends _ (Fs.add _) => apply ends_add
  | |- ends _ (Fs.mkdir _ _) => apply ends_mkdir
  | |- ends _ (Fs.copy2 _ _ _) => apply ends_copy2
  | |- ends _ (if ?b then _ else _) => destruct b
  | |- ends _ (match ?x with _ => _ end) => destruct x
  | |- ends _ (let '(_, _) := ?x in _) => destruct x
  end.

Ltac ends_auto := repeat ends_step.

Lemma keeps_ret {A} (a : A) : keeps_fs (ret a).
Proof. intros fs. reflexivity. Qed.

Lemma keeps_sys_exit {A} c : keeps_fs (@sys_exit A c).
Proof. intros fs. reflexivity. Qed.

Lemma keeps_raise {A} e : keeps_fs (@raise A e).
Proof. intros fs. reflexivity. Qed.

Lemma keeps_lift {A} (o : outcome A) : keeps_fs (lift o).
Proof. intros fs. reflexivity. Qed.

Lemma keeps_emit e : keeps_fs (emit e).
Proof. intros fs. reflexivity. Qed.

Lemma keeps_log lv site a : keeps_fs (log lv site a).
Proof. intros fs. reflexivity. Qed.

Lemma keeps_path_exists env p : keeps_fs (Fs.path_exists env p).
Proof. intros fs. reflexivity. Qed.

Lemma keeps_bind {A B} (m : M A) (k : A -> M B) :
  keeps_fs m -> (forall a, keeps_fs (k a)) -> keeps_fs (bind m k).
Proof.
  intros Hm Hk fs. specialize (Hm fs). unfold bind, files_of in *.
  destruct (m fs) as [[[a|e|c] fs1] ev1]; cbn [fst snd] in *; try assumption.
  subst fs1. specialize (Hk a fs). unfold files_of in Hk.
  destruct (k a fs) as [[o fs2] ev2]; cbn [fst snd] in *. exact Hk.
Qed.

Lemma keeps_try {A} (m : M A) (h : exn -> M A) :
  keeps_fs m -> (forall e, keeps_fs (h e)) -> keeps_fs (try_except m h).
Proof.
  intros Hm Hh fs. specialize (Hm fs). unfold try_except, files_of in *.
  destruct (m fs) as [[[a|e|c] fs1] ev1]; cbn [fst snd] in *; try assumption.
  subst fs1. specialize (Hh e fs). unfold files_of in Hh.
  destruct (h e fs) as [[o fs2] ev2]; cbn [fst snd] in *. exact Hh.
Qed.

Lemma keeps_or_exit {A} (o : option A) site a : keeps_fs (or_exit o site a).
Proof.
  destruct o; [apply keeps_ret|].
  apply keeps_bind; [apply keeps_log | intros; apply keeps_sys_exit].
Qed.

Ltac keeps_step :=
  match goal with
  | |- keeps_fs (bind _ _) => apply keeps_bind; [|intros]
  | |- keeps_fs (ret _) => apply keeps_ret
  | |- keeps_fs (sys_exit _) => apply keeps_sys_exit
  | |- keeps_fs (raise _) => apply keeps_raise
  | |- keeps_fs (lift _) => apply keeps_lift
  | |- keeps_fs (log _ _ _) => apply keeps_log
  | |- keeps_fs (emit _) => apply keeps_emit
  | |- keeps_fs (or_exit _ _ _) => apply keeps_or_exit
  | |- keeps_fs (try_except _ _) => apply keeps_try; [|intros]
  | |- keeps_fs (Fs.path_exists _ _) => apply keeps_path_exists
  | |- keeps_fs (if ?b then _ else _) => destruct b
  | |- keeps_fs (match ?x with _ => _ end) => destruct x
  end.

Ltac keeps_auto := repeat keeps_step.

(** [exit_status] is a byte. *)
Lemma exit_status_byte {A} (o : outcome A) : 0 <= exit_status o < 256.
Proof.
  destruct o; simpl; try lia. apply Z.mod_pos_bound. lia.
Qed.

Lemma ends_well_status (R : exn -> Prop) {A} (o : outcome A) :
  ends_well R o -> exit_status o = 0 \/ exit_status o = 1.
Proof. destruct o; simpl; [auto | auto | intros ->; auto]. Qed.

End RunLogic.

(* ===================================================================== *)
(** * Runs from the command line *)
(* ===================================================================== *)

Module CliFacts.

Import Cli.

Ltac run_pair :=
  match goal with
  | |- context [RunCryoatom.main ?e ?a ?fs] =>
      destruct (RunCryoatom.main e a fs) as [[[?|?|?] ?] ?]
  | |- context [Auto.main ?e ?a ?fs] =>
      destruct (Auto.main e a fs) as [[[?|?|?] ?] ?]
  | |- context [External.main ?e ?a ?fs] =>
      destruct (External.main e a fs) as [[[?|?|?] ?] ?]
  end.

(** A run of [run_cryoatom.py] ends while the module is loaded, or in
    argparse, or it is the run of [main] on the parsed arguments. *)
Lemma run_cryoatom_cases env environ cl fs :
  Cli.run_cryoatom env environ cl fs = (1, fs, []) \/
  (cl = UsageError /\ Cli.run_cryoatom env environ cl fs = (2, fs, [])) \/
  (cl = HelpRequested /\ Cli.run_cryoatom env environ cl fs = (0, fs, [])) \/
  (exists args, cl = Parsed args /\
     Cli.run_cryoatom env environ cl fs = RunCryoatom.run env args fs).
Proof.
  unfold Cli.run_cryoatom, Config.start.
  destruct (Config.load_cs _ _); [now left|]. right.
  destruct cl as [args| |].
  - right. right. exists args. split; [reflexivity|].
    unfold RunCryoatom.run, RunCryoatom.script, run_cryoatom_script,
      run_cryoatom_main, parse_args, try_except.
    unfold bind at 1. unfold ret. cbv beta iota.
    run_pair; reflexivity.
  - left. split; reflexivity.
  - right. left. split; reflexivity.
Qed.

Lemma run_cryoatom_auto_cases env environ cl fs :
  Cli.run_cryoatom_auto env environ cl fs = (1, fs, []) \/
  (cl = UsageError /\ Cli.run_cryoatom_auto env environ cl fs = (2, fs, [])) \/
  (cl = HelpRequested /\
   Cli.run_cryoatom_auto env environ cl fs = (0, fs, [])) \/
  (exists args, cl = Parsed args /\
     Cli.run_cryoatom_auto env environ cl fs = Auto.run env args fs).
Proof.
  unfold Cli.run_cryoatom_auto, Config.start.
  destruct (Config.load_cs _ _); [now left|]. right.
  destruct cl as [args| |].
  - right. right. exists args. split; [reflexivity|].
    unfold Auto.run, run_cryoatom_auto_main, parse_args.
    unfold bind at 1. unfold ret. cbv beta iota.
    run_pair; reflexivity.
  - left. split; reflexivity.
  - right. left. split; reflexivity.
Qed.

Lemma cryoatom_external_job_cases env environ cl fs :
  Cli.cryoatom_external_job env environ cl fs = (1, fs, []) \/
  (cl = UsageError /\
   Cli.cryoatom_external_job env environ cl fs = (2, fs, [])) \/
  (cl = HelpRequested /\
   Cli.cryoatom_external_job env environ cl fs = (0, fs, [])) \/
  (exists args, cl = Parsed args /\
     Cli.cryoatom_external_job env environ cl fs = External.run env args fs).
Proof.
  unfold Cli.cryoatom_external_job, Config.start.
  destruct (Config.load_cs _ _); [now left|]. right.
  destruct cl as [args| |].
  - right. right. exists args. split; [reflexivity|].
    unfold External.run, cryoatom_external_job_main, parse_args.
    unfold bind at 1. unfold ret. cbv beta iota.
    run_pair; reflexivity.
  - left. split; reflexivity.
  - right. left. split; reflexivity.
Qed.

End CliFacts.

(* ===================================================================== *)
(** * Exit statuses *)
(* ===================================================================== *)

Module Exits.

Import Trace.
Import Logic.
Import Runs.
Import RunLogic.
Import Cli.

Lemma choose_map_field_ends row explicit :
  ends any_exn (lift (RunCryoatom.choose_map_field row explicit)).
Proof.
  intros fs. unfold lift, outcome_of, RunCryoatom.choose_map_field. cbn [fst].
  repeat match goal with
         | |- context [match ?x with _ => _ end] => destruct x
         end; exact I.
Qed.

Lemma row_get_ends row k :
  ends not_called_process_error (lift (RunCryoatom.row_get row k)).
Proof.
  intros fs. unfold lift, outcome_of. cbn [fst].
  induction row as [|[k' v] r IH]; simpl; [exact I|].
  destruct (String.eqb k k'); [exact I | exact IH].
Qed.

(** Steps 1 to 7 never raise [CalledProcessError] and never leave with a
    code other than 1. *)
Lemma prepare_ends env args :
  ends not_called_process_error (RunCryoatom.prepare env args).
Proof.
  unfold RunCryoatom.prepare, RunCryoatom.load_row, RunCryoatom.locate_map,
    RunCryoatom.stage_inputs.
  repeat first
    [ apply row_get_ends
    | (eapply ends_try; [apply choose_map_field_ends | intros])
    | ends_step
    | exact I ].
Qed.

(** A run of [run_cryoatom.py] that never starts the tool exits with 1. *)
Lemma no_tool_exit_1 env args fs :
  let '(status, fs', evs) := RunCryoatom.run env args fs in
  Forall no_tool evs -> status = 1.
Proof.
  unfold RunCryoatom.run, RunCryoatom.script, RunCryoatom.main.
  pose proof (prepare_ends env args fs) as He.
  unfold try_except, bind, outcome_of in *.
  destruct (RunCryoatom.prepare env args fs) as [[[s|e|c] fs1] ev1];
    cbn [fst] in He.
  - unfold RunCryoatom.build_and_report, RunCryoatom.run_tool.
    set (cmd := RunCryoatom.tool_cmd args _ _ _).
    run_m.
    assert (Hno : forall post,
               ~ Forall no_tool
                   (ev1 ++ Log INFO "running CryoAtom" [PyStr.join " " cmd]
                        :: Spawn cmd (Some (RunCryoatom.work_dir s)) :: post)).
    { intros post H. apply Forall_app in H. destruct H as [_ H].
      inversion H as [|? ? _ H2]; subst. inversion H2 as [|? ? H3 _]; subst.
      simpl in H3. discriminate. }
    destruct (io_denied env _);
      [|destruct (tool_returncode env =? 0)]; run_m;
      intros H; exfalso; repeat rewrite <- app_assoc in H; cbn [app] in H;
      eapply Hno; exact H.
  - destruct e; try contradiction; run_m; reflexivity.
  - run_m. intros _. now rewrite He.
Qed.


(** A run of [run_cryoatom.py] that exits with 0 ran the tool, which
    returned 0. *)
Lemma run_zero env args fs :
  let '(status, fs', evs) := RunCryoatom.run env args fs in
  status = 0 -> tool_started env evs /\ tool_returncode env mod 256 = 0.
Proof.
  pose proof (ToolFailure.run_cases env args fs) as Hc.
  pose proof (no_tool_exit_1 env args fs) as Hn.
  destruct (RunCryoatom.run env args fs) as [[status fs'] evs].
  intros H0. destruct Hc as [Hc|(pre & cmd & wd & post & -> & _ & _ & Ht & Hs)].
  - specialize (Hn Hc). lia.
  - destruct (io_denied env (Spawn cmd wd)) eqn:D; [lia|].
    split; [|lia].
    exists cmd, wd. split; [|now split].
    apply in_or_app. right. now left.
Qed.

Lemma run_status_byte env args fs :
  let '(status, _, _) := RunCryoatom.run env args fs in 0 <= status < 256.
Proof.
  unfold RunCryoatom.run.
  destruct (RunCryoatom.script env args fs) as [[o fs'] evs].
  apply RunLogic.exit_status_byte.
Qed.

(** [publish] either fails, and the process would end with 1, or leaves the
    published file behind. *)
Lemma publish_outcome env prj jb g out_cif fs :
  let '(o, fs', evs) := Auto.publish env prj jb g out_cif fs in
  exit_status o = 1 \/
  (o = Ret tt /\ Fs.mem env (Auto.dest_file_of prj jb) fs' = true /\
   In (Copy out_cif (Auto.dest_file_of prj jb)) evs).
Proof.
  unfold Auto.publish, Auto.job_log. run_m.
  destruct (io_denied env (Mkdir _)); run_m; [now left|].
  destruct (io_denied env (Copy _ _) || negb _); run_m; [now left|].
  destruct (job_log_raises env); run_m; right;
    (split; [reflexivity|]); (split; [apply Publish.mem_here|]);
    right; left; reflexivity.
Qed.

Lemma collect_outcome env args g fs :
  let '(o, fs', evs) := Auto.collect env args g fs in
  exit_status o = 1 \/
  (o = Ret tt /\
   exists prj jb,
     find_project env (Auto.project args) = Some prj /\
     find_job env (Auto.project args) (Auto.job args) = Some jb /\
     Fs.mem env (Auto.out_cif_of args prj jb) fs = true /\
     Fs.mem env (Auto.dest_file_of prj jb) fs' = true /\
     In (Copy (Auto.out_cif_of args prj jb) (Auto.dest_file_of prj jb)) evs).
Proof.
  unfold Auto.collect. run_m.
  destruct (cs_connect env); run_m; [|now left].
  destruct (find_project env _) as [prj|]; run_m; [|now left].
  destruct (find_job env _ _) as [jb|]; run_m; [|now left].
  destruct (Fs.mem env (Auto.out_cif_of args prj jb) fs) eqn:Hm; run_m;
    [|now left].
  pose proof (publish_outcome env prj jb g (Auto.out_cif_of args prj jb) fs)
    as Hp.
  destruct (Auto.publish env prj jb g _ fs) as [[o fs'] evs].
  destruct Hp as [Hp|(-> & Hd & Hc)].
  - left. destruct o; exact Hp.
  - right. split; [reflexivity|]. exists prj, jb.
    repeat (split; [first [reflexivity | assumption]|]).
    now right.
Qed.

(** What a run of [run_cryoatom_auto.py] that exits with 0 has done. *)
Lemma auto_zero env args fs :
  let '(status, fs', evs) := Auto.run env args fs in
  status = 0 ->
  exists prj jb,
    find_project env (Auto.project args) = Some prj /\
    find_job env (Auto.project args) (Auto.job args) = Some jb /\
    Fs.mem env (Auto.dest_file_of prj jb) fs' = true /\
    In (Copy (Auto.out_cif_of args prj jb) (Auto.dest_file_of prj jb)) evs /\
    tool_started env evs /\ tool_returncode env mod 256 = 0.
Proof.
  unfold Auto.run, Auto.main.
  destruct (ToolFailure.choose_gpu_returns env args fs) as (g & evg & Hg & _).
  unfold bind at 1. rewrite Hg.
  unfold Auto.call_run_cryoatom, Auto.run_child. run_m.
  destruct (Fs.mem env _ fs); run_m; [|discriminate].
  destruct (io_denied env (Spawn _ None)); run_m; [discriminate|].
  pose proof (run_zero env (Auto.child_args args g) fs) as Hz.
  pose proof (run_status_byte env (Auto.child_args args g) fs) as Hb.
  destruct (RunCryoatom.run env (Auto.child_args args g) fs)
    as [[s fs1] ev1].
  destruct (s =? 0) eqn:Hs; run_m.
  - apply Z.eqb_eq in Hs. specialize (Hz Hs). destruct Hz as [Hst Hrc].
    pose proof (collect_outcome env args g fs1) as Hc.
    destruct (Auto.collect env args g fs1) as [[o fs2] ev2].
    intros H0. destruct Hc as [Hc|(-> & prj & jb & Hp & Hj & _ & Hd & Hcp)].
    + assert (exit_status o = 0) by (destruct o; exact H0). lia.
    + exists prj, jb. repeat (split; [assumption|]).
      split; [|split; [|exact Hrc]].
      * apply in_or_app. right. do 2 right. apply in_or_app. now right.
      * destruct Hst as (cmd & wd & Hin & Ht). exists cmd, wd.
        split; [|exact Ht].
        apply in_or_app. right. do 2 right. apply in_or_app. now left.
  - apply Z.eqb_neq in Hs. intros H0.
    unfold exit_status in H0. rewrite Z.mod_small in H0 by lia.
    contradiction.
Qed.


(** The wrapped run of [run_cryoatom_auto.py], as a computation, always
    returns its status. *)
Lemma external_child_ends env ej cmd cargs :
  ends any_exn (External.run_child env ej cmd cargs).
Proof.
  unfold External.run_child, External.ej_log.
  apply ends_bind; [apply ends_emit|]. intros _.
  destruct (io_denied env _); [now apply ends_raise|].
  apply ends_bind.
  - intros fs. unfold outcome_of.
    destruct (Auto.run env cargs fs) as [[s fs'] evs]. exact I.
  - intros status. destruct (status =? 0); [apply ends_ret|].
    apply ends_bind; [apply ends_emit|]. intros _. now apply ends_raise.
Qed.

Lemma mount_model_ends R env args prj sjob ej :
  ends R (External.mount_model env args prj sjob ej).
Proof.
  unfold External.mount_model, External.resolve_artifact, External.ej_log.
  ends_auto.
Qed.

Lemma external_main_ends env args : ends no_exn (External.main env args).
Proof.
  unfold External.main, External.ej_log.
  repeat first
    [ (eapply ends_try with (R' := any_exn); [|intros])
    | apply external_child_ends
    | apply mount_model_ends
    | ends_step ].
Qed.

(** X6. The exit status of [run_cryoatom.py] is 0, 1, 2 or the return code
    of the tool (modulo 256).  It is 0 only after [--help] or when the tool
    ran and returned 0; a run that never starts the tool ends with 1, or
    with 2 after a usage error, or with 0 after [--help]. *)
Theorem run_cryoatom_exit_status env environ cl fs :
  let '(status, fs', evs) := Cli.run_cryoatom env environ cl fs in
  (status = 0 \/ status = 1 \/ status = 2 \/
   status = tool_returncode env mod 256) /\
  (status = 0 ->
   cl = HelpRequested \/
   (tool_started env evs /\ tool_returncode env mod 256 = 0)) /\
  (Forall no_tool evs ->
   status = 1 \/ (status = 2 /\ cl = UsageError) \/
   (status = 0 /\ cl = HelpRequested)).
Proof.
  destruct (CliFacts.run_cryoatom_cases env environ cl fs)
    as [E|[[-> E]|[[-> E]|(args & -> & E)]]]; rewrite E; clear E.
  - repeat split; auto. discriminate.
  - repeat split; auto. discriminate.
  - repeat split; auto.
  - pose proof (ToolFailure.run_cases env args fs) as Hc.
    pose proof (no_tool_exit_1 env args fs) as Hn.
    pose proof (run_zero env args fs) as Hz.
    destruct (RunCryoatom.run env args fs) as [[status fs'] evs].
    split; [|split; [intros H; right; now apply Hz | intros H; left; now apply Hn]].
    destruct Hc as [Hc|(pre & cmd & wd & post & _ & _ & _ & _ & Hs)].
    + right. left. now apply Hn.
    + destruct (io_denied env (Spawn cmd wd)); auto.
Qed.

(** The sample session, and a command line without [--fasta]. *)
Lemma run_cryoatom_exit_status_witness :
  let env := Scenario.env0 0 [Scenario.out_cif0] false in
  (let '(status, fs', evs) :=
     Cli.run_cryoatom env Samples.environ0 (Cli.Parsed Scenario.rargs0)
                      Scenario.fs0 in
   status = 0 /\ tool_started env evs) /\
  (let '(status, fs', evs) :=
     Cli.run_cryoatom env Samples.environ0 Cli.UsageError Scenario.fs0 in
   status = 2).
Proof.
  intros env. split.
  - pose proof (run_cryoatom_exit_status env Samples.environ0
                  (Cli.Parsed Scenario.rargs0) Scenario.fs0) as H.
    destruct (Cli.run_cryoatom env Samples.environ0
                (Cli.Parsed Scenario.rargs0) Scenario.fs0)
      as [[status fs'] evs] eqn:E.
    assert (H0 : status = 0) by (vm_compute in E; congruence).
    split; [exact H0|].
    destruct H as (_ & H & _). destruct (H H0) as [Hh|[Hs _]];
      [discriminate Hh | exact Hs].
  - pose proof (run_cryoatom_exit_status env Samples.environ0
                  Cli.UsageError Scenario.fs0) as H.
    destruct (Cli.run_cryoatom env Samples.environ0 Cli.UsageError
                Scenario.fs0) as [[status fs'] evs] eqn:E.
    destruct H as (_ & _ & H).
    assert (Hn : Forall no_tool evs)
      by (vm_compute in E; inversion E; constructor).
    destruct (H Hn) as [H1|[[H2 _]|[_ H3]]];
      [vm_compute in E; congruence | exact H2 | discriminate H3].
Defined.

(** X7. When [run_cryoatom_auto.py] exits with 0 and was not asked for its
    help, the tool ran and returned 0, [out.cif] was copied to the job
    directory, and the published file exists. *)
Theorem auto_success_publishes env environ cl fs :
  let '(status, fs', evs) := Cli.run_cryoatom_auto env environ cl fs in
  status = 0 ->
  cl = HelpRequested \/
  exists args prj jb,
    cl = Parsed args /\
    find_project env (Auto.project args) = Some prj /\
    find_job env (Auto.project args) (Auto.job args) = Some jb /\
    Fs.mem env (Auto.dest_file_of prj jb) fs' = true /\
    In (Copy (Auto.out_cif_of args prj jb) (Auto.dest_file_of prj jb)) evs /\
    tool_started env evs /\ tool_returncode env mod 256 = 0.
Proof.
  destruct (CliFacts.run_cryoatom_auto_cases env environ cl fs)
    as [E|[[-> E]|[[-> E]|(args & -> & E)]]]; rewrite E; clear E.
  - discriminate.
  - discriminate.
  - now left.
  - pose proof (auto_zero env args fs) as Hz.
    destruct (Auto.run env args fs) as [[status fs'] evs].
    intros H0. right. destruct (Hz H0) as (prj & jb & H).
    exists args, prj, jb. split; [reflexivity | exact H].
Qed.

Lemma auto_success_publishes_witness :
  let env := Scenario.env0 0 [Scenario.out_cif0] false in
  let '(status, fs', evs) :=
    Cli.run_cryoatom_auto env Samples.environ0 (Cli.Parsed Scenario.aargs0)
                          Scenario.fs0 in
  status = 0 /\
  Fs.mem env Scenario.dest0 fs' = true /\
  In (Copy Scenario.out_cif0 Scenario.dest0) evs.
Proof.
  intros env.
  pose proof (auto_success_publishes env Samples.environ0
                (Cli.Parsed Scenario.aargs0) Scenario.fs0) as H.
  destruct (Cli.run_cryoatom_auto env Samples.environ0
              (Cli.Parsed Scenario.aargs0) Scenario.fs0)
    as [[status fs'] evs] eqn:E.
  assert (H0 : status = 0) by (vm_compute in E; congruence).
  split; [exact H0|].
  destruct (H H0) as [Hh|(args & prj & jb & Ha & Hp & Hj & Hd & Hc & _)];
    [discriminate Hh|].
  injection Ha as <-.
  vm_compute in Hp. vm_compute in Hj.
  injection Hp as <-. injection Hj as <-.
  split; [exact Hd | exact Hc].
Defined.

(** X8. Whatever non-zero status [run_cryoatom.py] ends with,
    [run_cryoatom_auto.py] ends with the same status: it adds one error
    record, looks for no output and publishes nothing. *)
Theorem auto_passes_child_status env args fs g evg :
  Auto.choose_gpu env args fs = (Ret g, fs, evg) ->
  Fs.mem env (script_dir env // "run_cryoatom.py") fs = true ->
  io_denied env (Spawn (Auto.child_cmd env args g) None) = false ->
  let '(s, fs_c, ev_c) := RunCryoatom.run env (Auto.child_args args g) fs in
  s <> 0 ->
  Auto.run env args fs =
  (s, fs_c,
   evg ++ [Log INFO "calling run_cryoatom.py"
               [PyStr.join " " (Auto.child_cmd env args g)];
           Spawn (Auto.child_cmd env args g) None]
       ++ ev_c ++ [Log ERROR "run_cryoatom.py failed" [str_of_int s]])%list.
Proof.
  intros Hg Hm Hd.
  pose proof (run_status_byte env (Auto.child_args args g) fs) as Hb.
  unfold Auto.run, Auto.main. unfold bind at 1. rewrite Hg.
  unfold Auto.call_run_cryoatom, Auto.run_child. run_m.
  rewrite Hm, Hd. run_m.
  destruct (RunCryoatom.run env (Auto.child_args args g) fs)
    as [[s fs1] ev1].
  intros Hs. apply Z.eqb_neq in Hs. rewrite Hs. run_m.
  unfold exit_status. rewrite Z.mod_small by lia.
  repeat rewrite <- app_assoc. reflexivity.
Qed.

Lemma auto_passes_child_status_witness :
  fst (fst (Auto.run (Scenario.env0 137 [] false) Scenario.aargs0
              Scenario.fs0)) = 137 /\
  fst (fst (Auto.run (Scenario.env0 0 [] false)
              (Auto.mkArgs "P1" "J1" "missing.fasta" "volume" None 0 None
                 false None)
              Scenario.fs0)) = 1.
Proof.
  split.
  - pose proof (auto_passes_child_status (Scenario.env0 137 [] false)
                  Scenario.aargs0 Scenario.fs0 0 _ eq_refl eq_refl eq_refl)
      as H.
    destruct (RunCryoatom.run _ (Auto.child_args Scenario.aargs0 0) _)
      as [[s fs1] ev1] eqn:E.
    assert (Hs : s = 137) by (vm_compute in E; congruence).
    rewrite H by lia. exact Hs.
  - set (a := Auto.mkArgs _ _ _ _ _ _ _ _ _).
    pose proof (auto_passes_child_status (Scenario.env0 0 [] false)
                  a Scenario.fs0 0 _ eq_refl eq_refl eq_refl)
      as H.
    destruct (RunCryoatom.run _ (Auto.child_args a 0) _)
      as [[s fs1] ev1] eqn:E.
    assert (Hs : s = 1) by (vm_compute in E; congruence).
    rewrite H by lia. exact Hs.
Defined.

(** On parsed arguments [main] of [cryoatom_external_job.py] ends with 0
    or 1. *)
Lemma external_status_parsed env args fs :
  let '(status, _, _) := External.run env args fs in
  status = 0 \/ status = 1.
Proof.
  unfold External.run.
  pose proof (external_main_ends env args fs) as H. unfold outcome_of in H.
  destruct (External.main env args fs) as [[o fs'] evs]. cbn [fst] in H.
  eapply ends_well_status. exact H.
Qed.

(** X9. [cryoatom_external_job.py] exits with 0 or 1, or with 2 after a
    usage error and only then: the status of the wrapped run, and with it
    the return code of the tool, is not passed on. *)
Theorem external_exit_status env environ cl fs :
  let '(status, _, _) := Cli.cryoatom_external_job env environ cl fs in
  status = 0 \/ status = 1 \/ (status = 2 /\ cl = UsageError).
Proof.
  destruct (CliFacts.cryoatom_external_job_cases env environ cl fs)
    as [E|[[-> E]|[[-> E]|(args & -> & E)]]]; rewrite E; clear E; auto.
  pose proof (external_status_parsed env args fs) as H.
  destruct (External.run env args fs) as [[status fs'] evs].
  destruct H; auto.
Qed.

(** What a run of [main] of [cryoatom_external_job.py] that ends with 0
    has done. *)
Lemma external_zero env args fs :
  let '(status, fs', evs) := External.run env args fs in
  status = 0 ->
  exists prj sjob ej pre,
    find_project env (External.project args) = Some prj /\
    find_job env (External.project args) (External.src_job args)
    = Some sjob /\
    create_external_job env = Some ej /\
    Fs.mem env (External.dest_file_of prj sjob) fs' = true /\
    evs =
    (pre ++
     [JobLog ej "[INFO] CryoAtom sub-process succeeded" [];
      JobLog ej "[INFO] using the model copied to the job directory"
             [Pathlib.to_string (External.dest_file_of prj sjob)];
      JobLog ej "[INFO] model output mounted"
             [Pathlib.to_string (External.dest_file_of prj sjob)];
      JobLog ej "[INFO] External Job complete" [];
      Log INFO "done, see the External Job in the GUI" [ej]])%list.
Proof.
  unfold External.run, External.main. run_m.
  destruct (cs_connect env); run_m; [|discriminate].
  destruct (find_project env _) as [prj|] eqn:Hp; run_m; [|discriminate].
  destruct (find_job env _ _) as [sjob|] eqn:Hj; run_m; [|discriminate].
  destruct (create_external_job env) as [ej|] eqn:Hej; run_m; [|discriminate].
  destruct (Fs.mem env _ fs); run_m; [|discriminate].
  unfold External.run_child, External.ej_log. run_m.
  destruct (io_denied env _); run_m; [discriminate|].
  pose proof (auto_zero env (External.child_args args) fs) as Hz.
  destruct (Auto.run env (External.child_args args) fs) as [[s fs1] ev1].
  destruct (s =? 0) eqn:Hs; run_m; [|discriminate].
  apply Z.eqb_eq in Hs.
  destruct (Hz Hs) as (prj' & jb' & Hp' & Hj' & Hd & _).
  cbn [Auto.project Auto.job External.child_args] in Hp', Hj'.
  rewrite Hp in Hp'. rewrite Hj in Hj'.
  injection Hp' as <-. injection Hj' as <-.
  unfold External.mount_model, External.resolve_artifact, External.ej_log.
  run_m.
  change (External.dest_file_of prj sjob) with (Auto.dest_file_of prj sjob).
  rewrite Hd. run_m. intros _.
  exists prj, sjob, ej,
    ([Log INFO "connecting to CryoSPARC" [];
      Log INFO "found project" [p_uid prj];
      Log INFO "source job" [j_uid sjob; j_type sjob];
      Log INFO "workspace" [External.workspace args];
      Log INFO "External Job created" [ej];
      Log INFO "command run inside the External Job"
          [PyStr.join " " (External.child_cmd env args)];
      JobLog ej "[INFO] ExternalJob starts CryoAtom" [External.src_job args];
      JobLog ej "[INFO] command"
             [PyStr.join " " (External.child_cmd env args)];
      Spawn (External.child_cmd env args) None] ++ ev1)%list.
  repeat (split; [first [reflexivity | assumption]|]).
  rewrite app_nil_r. repeat rewrite <- app_assoc. reflexivity.
Qed.

(** X10. When [cryoatom_external_job.py] exits with 0 and was not asked for
    its help, the model it mounts is the copy in the job directory, which
    exists: the External Job's log ends with the entries of that branch, so
    the fall-back to [out.cif] of the working directory and the end without
    a model are not taken after a successful wrapped run. *)
Theorem external_success_mounts_copy env environ cl fs :
  let '(status, fs', evs) := Cli.cryoatom_external_job env environ cl fs in
  status = 0 ->
  cl = HelpRequested \/
  exists args prj sjob ej pre,
    cl = Parsed args /\
    find_project env (External.project args) = Some prj /\
    find_job env (External.project args) (External.src_job args)
    = Some sjob /\
    create_external_job env = Some ej /\
    Fs.mem env (External.dest_file_of prj sjob) fs' = true /\
    evs =
    (pre ++
     [JobLog ej "[INFO] CryoAtom sub-process succeeded" [];
      JobLog ej "[INFO] using the model copied to the job directory"
             [Pathlib.to_string (External.dest_file_of prj sjob)];
      JobLog ej "[INFO] model output mounted"
             [Pathlib.to_string (External.dest_file_of prj sjob)];
      JobLog ej "[INFO] External Job complete" [];
      Log INFO "done, see the External Job in the GUI" [ej]])%list.
Proof.
  destruct (CliFacts.cryoatom_external_job_cases env environ cl fs)
    as [E|[[-> E]|[[-> E]|(args & -> & E)]]]; rewrite E; clear E.
  - discriminate.
  - discriminate.
  - now left.
  - pose proof (external_zero env args fs) as Hz.
    destruct (External.run env args fs) as [[status fs'] evs].
    intros H0. right.
    destruct (Hz H0) as (prj & sjob & ej & pre & H).
    exists args, prj, sjob, ej, pre. split; [reflexivity | exact H].
Qed.

Lemma external_success_mounts_copy_witness :
  let env := Scenario.env0 0 [Scenario.out_cif0] false in
  let '(status, fs', evs) :=
    Cli.cryoatom_external_job env Samples.environ0
                              (Cli.Parsed Scenario.xargs0) Scenario.fs0 in
  status = 0 /\
  Fs.mem env Scenario.dest0 fs' = true /\
  In (JobLog "J9" "[INFO] model output mounted"
             [Pathlib.to_string Scenario.dest0]) evs.
Proof.
  intros env.
  pose proof (external_success_mounts_copy env Samples.environ0
                (Cli.Parsed Scenario.xargs0) Scenario.fs0) as H.
  destruct (Cli.cryoatom_external_job env Samples.environ0
              (Cli.Parsed Scenario.xargs0) Scenario.fs0)
    as [[status fs'] evs] eqn:E.
  assert (H0 : status = 0) by (vm_compute in E; congruence).
  split; [exact H0|].
  destruct (H H0)
    as [Hh|(args & prj & sjob & ej & pre & Ha & Hp & Hj & Hej & Hd & ->)];
    [discriminate Hh|].
  injection Ha as <-.
  vm_compute in Hp. vm_compute in Hj. vm_compute in Hej.
  injection Hp as <-. injection Hj as <-. injection Hej as <-.
  split; [exact Hd|].
  apply in_or_app. right. do 2 right. now left.
Defined.

End Exits.

(* ===================================================================== *)
(** * What a run writes, and when *)
(* ===================================================================== *)

Module Confinement.

Import Trace.
Import Logic.
Import Runs.
Import RunLogic.
Import Layout.
Import Cli.



(** Steps 1 to 5 write log records and read a row, nothing else, and leave
    the file system alone. *)
Lemma load_row_quiet env args : emits quiet (RunCryoatom.load_row env args).
Proof. unfold RunCryoatom.load_row. emits_auto; exact I. Qed.

Lemma locate_map_quiet env args prj row :
  emits quiet (RunCryoatom.locate_map env args prj row).
Proof. unfold RunCryoatom.locate_map. emits_auto; exact I. Qed.

Lemma load_row_keeps env args : keeps_fs (RunCryoatom.load_row env args).
Proof. unfold RunCryoatom.load_row. keeps_auto. Qed.

Lemma locate_map_keeps env args prj row :
  keeps_fs (RunCryoatom.locate_map env args prj row).
Proof. unfold RunCryoatom.locate_map. keeps_auto. Qed.




Lemma in_mid {A} (x : A) l1 l2 l3 : In x (l1 ++ l2 ++ x :: l3).
Proof. apply in_or_app. right. apply in_or_app. right. now left. Qed.

(** The first thing [stage_inputs] does is to make the working directory. *)
Lemma stage_inputs_starts env args prj jb map_path fs :
  exists o fs' rest,
    RunCryoatom.stage_inputs env args prj jb map_path fs
    = (o, fs', Mkdir (RunCryoatom.work_dir_of args prj jb) :: rest).
Proof.
  unfold RunCryoatom.stage_inputs.
  match goal with
  | |- context [bind (Fs.mkdir ?e ?p) ?k] => generalize k
  end.
  intros k. run_m.
  destruct (io_denied env _); run_m; [eauto|].
  destruct (k tt _) as [[o fs'] evs]. eauto.
Qed.

Section AddsRules.
Context (Q : Path -> Prop).








End AddsRules.












(** On parsed arguments: a run that never tries to make a directory has
    failed in one of the checks of steps 1 to 5. *)
Lemma checks_first_parsed env args fs :
  let '(status, fs', evs) := RunCryoatom.run env args fs in
  (forall p, ~ In (Mkdir p) evs) ->
  status = 1 /\ fs' = fs /\ Forall quiet evs.
Proof.
  unfold RunCryoatom.run, RunCryoatom.script, RunCryoatom.main,
    RunCryoatom.prepare.
  pose proof (load_row_quiet env args fs) as Hq1.
  pose proof (load_row_keeps env args fs) as Hk1.
  assert (He1 : ends not_called_process_error (RunCryoatom.load_row env args)).
  { unfold RunCryoatom.load_row. ends_auto; exact I. }
  specialize (He1 fs).
  unfold try_except, bind, events_of, files_of, outcome_of in *.
  destruct (RunCryoatom.load_row env args fs) as [[[[[prj jb] row]|e|c] fs1] ev1];
    cbn [fst snd] in *; subst fs1.
  - pose proof (locate_map_quiet env args prj row fs) as Hq2.
    pose proof (locate_map_keeps env args prj row fs) as Hk2.
    assert (He2 : ends not_called_process_error
                    (RunCryoatom.locate_map env args prj row)).
    { unfold RunCryoatom.locate_map.
      repeat first
        [ apply Exits.row_get_ends
        | (eapply ends_try; [apply Exits.choose_map_field_ends | intros])
        | ends_step
        | exact I ]. }
    specialize (He2 fs).
    unfold events_of, files_of, outcome_of in *.
    destruct (RunCryoatom.locate_map env args prj row fs)
      as [[[mp|e|c] fs2] ev2]; cbn [fst snd] in *; subst fs2.
    + destruct (stage_inputs_starts env args prj jb mp fs)
        as (o & fs3 & rest & ->).
      destruct o as [s|e|c];
        [destruct (RunCryoatom.build_and_report env args s fs3)
           as [[[u|e|c] fs4] ev4]; [| destruct e |]
        | destruct e |];
        run_m; intros H; exfalso;
        apply (H (RunCryoatom.work_dir_of args prj jb));
        repeat rewrite <- app_assoc; cbn [app]; apply in_mid.
    + destruct e; try contradiction; run_m; intros _;
        (split; [reflexivity|]); (split; [reflexivity|]);
        repeat (apply Forall_app; split); try assumption;
        repeat constructor.
    + unfold ends_well in *. subst c. run_m. intros _.
      split; [reflexivity|]. split; [reflexivity|].
      apply Forall_app. now split.
  - destruct e; try contradiction; run_m; intros _;
      (split; [reflexivity|]); (split; [reflexivity|]);
      apply Forall_app; (split; [assumption | repeat constructor]).
  - unfold ends_well in *. subst c. run_m. intros _. repeat split; assumption.
Qed.

(** X12. A run of [run_cryoatom.py] that never tries to make a directory
    has left the file system as it was and has written log records and read
    at most a row; it ended with 1, or with 2 after a usage error, or with
    0 after [--help].  So everything the script checks about the command
    line, the project, the job, the dataset, the row and the map is checked
    before it writes anything. *)
Theorem checks_precede_writes env environ cl fs :
  let '(status, fs', evs) := Cli.run_cryoatom env environ cl fs in
  (forall p, ~ In (Mkdir p) evs) ->
  fs' = fs /\ Forall quiet evs /\
  (status = 1 \/ (status = 2 /\ cl = UsageError) \/
   (status = 0 /\ cl = HelpRequested)).
Proof.
  destruct (CliFacts.run_cryoatom_cases env environ cl fs)
    as [E|[[-> E]|[[-> E]|(args & -> & E)]]]; rewrite E; clear E.
  - intros _. repeat split; auto.
  - intros _. repeat split; auto.
  - intros _. repeat split; auto.
  - pose proof (checks_first_parsed env args fs) as H.
    destruct (RunCryoatom.run env args fs) as [[status fs'] evs].
    intros Hm. destruct (H Hm) as (Hs & Hf & Hq). auto.
Qed.

(** An explicit map field that is no key of the row. *)
Lemma checks_precede_writes_witness :
  let args := RunCryoatom.mkArgs "P1" "J1" "volume" (Some "map/path") 0
                                 "seq.fasta" (Some 0) None false in
  let '(status, fs', evs) :=
    Cli.run_cryoatom (Scenario.env0 0 [] false) Samples.environ0
                     (Cli.Parsed args) Scenario.fs0 in
  status = 1 /\ fs' = Scenario.fs0 /\ Forall quiet evs.
Proof.
  intros args.
  pose proof (checks_precede_writes (Scenario.env0 0 [] false)
                Samples.environ0 (Cli.Parsed args) Scenario.fs0) as H.
  destruct (Cli.run_cryoatom (Scenario.env0 0 [] false) Samples.environ0
              (Cli.Parsed args) Scenario.fs0)
    as [[status fs'] evs] eqn:E.
  assert (Hm : forall p, ~ In (Mkdir p) evs).
  { intros p Hin. vm_compute in E. inversion E; subst; clear E.
    repeat (destruct Hin as [Hin|Hin]; [discriminate|]). exact Hin. }
  destruct (H Hm) as (Hf & Hq & Hs).
  split; [|split; assumption].
  destruct Hs as [Hs|[[_ Hs]|[_ Hs]]]; [exact Hs | discriminate Hs ..].
Defined.

End Confinement.

(* ===================================================================== *)
(** * Loading the connection settings *)
(* ===================================================================== *)

Module ConfigFacts.

Import Config.

Lemma get_env_inr environ name v :
  get_env environ name = inr v <-> environ name = Some v /\ v <> "".
Proof.
  unfold get_env. destruct (environ name) as [w|].
  - destruct (String.eqb w "") eqn:E.
    + apply String.eqb_eq in E. subst w. split; [discriminate|].
      intros [H Hn]. inversion H. congruence.
    + apply String.eqb_neq in E. split.
      * intros H. inversion H. subst. now split.
      * intros [H _]. now inversion H.
  - split; [discriminate | intros [H _]; discriminate].
Qed.

(** X13. The connection settings load exactly when [CS_BASE_PORT], or its
    default, is an integer and the three required variables are set and not
    empty; [CS_HOST] is taken as it is, even empty.  When they do not load,
    the process ends with status 1 before [main] starts: nothing is logged
    and nothing is written. *)
Theorem config_loads_iff B environ :
  (forall cs,
     load_cs B environ = inr cs <->
     host cs = getenv_default environ "CS_HOST" "10.210.21.48" /\
     py_int B (getenv_default environ "CS_BASE_PORT" "39000")
     = Some (base_port cs) /\
     (environ "CS_EMAIL" = Some (email cs) /\ email cs <> "") /\
     (environ "CS_PASSWORD" = Some (password cs) /\ password cs <> "") /\
     (environ "CS_LICENSE_ID" = Some (license cs) /\ license cs <> "")) /\
  (forall name,
     In name required ->
     environ name = None \/ environ name = Some "" ->
     (exists e, load_cs B environ = inl e) /\
     forall A (script : M A) fs, start B environ script fs = (1, fs, [])).
Proof.
  split.
  - intros cs. unfold load_cs.
    rewrite <- !get_env_inr.
    destruct (py_int B _) as [port|].
    2:{ split; [discriminate | intros (_ & H & _); discriminate]. }
    destruct (get_env environ "CS_EMAIL") as [e|em].
    { split; [discriminate | intros (_ & _ & H & _); discriminate]. }
    destruct (get_env environ "CS_PASSWORD") as [e|pw].
    { split; [discriminate | intros (_ & _ & _ & H & _); discriminate]. }
    destruct (get_env environ "CS_LICENSE_ID") as [e|li].
    { split; [discriminate | intros (_ & _ & _ & _ & H); discriminate]. }
    split.
    + intros H. inversion H. subst cs. cbn. repeat split; reflexivity.
    + intros (Hh & Hp & He & Hw & Hl). destruct cs as [h p e w l].
      cbn in *. congruence.
  - intros name Hin Hmiss.
    assert (Hg : exists e, get_env environ name = inl e).
    { unfold get_env. destruct Hmiss as [-> | ->]; eexists; reflexivity. }
    assert (Hl : exists e, load_cs B environ = inl e).
    { unfold load_cs. destruct (py_int B _); [|eexists; reflexivity].
      destruct Hg as [e Hg].
      destruct Hin as [<-|[<-|[<-|[]]]].
      - rewrite Hg. eexists; reflexivity.
      - destruct (get_env environ "CS_EMAIL"); [eexists; reflexivity|].
        rewrite Hg. eexists; reflexivity.
      - destruct (get_env environ "CS_EMAIL"); [eexists; reflexivity|].
        destruct (get_env environ "CS_PASSWORD"); [eexists; reflexivity|].
        rewrite Hg. eexists; reflexivity. }
    split; [exact Hl|]. intros A script fs. unfold start.
    destruct Hl as [e ->]. reflexivity.
Qed.

Lemma config_loads_iff_witness :
  load_cs AsciiText.builtins Samples.environ0
  = inr (mkConn "10.210.21.48" 39000 "user@example.org" "secret" "0000") /\
  start AsciiText.builtins Samples.environ_empty_password
        (RunCryoatom.script (Scenario.env0 0 [] false) Scenario.rargs0)
        Scenario.fs0
  = (1, Scenario.fs0, []).
Proof.
  split.
  - apply (proj1 (config_loads_iff AsciiText.builtins Samples.environ0)).
    cbn [host base_port email password license].
    repeat split; try reflexivity; discriminate.
  - apply (proj2 (config_loads_iff AsciiText.builtins
                    Samples.environ_empty_password) "CS_PASSWORD").
    + right. left. reflexivity.
    + right. reflexivity.
Defined.

End ConfigFacts.

(* ===================================================================== *)
(** * Locating the map *)
(* ===================================================================== *)

Module LocateMore.

Import Trace.
Import Logic.
Import Runs.
Import RunCryoatom.

Lemma preferred_end k : In k preferred -> PyStr.endswith k "/path" = true.
Proof. intros [<-|[<-|[<-|[<-|[]]]]]; reflexivity. Qed.

Lemma choose_ret_key row explicit k :
  choose_map_field row explicit = Ret k ->
  In k (keys row) /\
  (PyStr.truthy explicit = false -> PyStr.endswith k "/path" = true).
Proof.
  unfold choose_map_field.
  assert (Hauto :
    match find (fun k => PyStr.mem k (keys row)) preferred with
    | Some k => Ret k
    | None =>
        match find (fun k => PyStr.endswith k "/path") (keys row) with
        | Some k => Ret k
        | None => Raise (RuntimeError (NoPathFieldFound (keys row)))
        end
    end = Ret k ->
    In k (keys row) /\ PyStr.endswith k "/path" = true).
  { destruct (find _ preferred) as [k1|] eqn:F1.
    - intros H. inversion H; subst k1. apply find_some in F1.
      destruct F1 as [Hin Hm]. split; [now apply StrFacts.mem_In|].
      now apply preferred_end.
    - destruct (find _ (keys row)) as [k2|] eqn:F2; [|discriminate].
      intros H. inversion H; subst k2. apply find_some in F2. exact F2. }
  destruct explicit as [e|].
  - destruct (PyStr.truthy (Some e)) eqn:T.
    + destruct (PyStr.mem e (keys row)) eqn:Hm; [|discriminate].
      intros H. inversion H; subst e.
      split; [now apply StrFacts.mem_In | discriminate].
    + intros H. destruct (Hauto H). auto.
  - intros H. destruct (Hauto H). auto.
Qed.

Lemma row_get_key row k :
  In k (keys row) -> exists v, row_get row k = Ret v /\ In (k, v) row.
Proof.
  induction row as [|[k' v'] r IH]; simpl; [intros []|].
  destruct (String.eqb k k') eqn:E.
  - apply String.eqb_eq in E. subst k'. intros _. exists v'. auto.
  - intros [H|H]; [subst; now rewrite String.eqb_refl in E|].
    destruct (IH H) as (v & Hv & Hin). exists v. auto.
Qed.

(** X14. The field [choose_map_field] returns is a key of the row, so reading it
    never fails: [locate_map] raises no exception.  It exits with 1, or
    returns the resolved value of the chosen field after finding that file.
    Without an explicit field, the chosen one ends with ["/path"]. *)
Theorem locate_map_never_raises env args prj row fs :
  let '(o, fs', evs) := locate_map env args prj row fs in
  fs' = fs /\
  match o with
  | Raise _ => False
  | SysExit c => c = 1
  | Ret p =>
      exists k v,
        choose_map_field row (map_field args) = Ret k /\
        In (k, v) row /\
        (PyStr.truthy (map_field args) = false ->
         PyStr.endswith k "/path" = true) /\
        p = resolve_map_path env (safe_dir (p_dir prj)) v /\
        Fs.mem env p fs = true
  end.
Proof.
  unfold locate_map. run_m.
  destruct (choose_map_field row (map_field args)) as [k|e|c] eqn:E; run_m.
  - destruct (choose_ret_key _ _ _ E) as [Hk Hend].
    destruct (row_get_key row k Hk) as (v & Hv & Hin). rewrite Hv. run_m.
    destruct (Fs.mem env _ fs) eqn:Hm; run_m; split; try reflexivity.
    exists k, v. auto.
  - split; reflexivity.
  - exfalso. revert E. unfold choose_map_field.
    repeat match goal with
           | |- context [match ?x with _ => _ end] => destruct x
           end; discriminate.
Qed.

Lemma locate_map_never_raises_witness :
  let env := Scenario.env0 0 [] false in
  let '(o, fs', evs) :=
    locate_map env Scenario.rargs0 Scenario.prj0 Scenario.row0 Scenario.fs0 in
  o = Ret (Scenario.P "/data/P1/J1/map_sharp.mrc").
Proof.
  intros env.
  pose proof (locate_map_never_raises env Scenario.rargs0 Scenario.prj0
                Scenario.row0 Scenario.fs0) as H.
  destruct (locate_map env Scenario.rargs0 Scenario.prj0 Scenario.row0
              Scenario.fs0) as [[o fs'] evs] eqn:E.
  destruct H as [_ H]. vm_compute in E. inversion E; subst. reflexivity.
Defined.

(** X15. The resolved map path is rooted at ["/"] and has no [".."]; when the
    project directory is absolute it does not depend on the directory the
    script was started in. *)
Theorem map_path_is_normal env base raw :
  let p := resolve_map_path env base raw in
  Pathlib.root p = "/" /\ Fs.clean (Pathlib.parts p) /\
  (Pathlib.is_absolute base = true ->
   forall env', resolve_map_path env' base raw = p).
Proof.
  intros p. unfold p, resolve_map_path.
  assert (Hn : forall q, Pathlib.root (Fs.resolve env q) = "/" /\
                         Fs.clean (Pathlib.parts (Fs.resolve env q))).
  { intros q. split; [reflexivity|]. unfold Fs.resolve, Fs.normalize.
    cbn [Pathlib.parts]. apply ResolvePath.norm_rev_clean_out. constructor. }
  destruct (Pathlib.is_absolute (Pathlib.of_string raw)) eqn:A.
  - split; [apply Hn | split; [apply Hn|]]. intros _ env'.
    unfold Fs.resolve. now rewrite A.
  - split; [apply Hn | split; [apply Hn|]]. intros Hb env'.
    unfold Fs.resolve.
    assert (Hj : Pathlib.is_absolute
                   (Pathlib.join base (Pathlib.of_string raw)) = true).
    { unfold Pathlib.join. rewrite A. exact Hb. }
    now rewrite Hj.
Qed.

(** Started in [/tmp] or in [/home/user], the same map. *)
Lemma map_path_is_normal_witness :
  resolve_map_path Samples.env_tmp (Scenario.P "/data/P1") "J1/../J2/map.mrc"
  = Scenario.P "/data/P1/J2/map.mrc" /\
  resolve_map_path (Scenario.env0 0 [] false) (Scenario.P "/data/P1")
                   "J1/../J2/map.mrc"
  = Scenario.P "/data/P1/J2/map.mrc".
Proof.
  destruct (map_path_is_normal (Scenario.env0 0 [] false)
              (Scenario.P "/data/P1") "J1/../J2/map.mrc") as (_ & _ & H).
  split; [rewrite (H eq_refl Samples.env_tmp) | ]; reflexivity.
Defined.

End LocateMore.

(* ===================================================================== *)
(** * The GPU in use *)
(* ===================================================================== *)

Module GpuUse.

Import Trace.
Import Logic.
Import Runs.

Lemma log_names_gpu g e : is_log e -> names_gpu g e.
Proof. intros (lv & s & a & ->). exact I. Qed.

(** [run_cryoatom.py] started with [--gpu g] runs the tool on [cuda:g]. *)
Lemma script_names_gpu env args g :
  RunCryoatom.gpu args = Some g ->
  emits (names_gpu g) (RunCryoatom.script env args).
Proof.
  intros Hg.
  unfold RunCryoatom.script, RunCryoatom.main, RunCryoatom.prepare,
    RunCryoatom.build_and_report, RunCryoatom.run_tool, RunCryoatom.load_row,
    RunCryoatom.locate_map, RunCryoatom.stage_inputs.
  emits_auto; try exact I.
  all: intros _; unfold RunCryoatom.tool_cmd; rewrite Hg;
    eexists; reflexivity.
Qed.

Lemma collect_names_gpu env args g :
  emits (names_gpu g) (Auto.collect env args g).
Proof.
  unfold Auto.collect, Auto.publish, Auto.job_log.
  emits_auto; try exact I.
  all: eexists; reflexivity.
Qed.

Lemma child_cmd_no_tool env args g :
  is_tool_cmd (Auto.child_cmd env args g) = false.
Proof. reflexivity. Qed.

Ltac names_gpu_list :=
  repeat first
    [ assumption | apply Forall_nil | exact I
    | apply Forall_cons | (apply Forall_app; split)
    | (eapply Forall_impl; [apply log_names_gpu | assumption]) ].

(** X16. The GPU [run_cryoatom_auto.py] settles on, the one requested or else
    the one [pick_free_gpu] returns, is the GPU the tool is run on and the
    GPU named in the job's log. *)
Theorem chosen_gpu_is_used env args fs :
  exists g evg,
    Auto.choose_gpu env args fs = (Ret g, fs, evg) /\
    (forall g', Auto.gpu args = Some g' -> g = g') /\
    let '(_, _, evs) := Auto.run env args fs in
    Forall (names_gpu g) evs.
Proof.
  destruct (ToolFailure.choose_gpu_returns env args fs)
    as (g & evg & Hg & Hlog).
  exists g, evg. split; [exact Hg|]. split.
  - intros g' Hg'. unfold Auto.choose_gpu in Hg. rewrite Hg' in Hg.
    revert Hg. run_m. intros Hg. now inversion Hg.
  - unfold Auto.run, Auto.main. unfold bind at 1. rewrite Hg.
    unfold Auto.call_run_cryoatom, Auto.run_child. run_m.
    destruct (Fs.mem env _ fs); run_m; [|names_gpu_list].
    destruct (io_denied env (Spawn _ None)); run_m.
    { names_gpu_list; intros H; rewrite child_cmd_no_tool in H;
        discriminate. }
    pose proof (script_names_gpu env (Auto.child_args args g) g eq_refl fs)
      as Hc.
    unfold RunCryoatom.run. unfold events_of in Hc.
    destruct (RunCryoatom.script env (Auto.child_args args g) fs)
      as [[o fs1] ev1]. cbn [snd] in Hc.
    destruct (exit_status o =? 0); run_m.
    + pose proof (collect_names_gpu env args g fs1) as Hk.
      unfold events_of in Hk.
      destruct (Auto.collect env args g fs1) as [[o2 fs2] ev2].
      cbn [snd] in Hk.
      names_gpu_list; intros H; rewrite child_cmd_no_tool in H;
        discriminate.
    + names_gpu_list; intros H; rewrite child_cmd_no_tool in H;
        discriminate.
Qed.

(** With the telemetry [Samples.smi_low] device 1 is picked, and the tool
    is started on [cuda:1]. *)
Lemma chosen_gpu_is_used_witness :
  let '(_, _, evs) :=
    Auto.run Samples.env_low Scenario.aargs0 Scenario.fs0 in
  Forall (names_gpu 1) evs /\
  exists pre wd, In (Spawn (pre ++ ["-d"; "cuda:1"]) wd) evs.
Proof.
  destruct (chosen_gpu_is_used Samples.env_low Scenario.aargs0
              Scenario.fs0) as (g & evg & Hg & _ & H).
  assert (g = 1) by (vm_compute in Hg; congruence). subst g.
  destruct (Auto.run Samples.env_low Scenario.aargs0 Scenario.fs0)
    as [[status fs'] evs] eqn:E.
  split; [exact H|].
  vm_compute in E. inversion E; subst; clear E.
  exists ["cryoatom"; "build"; "-s"; "/data/P1/cryoatom_P1_J1/input.fasta";
          "-v"; "/data/P1/cryoatom_P1_J1/input_map.mrc";
          "-o"; "/data/P1/cryoatom_P1_J1/out"].
  eexists. cbn [app]. repeat (first [left; reflexivity | right]).
Defined.

End GpuUse.
